(** * Babylon protocol: strategy settlement, Garden liquidity and the Lend operation

    A shallow embedding of the Solidity contracts of the repository:

    - [FundIdeas._transferIdeaRewards]  (packages/hardhat/contracts/FundIdeas.sol),
    - [Garden.payKeeper], [Garden.allocateCapitalToStrategy],
      [Garden._liquidReserve]           (contracts/gardens/Garden.sol),
    - [LendOperation.getNAV], [LendOperation.exitOperation]
                                        (contracts/strategies/operations/LendOperation.sol),

    together with a model of the Strategy life cycle ([resolveVoting],
    [executeStrategy], [unwindStrategy], [finalizeStrategy]) whose contract
    is exercised by the test-suite only.

    Solidity values of type [uint256] and [int256] are integers of [Z] with
    the range checks of SafeMath, LowGasSafeMath and SafeCast written out;
    a transaction is a function into [result], whose [Revert] case carries
    no state: a reverted call leaves every contract as it was. *)

From stdpp Require Import gmap list strings.
From Stdlib Require Import ZArith Lia.

Local Open Scope Z_scope.

Abbreviation address := N.

(** ** Reverts *)

(** The error codes of lib/BabylonErrors.sol that the modelled functions use. *)
Inductive Errors :=
| ONLY_KEEPER
| ONLY_STRATEGY
| ONLY_UNPAUSED
| ONLY_ACTIVE
| MIN_LIQUIDITY.

Inductive revert_reason :=
| BabylonError (e : Errors)   (* _require(cond, Errors.X) *)
| Message (msg : string)      (* require(cond, 'text') *)
| Arithmetic                  (* a guard of SafeMath, LowGasSafeMath or SafeCast; an array index out of bounds *)
| External.                   (* a call into a collaborator contract that reverted *)

Inductive result (A : Type) :=
| Ok (a : A)
| Revert (r : revert_reason).

Arguments Ok {A} a.
Arguments Revert {A} r.

Definition bind {A B} (m : result A) (k : A -> result B) : result B :=
  match m with
  | Ok a => k a
  | Revert r => Revert r
  end.

Notation "x <- m ;; k" := (bind m (fun x => k))
  (at level 100, m at next level, right associativity).
Notation "m ;;; k" := (bind m (fun _ => k))
  (at level 100, right associativity).

(** A transaction either commits its new state or reverts to the one it
    started from. *)
Definition commit {S} (before : S) (tx : result S) : S :=
  match tx with
  | Ok after => after
  | Revert _ => before
  end.

(** ** Checked arithmetic on uint256 *)

Module SafeMath.

Definition MAX_UINT256 : Z := 2 ^ 256 - 1.

Definition add (a b : Z) : result Z :=
  if a + b <=? MAX_UINT256 then Ok (a + b) else Revert Arithmetic.

Definition sub (a b : Z) : result Z :=
  if b <=? a then Ok (a - b) else Revert Arithmetic.

Definition mul (a b : Z) : result Z :=
  if a * b <=? MAX_UINT256 then Ok (a * b) else Revert Arithmetic.

Definition div (a b : Z) : result Z :=
  if b =? 0 then Revert Arithmetic else Ok (a / b).

(** SafeCast.toUint256 of an int256. *)
Definition toUint256 (i : Z) : result Z :=
  if 0 <=? i then Ok i else Revert Arithmetic.

(** Unary minus on a uint256 (Solidity 0.7 wraps) *)
Definition neg (a : Z) : Z := (- a) mod (MAX_UINT256 + 1).

End SafeMath.

(** ** 18-decimal fixed point (lib/PreciseUnitMath.sol) *)

Module PreciseUnitMath.
Import SafeMath.

Definition PRECISE_UNIT : Z := 10 ^ 18.

(** [a.mul(b).div(PRECISE_UNIT)]: rounds towards zero. *)
Definition preciseMul (a b : Z) : result Z :=
  p <- mul a b ;; div p PRECISE_UNIT.

(** [a.mul(PRECISE_UNIT).div(b)]. *)
Definition preciseDiv (a b : Z) : result Z :=
  p <- mul a PRECISE_UNIT ;; div p b.

End PreciseUnitMath.

(** ** FundIdeas: settlement of an executed investment idea *)

Module FundIdeas.
Import SafeMath PreciseUnitMath.

(** The fields of [struct InvestmentIdea] read by the settlement. *)
Record InvestmentIdea := {
  index : Z;
  participant : address;
  stake : Z;
  capitalRequested : Z;
  voters : list address;
  totalVotes : Z;                 (* int256 *)
  finalized : bool
}.

Record State := {
  reserveAsset : address;                     (* fund.getReserveAsset() *)
  positionBalance : Z;                        (* fund.getPositionBalance(reserveAsset), int256 *)
  votes : gmap (Z * address) Z;               (* mapping(uint256 => mapping(address => int256)) *)
  investmentsExecuted : list InvestmentIdea;
  ideaCreatorProfitPercentage : Z;
  ideaVotersProfitPercentage : Z
}.

(** The calls the settlement makes into other contracts, in order. *)
Inductive Call :=
| EtherTransfer (to : address) (value : Z)             (* idea.participant.transfer(v) *)
| ERC20Transfer (token to : address) (amount : Z)      (* ERC20(token).transfer(to, amount) *)
| WETHDeposit (value : Z)                              (* IWETH(fund.weth()).deposit{value: v}() *)
| CalculateAndEditPosition (asset : address) (newTotal delta : Z).

Definition votesOf (st : State) (ideaIndex : Z) (voter : address) : Z :=
  default 0 (votes st !! (ideaIndex, voter)).

(** [pool.mul(voterWeight.toUint256()).div(idea.totalVotes.toUint256())] *)
Definition voterShare (pool weight total : Z) : result Z :=
  w <- toUint256 weight ;;
  p <- mul pool w ;;
  t <- toUint256 total ;;
  div p t.

(** The loops over [idea.voters]: one transfer per voter whose weight
    passes [pays]. *)
Fixpoint payVoters (st : State) (pays : Z -> bool) (ideaIndex pool total : Z)
         (vs : list address) : result (list Call) :=
  match vs with
  | [] => Ok []
  | v :: vs' =>
      let voterWeight := votesOf st ideaIndex v in
      if pays voterWeight then
        amount <- voterShare pool voterWeight total ;;
        rest <- payVoters st pays ideaIndex pool total vs' ;;
        Ok (ERC20Transfer (reserveAsset st) v amount :: rest)
      else payVoters st pays ideaIndex pool total vs'
  end.

(** The amount the loss branch slashes:
    [stakeToSlash = idea.stake;
     if (capitalReturned.add(idea.stake) > idea.capitalRequested)
       stakeToSlash = capitalReturned.add(idea.stake).sub(idea.capitalRequested);] *)
Definition stakeToSlash (idea : InvestmentIdea) (capitalReturned : Z) : result Z :=
  s <- add capitalReturned (stake idea) ;;
  if s >? capitalRequested idea then sub s (capitalRequested idea)
  else Ok (stake idea).

(** The position update that ends both branches. [reserveAssetDelta] is
    still 0 there: every [reserveAssetDelta.add(..)] of the body drops
    its result. *)
Definition editPosition (st : State) (reserveAssetDelta : Z) : result (list Call) :=
  newTotal <- toUint256 (positionBalance st + reserveAssetDelta) ;;
  Ok [CalculateAndEditPosition (reserveAsset st) newTotal reserveAssetDelta].

Definition _transferIdeaRewards (st : State) (_ideaIndex capitalReturned : Z)
  : result (list Call) :=
  match investmentsExecuted st !! Z.to_nat _ideaIndex with
  | None => Revert Arithmetic
  | Some idea =>
      let reserveAssetDelta := 0 in
      if capitalReturned >? capitalRequested idea then
        let profits := capitalReturned - capitalRequested idea in
        ideatorProfits <- preciseMul (ideaCreatorProfitPercentage st) profits ;;
        add reserveAssetDelta (neg ideatorProfits) ;;;
        votersProfits <- preciseMul (ideaVotersProfitPercentage st) profits ;;
        paid <- payVoters st (fun w => w >? 0) _ideaIndex votersProfits
                          (totalVotes idea) (voters idea) ;;
        add reserveAssetDelta (neg votersProfits) ;;;
        tail <- editPosition st reserveAssetDelta ;;
        Ok (EtherTransfer (participant idea) (stake idea)
            :: ERC20Transfer (reserveAsset st) (participant idea) ideatorProfits
            :: paid ++ tail)
      else
        slashed <- stakeToSlash idea capitalReturned ;;
        add reserveAssetDelta slashed ;;;
        votersRewards <- preciseMul (ideaVotersProfitPercentage st) slashed ;;
        paid <- payVoters st (fun w => w <? 0) _ideaIndex votersRewards
                          (totalVotes idea) (voters idea) ;;
        add reserveAssetDelta (neg slashed) ;;;
        tail <- editPosition st reserveAssetDelta ;;
        Ok (WETHDeposit slashed :: paid ++ tail)
  end.

(** The slash of the specification's loss branch,
    [min(stake, capitalAllocated - capitalReturned)]; the capital of an
    idea is its [capitalRequested]. *)
Definition stakeToSlash_spec (idea : InvestmentIdea) (capitalReturned : Z) : Z :=
  Z.min (stake idea) (capitalRequested idea - capitalReturned).

End FundIdeas.

(** ** The ledger of the reserve asset *)

(** The reserve asset is an ERC20 outside the repository (WETH in the
    tests). Its ledger maps holders to balances; a transfer reverts when
    the sender holds less than the amount. The total supply of the token
    fits a uint256, so crediting the receiver cannot overflow. *)
Module ERC20.

Definition balanceOf (ledger : gmap address Z) (holder : address) : Z :=
  default 0 (ledger !! holder).

Definition transfer (from to : address) (amount : Z) (ledger : gmap address Z)
  : result (gmap address Z) :=
  if amount <=? balanceOf ledger from then
    let debited := <[from := balanceOf ledger from - amount]> ledger in
    Ok (<[to := balanceOf debited to + amount]> debited)
  else Revert External.

End ERC20.

(** ** Garden *)

Module Garden.
Import SafeMath PreciseUnitMath.

(** What the Garden reads from [IBabController(controller)]. *)
Record Controller := {
  isPaused : address -> bool;
  isValidKeeper : address -> bool;
  protocolManagementFee : Z;
  treasury : address
}.

(** [msg.sender] and [block.timestamp] of a call. *)
Record Msg := {
  sender : address;
  timestamp : Z
}.

(** The storage of the Garden that the modelled functions touch, and
    the ledger of its reserve asset. *)
Record State := {
  this : address;                          (* address(this) *)
  active : bool;
  reserveAssetRewardsSetAside : Z;
  reserveAssetPrincipalWindow : Z;
  withdrawalsOpenUntil : Z;
  strategyMapping : gmap address bool;
  keeperDebt : Z;
  ledger : gmap address Z                  (* IERC20(reserveAsset) *)
}.

Definition set_keeperDebt (d : Z) (g : State) : State :=
  {| this := this g; active := active g;
     reserveAssetRewardsSetAside := reserveAssetRewardsSetAside g;
     reserveAssetPrincipalWindow := reserveAssetPrincipalWindow g;
     withdrawalsOpenUntil := withdrawalsOpenUntil g;
     strategyMapping := strategyMapping g;
     keeperDebt := d; ledger := ledger g |}.

Definition set_ledger (l : gmap address Z) (g : State) : State :=
  {| this := this g; active := active g;
     reserveAssetRewardsSetAside := reserveAssetRewardsSetAside g;
     reserveAssetPrincipalWindow := reserveAssetPrincipalWindow g;
     withdrawalsOpenUntil := withdrawalsOpenUntil g;
     strategyMapping := strategyMapping g;
     keeperDebt := keeperDebt g; ledger := l |}.


Definition _require (cond : bool) (e : Errors) : result unit :=
  if cond then Ok tt else Revert (BabylonError e).

Definition _onlyUnpaused (ctl : Controller) (g : State) : result unit :=
  _require (negb (isPaused ctl (this g))) ONLY_UNPAUSED.

Definition isStrategy (g : State) (a : address) : bool :=
  default false (strategyMapping g !! a).

Definition _onlyStrategy (ctl : Controller) (msg : Msg) (g : State) : result unit :=
  _onlyUnpaused ctl g ;;;
  _require (isStrategy g (sender msg)) ONLY_STRATEGY.

Definition _onlyActive (ctl : Controller) (g : State) : result unit :=
  _onlyUnpaused ctl g ;;;
  _require (active g) ONLY_ACTIVE.

(** [balanceOf(this).sub(reserveAssetPrincipalWindow).sub(reserveAssetRewardsSetAside)] *)
Definition _liquidReserve (g : State) : result Z :=
  afterWindow <- sub (ERC20.balanceOf (ledger g) (this g)) (reserveAssetPrincipalWindow g) ;;
  sub afterWindow (reserveAssetRewardsSetAside g).

(** The integer [_liquidReserve] computes when neither subtraction
    reverts. *)
Definition liquidOf (g : State) : Z :=
  ERC20.balanceOf (ledger g) (this g) - reserveAssetPrincipalWindow g
  - reserveAssetRewardsSetAside g.

Definition _reenableReserveForStrategies (msg : Msg) (g : State) : State :=
  if timestamp msg >=? withdrawalsOpenUntil g then
    {| this := this g; active := active g;
       reserveAssetRewardsSetAside := reserveAssetRewardsSetAside g;
       reserveAssetPrincipalWindow := 0;
       withdrawalsOpenUntil := 0;
       strategyMapping := strategyMapping g;
       keeperDebt := keeperDebt g; ledger := ledger g |}
  else g.

(** [IERC20(reserveAsset).safeTransfer(to, amount)] from the Garden. *)
Definition safeTransfer (to : address) (amount : Z) (g : State) : result State :=
  l <- ERC20.transfer (this g) to amount (ledger g) ;;
  Ok (set_ledger l g).

Definition _payProtocolFeeFromGarden (ctl : Controller) (_feeQuantity : Z) (g : State)
  : result State :=
  safeTransfer (treasury ctl) _feeQuantity g.

Definition payKeeper (ctl : Controller) (msg : Msg) (g : State)
           (_keeper : address) (_fee : Z) : result State :=
  _require (isValidKeeper ctl _keeper) ONLY_KEEPER ;;;
  _onlyStrategy ctl msg g ;;;
  debt <- add (keeperDebt g) _fee ;;
  let g := set_keeperDebt debt g in
  if keeperDebt g >? 0 then
    liquid <- _liquidReserve g ;;
    if liquid >=? keeperDebt g then
      g <- safeTransfer _keeper (keeperDebt g) g ;;
      Ok (set_keeperDebt 0 g)
    else Ok g
  else Ok g.

Definition allocateCapitalToStrategy (ctl : Controller) (msg : Msg) (g : State)
           (_capital : Z) : result State :=
  _onlyStrategy ctl msg g ;;;
  _onlyActive ctl g ;;;
  let g := _reenableReserveForStrategies msg g in
  protocolMgmtFee <- preciseMul (protocolManagementFee ctl) _capital ;;
  needed <- add _capital protocolMgmtFee ;;
  liquid <- _liquidReserve g ;;
  _require (needed <=? liquid) MIN_LIQUIDITY ;;;
  g <- _payProtocolFeeFromGarden ctl protocolMgmtFee g ;;
  safeTransfer (sender msg) _capital g.


End Garden.

(** ** Lend operation *)

Module LendOperation.
Import SafeMath PreciseUnitMath.

(** The contracts a Lend operation calls, over a state of the chain [W]:
    the calling strategy ([IStrategy(msg.sender)]), the ERC20 tokens, the
    lend integration ([ILendIntegration(_integration)]), the garden, and
    what [Operation], the base contract, provides ([onlyStrategy],
    [_getPrice]) together with [SafeDecimalMath.normalizeDecimals]. *)
Class Chain (W : Type) := {
  onlyStrategy : W -> address -> result unit;
  isStrategyActive : W -> address -> bool;
  trade : W -> address -> address -> Z -> address -> result W;
  balanceOf : W -> address -> address -> Z;
  reserveAsset : W -> address -> address;
  getInvestmentToken : W -> address -> address -> result address;
  getExchangeRatePerToken : W -> address -> address -> result Z;
  getExpectedShares : W -> address -> address -> Z -> result Z;
  supplyTokens : W -> address -> address -> address -> Z -> Z -> result W;
  redeemTokens : W -> address -> address -> address -> Z -> Z -> result W;
  _getPrice : W -> address -> address -> result Z;
  normalizeDecimals : W -> address -> Z -> result Z
}.

(** Modelled from the spec: the constant [HUNDRED_PERCENT] of Operation.sol,
    100% in the 18-decimal percentages of the protocol (1% = 1e16). *)
Definition HUNDRED_PERCENT : Z := 10 ^ 18.

Section Operation.
Context {W : Type} `{Chain W}.

(** The slippage constant of Operation.sol. *)
Variable SLIPPAGE_ALLOWED : Z.

Definition executeOperation (w : W) (msgSender _asset : address) (_capital : Z)
           (_data _integration : address) : result (W * (address * Z * Z)) :=
  onlyStrategy w msgSender ;;;
  let assetToken := _data in
  w <- (if decide (assetToken = _asset) then Ok w
        else trade w msgSender _asset _capital assetToken) ;;
  let numTokensToSupply := balanceOf w assetToken msgSender in
  exactAmount <- getExpectedShares w _integration assetToken numTokensToSupply ;;
  slip <- preciseMul exactAmount SLIPPAGE_ALLOWED ;;
  minAmountExpected <- sub exactAmount slip ;;
  w <- supplyTokens w _integration msgSender assetToken numTokensToSupply minAmountExpected ;;
  Ok (w, (assetToken, numTokensToSupply, 1)).

Definition exitOperation (w : W) (msgSender : address) (_percentage : Z)
           (_data _garden _integration : address) : result W :=
  onlyStrategy w msgSender ;;;
  if _percentage <=? HUNDRED_PERCENT then
    let assetToken := _data in
    investmentToken <- getInvestmentToken w _integration assetToken ;;
    numTokensToRedeem <- preciseMul (balanceOf w investmentToken msgSender) _percentage ;;
    rate <- getExchangeRatePerToken w _integration assetToken ;;
    slip <- preciseMul numTokensToRedeem SLIPPAGE_ALLOWED ;;
    net <- sub numTokensToRedeem slip ;;
    minOut <- mul rate net ;;
    w <- redeemTokens w _integration msgSender assetToken numTokensToRedeem minOut ;;
    if decide (assetToken = reserveAsset w _garden) then Ok w
    else trade w msgSender assetToken (balanceOf w assetToken msgSender)
               (reserveAsset w _garden)
  else Revert (Message "Unwind Percentage <= 100%").

Definition getNAV (w : W) (msgSender _assetToken _garden _integration : address)
  : result Z :=
  onlyStrategy w msgSender ;;;
  if negb (isStrategyActive w msgSender) then Ok 0
  else
    investmentToken <- getInvestmentToken w _integration _assetToken ;;
    let numTokensToRedeem := balanceOf w investmentToken msgSender in
    rate <- getExchangeRatePerToken w _integration _assetToken ;;
    assetTokensAmount <- mul rate numTokensToRedeem ;;
    price <- _getPrice w (reserveAsset w _garden) _assetToken ;;
    normalized <- normalizeDecimals w _assetToken assetTokensAmount ;;
    NAV <- preciseDiv normalized price ;;
    if NAV =? 0 then Revert (Message "NAV has to be bigger 0") else Ok NAV.

End Operation.

End LendOperation.

(** ** Strategy life cycle *)

(** Strategy.sol is not among the sources: the repository has its tests
    and its callers only. The module below models the contract from the
    specification, sections 3, 4.1, 4.2 and 7. *)
Module Strategy.

(** Modelled from the spec: the error taxonomy of section 7 that the
    Strategy entry points raise. The last three name requirements for
    which the specification gives no error name. *)
Inductive Error :=
| Unauthorized
| VotingWindowClosed
| VotingAlreadyResolved
| CooldownNotElapsed
| DurationNotElapsed
| FeeTooHigh
| InsufficientLiquidity
| InsufficientCapitalToUnwind
| AlreadyFinalized
| SlippageExceeded
| LengthMismatch
| NotResolved
| NotActive.

Inductive outcome (A : Type) :=
| Success (a : A)
| Failure (e : Error).

Arguments Success {A} a.
Arguments Failure {A} e.

Definition andThen {A B} (m : outcome A) (k : A -> outcome B) : outcome B :=
  match m with
  | Success a => k a
  | Failure e => Failure e
  end.

Definition require (cond : bool) (e : Error) : outcome unit :=
  if cond then Success tt else Failure e.

Notation "'check' c 'otherwise' e ; k" := (andThen (require c e) (fun _ => k))
  (at level 100, c at level 9, e at level 9, right associativity).

(** A call that fails undoes all its changes (sections 5 and 7). *)
Definition settle {S} (before : S) (call : outcome S) : S :=
  match call with
  | Success after => after
  | Failure _ => before
  end.

(** Modelled from the spec: the economic parameters of section 3, fixed at
    proposal. *)
Record Params := {
  strategist : address;
  garden : address;
  stake : Z;
  capitalRequested : Z;
  duration : Z;
  enteredAt : Z
}.

(** Modelled from the spec: the voting state of section 3. *)
Record Voting := {
  voters : gset address;
  votes : gmap address Z;
  absoluteTotalVotes : Z;
  totalVotes : Z;
  resolved : bool;
  resolvedAt : Z
}.

(** Modelled from the spec: the capital state, temporal markers and
    life-cycle flags of section 3. *)
Record Capital := {
  capitalAllocated : Z;
  capitalReturned : Z;
  executedAt : Z;
  exitedAt : Z;
  active : bool;
  finalized : bool
}.

(** Modelled from the spec: a strategy with the two things it moves at its
    Garden (section 6):
    the liquid reserve it draws capital from and returns it to, and the
    fees handed to [payKeeper] for each keeper. *)
Record State := {
  params : Params;
  voting : Voting;
  capital : Capital;
  gardenReserve : Z;
  keeperFees : gmap address Z
}.

(** Modelled from the spec: the snapshot of the Controller's registry and
    bounds injected at call time (section 9), and the outcome of the
    OperationExecutor for this call. *)
Record Env := {
  isValidKeeper : address -> bool;
  maxFee : Z;
  cooldownPeriod : Z;
  votingWindow : Z;
  enterOperations : Z -> bool;          (* the plan is entered with this capital *)
  operationsNAV : Z;                    (* the NAV of the operations, in reserve asset *)
  exitOperations : option Z             (* reserve asset recovered by a full exit *)
}.

Record Msg := {
  sender : address;
  timestamp : Z
}.



(** Modelled from the spec: a strategy as [addStrategy] creates it. *)
Definition propose (p : Params) (reserve : Z) : State :=
  {| params := p;
     voting := {| voters := ∅; votes := ∅; absoluteTotalVotes := 0; totalVotes := 0;
                  resolved := false; resolvedAt := 0 |};
     capital := {| capitalAllocated := 0; capitalReturned := 0; executedAt := 0;
                   exitedAt := 0; active := false; finalized := false |};
     gardenReserve := reserve;
     keeperFees := ∅ |}.

Definition getUserVotes (s : State) (voter : address) : Z :=
  default 0 (votes (voting s) !! voter).

Definition feesOf (s : State) (keeper : address) : Z :=
  default 0 (keeperFees s !! keeper).

Definition payKeeper (keeper : address) (fee : Z) (s : State) : State :=
  {| params := params s; voting := voting s; capital := capital s;
     gardenReserve := gardenReserve s;
     keeperFees := <[keeper := feesOf s keeper + fee]> (keeperFees s) |}.

(** Each voter's power is written to the mapping in the order of the
    input. *)
Fixpoint recordVotes (voterAddresses : list address) (voterPowers : list Z)
         (m : gmap address Z) : gmap address Z :=
  match voterAddresses, voterPowers with
  | v :: vs, p :: ps => recordVotes vs ps (<[v := p]> m)
  | _, _ => m
  end.

(** Modelled from the spec: [resolveVoting] of section 4.1. *)
Definition resolveVoting (env : Env) (msg : Msg) (s : State)
           (voterAddresses : list address) (voterPowers : list Z)
           (absoluteTotal netTotal keeperFee : Z) : outcome State :=
  check (isValidKeeper env (sender msg)) otherwise Unauthorized ;
  check (timestamp msg <=? enteredAt (params s) + votingWindow env)
    otherwise VotingWindowClosed ;
  check (negb (resolved (voting s))) otherwise VotingAlreadyResolved ;
  check (length voterAddresses =? length voterPowers)%nat otherwise LengthMismatch ;
  Success (payKeeper (sender msg) keeperFee
    {| params := params s;
       voting := {| voters := list_to_set voterAddresses;
                    votes := recordVotes voterAddresses voterPowers (votes (voting s));
                    absoluteTotalVotes := absoluteTotal;
                    totalVotes := netTotal;
                    resolved := true;
                    resolvedAt := timestamp msg |};
       capital := capital s;
       gardenReserve := gardenReserve s;
       keeperFees := keeperFees s |}).

(** Modelled from the spec: the keeper-fee protection of section 4.2,
    shared by [executeStrategy] and [finalizeStrategy]. *)
Definition onlyKeeper (env : Env) (msg : Msg) (fee : Z) : outcome unit :=
  check (isValidKeeper env (sender msg)) otherwise Unauthorized ;
  check (fee <=? maxFee env) otherwise FeeTooHigh ;
  Success tt.

(** Modelled from the spec: [executeStrategy] of section 4.2. The first
    call sets [executedAt] and [active]; later calls add capital. *)
Definition executeStrategy (env : Env) (msg : Msg) (s : State) (amount fee : Z)
  : outcome State :=
  let c := capital s in
  andThen (onlyKeeper env msg fee) (fun _ =>
  check (resolved (voting s)) otherwise NotResolved ;
  check (resolvedAt (voting s) + cooldownPeriod env <=? timestamp msg)
    otherwise CooldownNotElapsed ;
  check (negb (finalized c)) otherwise AlreadyFinalized ;
  check (capitalAllocated c + amount <=? capitalRequested (params s))
    otherwise InsufficientLiquidity ;
  check (amount <=? gardenReserve s) otherwise InsufficientLiquidity ;
  check (enterOperations env amount) otherwise SlippageExceeded ;
  Success (payKeeper (sender msg) fee
    {| params := params s;
       voting := voting s;
       capital := {| capitalAllocated := capitalAllocated c + amount;
                     capitalReturned := capitalReturned c;
                     executedAt := if active c then executedAt c else timestamp msg;
                     exitedAt := exitedAt c;
                     active := true;
                     finalized := finalized c |};
       gardenReserve := gardenReserve s - amount;
       keeperFees := keeperFees s |})).

(** Modelled from the spec: [unwindStrategy] of section 4.2. The amount is
    what the caller passes, the request with the buffer already on top of
    it when the caller is [Garden.withdraw]; the strategy adds no buffer of
    its own. The call fails with InsufficientCapitalToUnwind when the
    active capital is less than the amount, and when the NAV of the
    operations does not cover it (scenario D). *)
Definition unwindStrategy (env : Env) (msg : Msg) (s : State) (amountToUnwind : Z)
  : outcome State :=
  let c := capital s in
  check (bool_decide (sender msg = garden (params s))
         || bool_decide (sender msg = strategist (params s)))
    otherwise Unauthorized ;
  check (active c) otherwise NotActive ;
  check (negb (finalized c)) otherwise AlreadyFinalized ;
  check (amountToUnwind <=? capitalAllocated c)
    otherwise InsufficientCapitalToUnwind ;
  check (amountToUnwind <=? operationsNAV env)
    otherwise InsufficientCapitalToUnwind ;
  Success
    {| params := params s;
       voting := voting s;
       capital := {| capitalAllocated := capitalAllocated c - amountToUnwind;
                     capitalReturned := capitalReturned c;
                     executedAt := executedAt c;
                     exitedAt := exitedAt c;
                     active := active c;
                     finalized := finalized c |};
       gardenReserve := gardenReserve s + amountToUnwind;
       keeperFees := keeperFees s |}.

(** Modelled from the spec: [finalizeStrategy] of section 4.2, up to the
    hand-off to the reward settlement. *)
Definition finalizeStrategy (env : Env) (msg : Msg) (s : State) (fee : Z)
  : outcome State :=
  let c := capital s in
  andThen (onlyKeeper env msg fee) (fun _ =>
  check (active c) otherwise NotActive ;
  check (negb (finalized c)) otherwise AlreadyFinalized ;
  check (executedAt c + duration (params s) <=? timestamp msg)
    otherwise DurationNotElapsed ;
  match exitOperations env with
  | None => Failure SlippageExceeded
  | Some recovered =>
      Success (payKeeper (sender msg) fee
        {| params := params s;
           voting := voting s;
           capital := {| capitalAllocated := capitalAllocated c;
                         capitalReturned := recovered;
                         executedAt := executedAt c;
                         exitedAt := timestamp msg;
                         active := active c;
                         finalized := true |};
           gardenReserve := gardenReserve s + recovered;
           keeperFees := keeperFees s |})
  end).

(** Modelled from the spec: the mutating entry points of section 6 as one
    transition function; a transaction that fails leaves the strategy as it
    was (section 5). *)
Inductive Call :=
| ResolveVoting (voterAddresses : list address) (voterPowers : list Z)
                (absoluteTotal netTotal keeperFee : Z)
| ExecuteStrategy (amount fee : Z)
| UnwindStrategy (amountToUnwind : Z)
| FinalizeStrategy (fee : Z).

Definition step (env : Env) (msg : Msg) (s : State) (c : Call) : outcome State :=
  match c with
  | ResolveVoting vs ps absoluteTotal netTotal fee =>
      resolveVoting env msg s vs ps absoluteTotal netTotal fee
  | ExecuteStrategy amount fee => executeStrategy env msg s amount fee
  | UnwindStrategy amount => unwindStrategy env msg s amount
  | FinalizeStrategy fee => finalizeStrategy env msg s fee
  end.

(** Amounts are unsigned in the interface. *)
Definition unsignedArgs (c : Call) : Prop :=
  match c with
  | ResolveVoting _ _ absoluteTotal _ fee => 0 <= absoluteTotal /\ 0 <= fee
  | ExecuteStrategy amount fee => 0 <= amount /\ 0 <= fee
  | UnwindStrategy amount => 0 <= amount
  | FinalizeStrategy fee => 0 <= fee
  end.

Record Tx := {
  txEnv : Env;
  txMsg : Msg;
  txCall : Call
}.

Definition apply (s : State) (tx : Tx) : State :=
  settle s (step (txEnv tx) (txMsg tx) s (txCall tx)).

Definition history (s : State) (txs : list Tx) : State := foldl apply s txs.

(** Modelled from the spec: the invariants of section 3. *)
Definition wellFormed (s : State) : Prop :=
  (resolved (voting s) = false ->
   votes (voting s) = ∅ /\ active (capital s) = false) /\
  (finalized (capital s) = true ->
   active (capital s) = true /\
   executedAt (capital s) + duration (params s) <= exitedAt (capital s)) /\
  0 <= capitalAllocated (capital s) <= capitalRequested (params s).

End Strategy.

(** * Example states *)

(** A finalized idea with 2 ether of capital and a stake of 1 ether, as in
    scenarios B and C, and nobody on its voters list. *)
Definition lossIdea : FundIdeas.InvestmentIdea :=
  {| FundIdeas.index := 1;
     FundIdeas.participant := 11%N;
     FundIdeas.stake := 10 ^ 18;
     FundIdeas.capitalRequested := 2 * 10 ^ 18;
     FundIdeas.voters := [];
     FundIdeas.totalVotes := 0;
     FundIdeas.finalized := true |}.

Definition lossFund : FundIdeas.State :=
  {| FundIdeas.reserveAsset := 1%N;
     FundIdeas.positionBalance := 6 * 10 ^ 18;
     FundIdeas.votes := ∅;
     FundIdeas.investmentsExecuted := [lossIdea];
     FundIdeas.ideaCreatorProfitPercentage := 15 * 10 ^ 16;
     FundIdeas.ideaVotersProfitPercentage := 5 * 10 ^ 16 |}.


(** A controller with keeper 9, treasury 8 and a management fee of 0.5%. *)
Definition controller0 : Garden.Controller :=
  {| Garden.isPaused := fun _ => false;
     Garden.isValidKeeper := fun a => bool_decide (a = 9%N);
     Garden.protocolManagementFee := 5 * 10 ^ 15;
     Garden.treasury := 8%N |}.

(** A garden at address 100 with one strategy, 50, holding [balance] of its
    reserve asset, with a withdrawal window open until time 1000. *)
Definition gardenWith (balance window setAside debt : Z) : Garden.State :=
  {| Garden.this := 100%N;
     Garden.active := true;
     Garden.reserveAssetRewardsSetAside := setAside;
     Garden.reserveAssetPrincipalWindow := window;
     Garden.withdrawalsOpenUntil := 1000;
     Garden.strategyMapping := {[ 50%N := true ]};
     Garden.keeperDebt := debt;
     Garden.ledger := {[ 100%N := balance ]} |}.

Definition fromStrategy (now : Z) : Garden.Msg :=
  {| Garden.sender := 50%N; Garden.timestamp := now |}.

(** A small chain for the Lend operation: token holdings, one strategy
    (address 50) that is active or not, WETH (1) as the reserve asset of
    every garden, an oracle that may have no price, and a lend integration
    that mints one investment token ([asset + 1000]) per asset token. *)
Record Market := {
  holdings : gmap (address * address) Z;     (* (token, holder) *)
  strategyActive : bool;
  oraclePrice : option Z
}.

Definition held (m : Market) (token holder : address) : Z :=
  default 0 (holdings m !! (token, holder)).

Definition swap (m : Market) (holder from : address) (amount : Z) (to : address)
  : result Market :=
  if amount <=? held m from holder then
    let debited := <[(from, holder) := held m from holder - amount]> (holdings m) in
    Ok {| holdings := <[(to, holder) := default 0 (debited !! (to, holder)) + amount]> debited;
          strategyActive := strategyActive m;
          oraclePrice := oraclePrice m |}
  else Revert External.

#[export] Instance market_chain : LendOperation.Chain Market := {
  LendOperation.onlyStrategy _ a :=
    if bool_decide (a = 50%N) then Ok tt else Revert (Message "Sender must be a strategy");
  LendOperation.isStrategyActive m _ := strategyActive m;
  LendOperation.trade m strategy from amount to := swap m strategy from amount to;
  LendOperation.balanceOf := held;
  LendOperation.reserveAsset _ _ := 1%N;
  LendOperation.getInvestmentToken _ _ asset := Ok (asset + 1000)%N;
  LendOperation.getExchangeRatePerToken _ _ _ := Ok 1;
  LendOperation.getExpectedShares _ _ _ n := Ok n;
  LendOperation.supplyTokens m _ strategy asset n _ := swap m strategy asset n (asset + 1000)%N;
  LendOperation.redeemTokens m _ strategy asset n _ := swap m strategy (asset + 1000)%N n asset;
  LendOperation._getPrice m _ _ :=
    match oraclePrice m with Some p => Ok p | None => Revert External end;
  LendOperation.normalizeDecimals _ _ q := Ok q
}.

(** The strategy holds 200 investment tokens of DAI (asset 2). *)
Definition lentMarket (isActive : bool) (price : option Z) : Market :=
  {| holdings := {[ (1002%N, 50%N) := 200 ]};
     strategyActive := isActive;
     oraclePrice := price |}.

(** Scenario A: a strategy asking for 10 ether with a stake of 1 ether and a
    duration of 30 days, proposed at time 1000 by address 11 in garden 100,
    whose reserve holds 12 ether; keeper 9, a fee ceiling of 10^15, a
    cooldown of one day and a voting window of seven. *)
Definition scenarioParams : Strategy.Params :=
  {| Strategy.strategist := 11%N;
     Strategy.garden := 100%N;
     Strategy.stake := 10 ^ 18;
     Strategy.capitalRequested := 10 * 10 ^ 18;
     Strategy.duration := 30 * 86400;
     Strategy.enteredAt := 1000 |}.

Definition scenarioEnv : Strategy.Env :=
  {| Strategy.isValidKeeper := fun a => bool_decide (a = 9%N);
     Strategy.maxFee := 10 ^ 15;
     Strategy.cooldownPeriod := 86400;
     Strategy.votingWindow := 7 * 86400;
     Strategy.enterOperations := fun _ => true;
     Strategy.operationsNAV := 2 * 10 ^ 18;
     Strategy.exitOperations := Some (9 * 10 ^ 17) |}.

Definition byKeeper (now : Z) : Strategy.Msg :=
  {| Strategy.sender := 9%N; Strategy.timestamp := now |}.

Definition byStrategist (now : Z) : Strategy.Msg :=
  {| Strategy.sender := 11%N; Strategy.timestamp := now |}.



Definition proposed : Strategy.State := Strategy.propose scenarioParams (12 * 10 ^ 18).

(** The votes of scenario A: voters 21, 22 and 23 with powers +5, +3, -2. *)
Definition voted : Strategy.State :=
  Strategy.apply proposed
    {| Strategy.txEnv := scenarioEnv; Strategy.txMsg := byKeeper 2000;
       Strategy.txCall := Strategy.ResolveVoting [21%N; 22%N; 23%N] [5; 3; -2] 10 6 42 |}.

(** Scenario B: 2 ether executed two days later for a keeper fee of 42. *)
Definition executed : Strategy.State :=
  Strategy.apply voted
    {| Strategy.txEnv := scenarioEnv; Strategy.txMsg := byKeeper (2000 + 2 * 86400);
       Strategy.txCall := Strategy.ExecuteStrategy (2 * 10 ^ 18) 42 |}.

(** [lentMarket] after redeeming [n] investment tokens, and after trading
    the DAI received to WETH. *)
Definition redeemedMarket (n : Z) : Market :=
  match swap (lentMarket true None) 50%N 1002%N n 2%N with
  | Ok m => m
  | Revert _ => lentMarket true None
  end.

Definition exitedMarket (n : Z) : Market :=
  match swap (redeemedMarket n) 50%N 2%N n 1%N with
  | Ok m => m
  | Revert _ => redeemedMarket n
  end.

(** * The rest of the Garden *)

(** ** Checked arithmetic on int256 *)

Module SignedSafeMath.

Definition MIN_INT256 : Z := - 2 ^ 255.
Definition MAX_INT256 : Z := 2 ^ 255 - 1.

Definition add (a b : Z) : result Z :=
  if (MIN_INT256 <=? a + b) && (a + b <=? MAX_INT256) then Ok (a + b)
  else Revert Arithmetic.

End SignedSafeMath.

(** ** Strategies, withdrawal windows and locked stakes *)

Module GardenBook.
Import SafeMath PreciseUnitMath.

Definition withdrawalWindowAfterStrategyCompletes : Z := 7 * 86400.

(** What the Garden reads from [IStrategy(strategy)]. *)
Record StrategyView := {
  strategist : address;
  stake : Z;
  garden : address;
  isStrategyActive : bool;
  capitalAllocated : Z
}.

Record Contributor := {
  lastDepositAt : Z;
  initialDepositAt : Z;
  claimedAt : Z;
  claimedBABL : Z;
  claimedRewards : Z;
  withdrawnSince : Z;
  totalDeposits : Z
}.

(** Storage set at initialization and by [makeGardenPublic]. *)
Record Settings := {
  reserveAsset : address;
  controller : address;
  creator : address;
  guestListEnabled : bool;
  depositHardlock : Z
}.

(** [strategies], [finalizedStrategies] and [absoluteReturns]. *)
Record Registry := {
  strategies : list address;
  finalizedStrategies : list address;
  absoluteReturns : Z                      (* int256 *)
}.

(** The garden token: [_balances] and [_totalSupply] of ERC20Upgradeable. *)
Record Token := {
  shares : gmap address Z;
  totalSupply : Z
}.

Record Members := {
  contributors : gmap address Contributor;
  totalContributors : Z;
  principal : Z;
  pid : Z
}.

(** The ether of each account, and the BABL the rewards distributor was
    asked to send. *)
Record Outside := {
  ether : gmap address Z;
  bablSent : list (address * Z)
}.

(** The storage of the Garden: the part of [Garden.State] and the rest. *)
Record State := {
  base : Garden.State;
  settings : Settings;
  registry : Registry;
  token : Token;
  members : Members;
  outside : Outside
}.

Definition set_base (g : Garden.State) (s : State) : State :=
  {| base := g; settings := settings s; registry := registry s; token := token s;
     members := members s; outside := outside s |}.

Definition set_settings (v : Settings) (s : State) : State :=
  {| base := base s; settings := v; registry := registry s; token := token s;
     members := members s; outside := outside s |}.

Definition set_registry (r : Registry) (s : State) : State :=
  {| base := base s; settings := settings s; registry := r; token := token s;
     members := members s; outside := outside s |}.

Definition set_token (t : Token) (s : State) : State :=
  {| base := base s; settings := settings s; registry := registry s; token := t;
     members := members s; outside := outside s |}.

Definition set_members (m : Members) (s : State) : State :=
  {| base := base s; settings := settings s; registry := registry s; token := token s;
     members := m; outside := outside s |}.

Definition set_outside (o : Outside) (s : State) : State :=
  {| base := base s; settings := settings s; registry := registry s; token := token s;
     members := members s; outside := o |}.

(** Updates of the fields of [Garden.State]. *)
Definition set_window (openUntil setAside window : Z) (g : Garden.State) : Garden.State :=
  {| Garden.this := Garden.this g; Garden.active := Garden.active g;
     Garden.reserveAssetRewardsSetAside := setAside;
     Garden.reserveAssetPrincipalWindow := window;
     Garden.withdrawalsOpenUntil := openUntil;
     Garden.strategyMapping := Garden.strategyMapping g;
     Garden.keeperDebt := Garden.keeperDebt g; Garden.ledger := Garden.ledger g |}.

Definition set_strategyMapping (m : gmap address bool) (g : Garden.State) : Garden.State :=
  {| Garden.this := Garden.this g; Garden.active := Garden.active g;
     Garden.reserveAssetRewardsSetAside := Garden.reserveAssetRewardsSetAside g;
     Garden.reserveAssetPrincipalWindow := Garden.reserveAssetPrincipalWindow g;
     Garden.withdrawalsOpenUntil := Garden.withdrawalsOpenUntil g;
     Garden.strategyMapping := m;
     Garden.keeperDebt := Garden.keeperDebt g; Garden.ledger := Garden.ledger g |}.

Definition set_active (b : bool) (g : Garden.State) : Garden.State :=
  {| Garden.this := Garden.this g; Garden.active := b;
     Garden.reserveAssetRewardsSetAside := Garden.reserveAssetRewardsSetAside g;
     Garden.reserveAssetPrincipalWindow := Garden.reserveAssetPrincipalWindow g;
     Garden.withdrawalsOpenUntil := Garden.withdrawalsOpenUntil g;
     Garden.strategyMapping := Garden.strategyMapping g;
     Garden.keeperDebt := Garden.keeperDebt g; Garden.ledger := Garden.ledger g |}.

(** [balanceOf(account)] of the garden token. *)
Definition balanceOf (s : State) (account : address) : Z :=
  default 0 (shares (token s) !! account).

Section Strategies.

(** [AddressArrayUtils.remove] of lib/AddressArrayUtils.sol. *)
Variable remove : list address -> address -> result (list address).

(** The strategies as the Garden sees them through [IStrategy]. *)
Variable strategyAt : address -> StrategyView.

(** The new end of the withdrawal window in [startWithdrawalWindow]. *)
Definition nextWindowEnd (now withdrawalsOpenUntil : Z) : result Z :=
  if withdrawalsOpenUntil >? now then
    remaining <- sub withdrawalsOpenUntil now ;;
    rest <- sub withdrawalWindowAfterStrategyCompletes remaining ;;
    add now rest
  else add now withdrawalWindowAfterStrategyCompletes.

Definition startWithdrawalWindow (ctl : Garden.Controller) (msg : Garden.Msg) (s : State)
           (_amount _rewards _returns : Z) (_strategy : address) : result State :=
  let g := base s in
  Garden._onlyUnpaused ctl g ;;;
  Garden._require
    (Garden.isStrategy g (Garden.sender msg)
     && bool_decide (garden (strategyAt (Garden.sender msg)) = Garden.this g))
    ONLY_STRATEGY ;;;
  openUntil <- nextWindowEnd (Garden.timestamp msg) (Garden.withdrawalsOpenUntil g) ;;
  setAside <- add (Garden.reserveAssetRewardsSetAside g) _rewards ;;
  window <- add (Garden.reserveAssetPrincipalWindow g) _amount ;;
  returns <- SignedSafeMath.add (absoluteReturns (registry s)) _returns ;;
  remaining <- remove (strategies (registry s)) _strategy ;;
  Ok (set_registry
        {| strategies := remaining;
           finalizedStrategies := finalizedStrategies (registry s) ++ [_strategy];
           absoluteReturns := returns |}
        (set_base
           (set_strategyMapping (<[_strategy := false]> (Garden.strategyMapping g))
                                (set_window openUntil setAside window g))
           s)).

Definition expireCandidateStrategy (ctl : Garden.Controller) (msg : Garden.Msg) (s : State)
           (_strategy : address) : result State :=
  let g := base s in
  Garden._onlyStrategy ctl msg g ;;;
  remaining <- remove (strategies (registry s)) _strategy ;;
  Ok (set_registry
        {| strategies := remaining;
           finalizedStrategies := finalizedStrategies (registry s);
           absoluteReturns := absoluteReturns (registry s) |}
        (set_base
           (set_strategyMapping (<[_strategy := false]> (Garden.strategyMapping g)) g)
           s)).

(** The loop of [getLockedBalance] over [strategies]. *)
Fixpoint lockedIn (_contributor : address) (ss : list address) (lockedAmount : Z)
  : result Z :=
  match ss with
  | [] => Ok lockedAmount
  | strategy :: ss' =>
      if decide (_contributor = strategist (strategyAt strategy)) then
        lockedAmount <- add lockedAmount (stake (strategyAt strategy)) ;;
        lockedIn _contributor ss' lockedAmount
      else lockedIn _contributor ss' lockedAmount
  end.

Definition getLockedBalance (s : State) (_contributor : address) : result Z :=
  lockedAmount <- lockedIn _contributor (strategies (registry s)) 0 ;;
  Ok (if balanceOf s _contributor <? lockedAmount then balanceOf s _contributor
      else lockedAmount).

(** The loop of [_getActiveCapital]; its counter is a uint8. *)
Fixpoint activeCapital (ss : list address) (totalActiveCapital maxAllocation : Z)
         (maxStrategy : address) : result (Z * Z * address) :=
  match ss with
  | [] => Ok (totalActiveCapital, maxAllocation, maxStrategy)
  | strategy :: ss' =>
      if isStrategyActive (strategyAt strategy) then
        let allocation := capitalAllocated (strategyAt strategy) in
        totalActiveCapital <- add totalActiveCapital allocation ;;
        if allocation >? maxAllocation
        then activeCapital ss' totalActiveCapital allocation strategy
        else activeCapital ss' totalActiveCapital maxAllocation maxStrategy
      else activeCapital ss' totalActiveCapital maxAllocation maxStrategy
  end.

Definition _getActiveCapital (s : State) : result (Z * Z * address) :=
  if (length (strategies (registry s)) <=? 255)%nat
  then activeCapital (strategies (registry s)) 0 0 0%N
  else Revert External.     (* the uint8 counter wraps at 256: the loop runs out of gas *)

End Strategies.

(** [contributors[account]]: an absent key reads as the zero struct. *)
Definition noContributor : Contributor :=
  {| lastDepositAt := 0; initialDepositAt := 0; claimedAt := 0; claimedBABL := 0;
     claimedRewards := 0; withdrawnSince := 0; totalDeposits := 0 |}.

Definition contributorOf (s : State) (account : address) : Contributor :=
  default noContributor (contributors (members s) !! account).

(** [rewardsDistributor.getContributorPower(address(this), contributor,
    initialDepositAt, block.timestamp)] is the argument [power]. *)
Definition _canWithdrawReserveAmount (msg : Garden.Msg) (s : State)
           (power : address -> Z -> Z -> Z) (_contributor : address) (_amount : Z)
  : result bool :=
  let g := base s in
  liquidReserve <- sub (ERC20.balanceOf (Garden.ledger g) (Garden.this g))
                       (Garden.reserveAssetRewardsSetAside g) ;;
  if Garden.timestamp msg <=? Garden.withdrawalsOpenUntil g then
    free <- sub liquidReserve (Garden.reserveAssetPrincipalWindow g) ;;
    if free >? _amount then Ok true
    else
      let contributorPower :=
        power _contributor (initialDepositAt (contributorOf s _contributor))
              (Garden.timestamp msg) in
      share <- preciseMul (Garden.reserveAssetPrincipalWindow g) contributorPower ;;
      free <- sub liquidReserve (Garden.reserveAssetPrincipalWindow g) ;;
      available <- add share free ;;
      Ok (available >=? _amount)
  else
    free <- sub liquidReserve (Garden.reserveAssetPrincipalWindow g) ;;
    Ok (free >=? _amount).

(** The stake a contributor has in the listed strategies, and the capital
    allocated to the active ones: what the two loops add up. *)
Definition stakedBy (strategyAt : address -> StrategyView) (_contributor : address)
           (ss : list address) : Z :=
  foldr (fun strategy acc =>
           if decide (_contributor = strategist (strategyAt strategy))
           then stake (strategyAt strategy) + acc else acc) 0 ss.

Definition activeTotal (strategyAt : address -> StrategyView) (ss : list address) : Z :=
  foldr (fun strategy acc =>
           if isStrategyActive (strategyAt strategy)
           then capitalAllocated (strategyAt strategy) + acc else acc) 0 ss.

(** A run of [allocateCapitalToStrategy] calls, each on the garden the
    previous one left, and what they take from the garden: each capital
    with the management fee on it. *)
Fixpoint allocateEach (ctl : Garden.Controller) (g : Garden.State)
         (calls : list (Garden.Msg * Z)) : result Garden.State :=
  match calls with
  | [] => Ok g
  | (msg, capital) :: rest =>
      g <- Garden.allocateCapitalToStrategy ctl msg g capital ;;
      allocateEach ctl g rest
  end.

Definition taken (ctl : Garden.Controller) (calls : list (Garden.Msg * Z)) : Z :=
  foldr (fun call acc =>
           snd call + Garden.protocolManagementFee ctl * snd call / 10 ^ 18 + acc) 0 calls.

(** ** Claims, burnt stakes and the switches of the garden *)

(** The error codes of lib/BabylonErrors.sol these functions add to
    [Errors]. *)
Inductive Code :=
| ONLY_CONTRIBUTOR
| ONLY_CREATOR
| ONLY_CONTROLLER
| ONLY_INACTIVE
| GARDEN_ALREADY_PUBLIC
| GARDEN_TRANSFERS_DISABLED
| ALREADY_CLAIMED
| NO_REWARDS_TO_CLAIM.

Inductive failure :=
| Coded (c : Code)               (* _require(cond, Errors.c) *)
| Reverted (r : revert_reason).

Inductive attempt (A : Type) :=
| Done (a : A)
| Failed (f : failure).

Arguments Done {A} a.
Arguments Failed {A} f.

Definition lift {A} (m : result A) : attempt A :=
  match m with
  | Ok a => Done a
  | Revert r => Failed (Reverted r)
  end.

Definition andThen {A B} (m : attempt A) (k : A -> attempt B) : attempt B :=
  match m with
  | Done a => k a
  | Failed f => Failed f
  end.

Notation "x <~ m ;; k" := (andThen m (fun x => k))
  (at level 100, m at next level, right associativity).
Notation "m ;;~ k" := (andThen m (fun _ => k))
  (at level 100, right associativity).

Definition ensure (cond : bool) (c : Code) : attempt unit :=
  if cond then Done tt else Failed (Coded c).

(** A call either leaves its new storage or the one it started from. *)
Definition settle {S} (before : S) (call : attempt S) : S :=
  match call with
  | Done after => after
  | Failed _ => before
  end.

Definition WETH : address := 0xC02aaA39b223FE8D0A0e5C4F27eAD9083C756Cc2%N.

(** What the controller and the rewards distributor answer, and whether
    an account takes the ether it is sent. *)
Record Peers := {
  allowPublicGardens : bool;
  gardenTokensTransfersEnabled : bool;
  getRewards : address -> address -> list address -> result (list Z);
  sendTokensToContributor : address -> Z -> result unit;
  takesEther : address -> bool
}.

Definition etherOf (s : State) (account : address) : Z :=
  default 0 (ether (outside s) !! account).

Definition _onlyContributor (ctl : Garden.Controller) (msg : Garden.Msg) (s : State)
  : attempt unit :=
  lift (Garden._onlyUnpaused ctl (base s)) ;;~
  ensure (0 <? balanceOf s (Garden.sender msg)) ONLY_CONTRIBUTOR.

Definition makeGardenPublic (peers : Peers) (msg : Garden.Msg) (s : State) : attempt State :=
  ensure (bool_decide (Garden.sender msg = creator (settings s))) ONLY_CREATOR ;;~
  ensure (guestListEnabled (settings s) && allowPublicGardens peers) GARDEN_ALREADY_PUBLIC ;;~
  Done (set_settings
          {| reserveAsset := reserveAsset (settings s);
             controller := controller (settings s);
             creator := creator (settings s);
             guestListEnabled := false;
             depositHardlock := depositHardlock (settings s) |}
          s).

Definition setActive (msg : Garden.Msg) (s : State) (_newValue : bool) : attempt State :=
  ensure (bool_decide (Garden.sender msg = controller (settings s))) ONLY_CONTROLLER ;;~
  ensure (negb (eqb (Garden.active (base s)) _newValue)) ONLY_INACTIVE ;;~
  Done (set_base (set_active _newValue (base s)) s).

Definition _beforeTokenTransfer (peers : Peers) (s : State) (from to : address)
  : attempt unit :=
  ensure (bool_decide (from = 0%N) || bool_decide (to = 0%N)
          || (gardenTokensTransfersEnabled peers && negb (guestListEnabled (settings s))))
         GARDEN_TRANSFERS_DISABLED.

(** [_burn] of ERC20Upgradeable, with the Garden's [_beforeTokenTransfer]. *)
Definition _burn (peers : Peers) (s : State) (account : address) (amount : Z)
  : attempt State :=
  if decide (account = 0%N)
  then Failed (Reverted (Message "ERC20: burn from the zero address"))
  else
    _beforeTokenTransfer peers s account 0%N ;;~
    if amount <=? balanceOf s account then
      supply <~ lift (sub (totalSupply (token s)) amount) ;;
      Done (set_token
              {| shares := <[account := balanceOf s account - amount]> (shares (token s));
                 totalSupply := supply |}
              s)
    else Failed (Reverted (Message "ERC20: burn amount exceeds balance")).

Definition burnStrategistStake (ctl : Garden.Controller) (peers : Peers) (msg : Garden.Msg)
           (s : State) (_strategist : address) (_amount : Z) : attempt State :=
  lift (Garden._onlyStrategy ctl msg (base s)) ;;~
  let _amount :=
    if _amount >=? balanceOf s _strategist then balanceOf s _strategist else _amount in
  _burn peers s _strategist _amount.

(** [IWETH(WETH).withdraw(wad)] called by the Garden: WETH9 takes the
    tokens and sends the ether, which the Garden's [receive] accepts. *)
Definition withdrawWETH (wad : Z) (s : State) : result State :=
  let g := base s in
  if wad <=? ERC20.balanceOf (Garden.ledger g) (Garden.this g) then
    Ok (set_outside
          {| ether := <[Garden.this g := etherOf s (Garden.this g) + wad]> (ether (outside s));
             bablSent := bablSent (outside s) |}
          (set_base
             (Garden.set_ledger
                (<[Garden.this g := ERC20.balanceOf (Garden.ledger g) (Garden.this g) - wad]>
                   (Garden.ledger g))
                g)
             s))
  else Revert External.

(** [Address.sendValue(_to, amount)] of OpenZeppelin, from the Garden. *)
Definition sendValue (peers : Peers) (_to : address) (amount : Z) (s : State)
  : result State :=
  let this := Garden.this (base s) in
  if etherOf s this <? amount then Revert (Message "Address: insufficient balance")
  else if takesEther peers _to then
    let debited := <[this := etherOf s this - amount]> (ether (outside s)) in
    Ok (set_outside
          {| ether := <[_to := default 0 (debited !! _to) + amount]> debited;
             bablSent := bablSent (outside s) |}
          s)
  else Revert (Message "Address: unable to send value, recipient may have reverted").

Definition _safeSendReserveAsset (peers : Peers) (s : State) (_to : address) (_amount : Z)
  : result State :=
  if decide (reserveAsset (settings s) = WETH) then
    s <- (if etherOf s (Garden.this (base s)) <? _amount then
            shortfall <- sub _amount (etherOf s (Garden.this (base s))) ;;
            withdrawWETH shortfall s
          else Ok s) ;;
    sendValue peers _to _amount s
  else
    g <- Garden.safeTransfer _to _amount (base s) ;;
    Ok (set_base g s).

(** [rewards[i]] *)
Definition reward (rewards : list Z) (i : nat) : result Z :=
  match rewards !! i with
  | Some r => Ok r
  | None => Revert Arithmetic
  end.

Definition set_contributor (account : address) (c : Contributor) (s : State) : State :=
  set_members
    {| contributors := <[account := c]> (contributors (members s));
       totalContributors := totalContributors (members s);
       principal := principal (members s);
       pid := pid (members s) |}
    s.

Definition set_rewardsSetAside (setAside : Z) (s : State) : State :=
  set_base (set_window (Garden.withdrawalsOpenUntil (base s)) setAside
                       (Garden.reserveAssetPrincipalWindow (base s)) (base s))
           s.

(** [contributor.claimedRewards = ..; contributor.claimedAt = block.timestamp] *)
Definition rewardsClaimed (total now : Z) (c : Contributor) : Contributor :=
  {| lastDepositAt := lastDepositAt c; initialDepositAt := initialDepositAt c;
     claimedAt := now; claimedBABL := claimedBABL c; claimedRewards := total;
     withdrawnSince := withdrawnSince c; totalDeposits := totalDeposits c |}.

(** [contributor.claimedBABL = ..; contributor.claimedAt = block.timestamp] *)
Definition bablClaimed (total now : Z) (c : Contributor) : Contributor :=
  {| lastDepositAt := lastDepositAt c; initialDepositAt := initialDepositAt c;
     claimedAt := now; claimedBABL := total; claimedRewards := claimedRewards c;
     withdrawnSince := withdrawnSince c; totalDeposits := totalDeposits c |}.

Definition claimReturns (ctl : Garden.Controller) (peers : Peers) (msg : Garden.Msg)
           (s : State) (_finalizedStrategies : list address) : attempt State :=
  let sender := Garden.sender msg in
  let now := Garden.timestamp msg in
  _onlyContributor ctl msg s ;;~
  ensure (claimedAt (contributorOf s sender) <? now) ALREADY_CLAIMED ;;~
  rewards <~ lift (getRewards peers (Garden.this (base s)) sender _finalizedStrategies) ;;
  babl <~ lift (reward rewards 5) ;;
  any <~ (if 0 <? babl then Done true
          else profits <~ lift (reward rewards 6) ;; Done (0 <? profits)) ;;
  ensure any NO_REWARDS_TO_CLAIM ;;~
  profits <~ lift (reward rewards 6) ;;
  s <~ (if 0 <? profits then
          total <~ lift (add (claimedRewards (contributorOf s sender)) profits) ;;
          setAside <~ lift (sub (Garden.reserveAssetRewardsSetAside (base s)) profits) ;;
          lift (_safeSendReserveAsset
                  peers
                  (set_rewardsSetAside
                     setAside
                     (set_contributor sender
                                      (rewardsClaimed total now (contributorOf s sender)) s))
                  sender profits)
        else Done s) ;;
  if 0 <? babl then
    total <~ lift (add (claimedBABL (contributorOf s sender)) babl) ;;
    lift (sendTokensToContributor peers sender babl) ;;~
    Done (set_outside
            {| ether := ether (outside s);
               bablSent := bablSent (outside s) ++ [(sender, babl)] |}
            (set_contributor sender (bablClaimed total now (contributorOf s sender)) s))
  else Done s.

End GardenBook.

(** * FundIdeas: the ideas of an epoch *)

(** [addInvestmentIdea], [curateInvestmentIdea], [executeTopInvestment] and
    [getCurrentTopInvestmentIdea] of FundIdeas.sol. Storage is the
    contract's: the fixed array [investmentIdeasCurrentEpoch] of
    [MAX_IDEAS] slots is a map from slot to idea, an absent slot being the
    zero idea, and its [length] is [MAX_IDEAS] whatever it holds. *)

Module IdeasEpoch.
Import SafeMath.

Definition MAX_IDEAS : Z := 10.

Record InvestmentIdea := {
  index : Z;
  participant : address;
  enteredAt : Z;
  executedAt : Z;
  exitedAt : Z;
  stake : Z;
  capitalRequested : Z;
  expectedReturn : Z;
  enterTokensNeeded : list address;
  enterTokensAmounts : list Z;
  voters : list address;
  duration : Z;
  totalVotes : Z;                 (* int256 *)
  totalVoters : Z;
  integration : address;
  enterPayload : string;
  exitPayload : string;
  finalized : bool
}.

(** A slot of storage that was never written, or was deleted. *)
Definition noIdea : InvestmentIdea :=
  {| index := 0; participant := 0%N; enteredAt := 0; executedAt := 0; exitedAt := 0;
     stake := 0; capitalRequested := 0; expectedReturn := 0;
     enterTokensNeeded := []; enterTokensAmounts := []; voters := [];
     duration := 0; totalVotes := 0; totalVoters := 0; integration := 0%N;
     enterPayload := EmptyString; exitPayload := EmptyString; finalized := false |}.

Record State := {
  votes : gmap (Z * address) Z;       (* mapping(uint256 => mapping(address => int256)) *)
  currentMinStakeEpoch : Z;
  currentMinStakeIndex : Z;
  maxIdeasPerEpoch : Z;               (* uint8 *)
  currentInvestmentsIndex : Z;
  minVotersQuorum : Z;                (* uint8 *)
  investmentIdeasCurrentEpoch : gmap Z InvestmentIdea;
  investmentsExecuted : list InvestmentIdea;
  lastInvestmentExecutedAt : Z;
  fundEpoch : Z;
  fundDeliberationDuration : Z
}.

Record Msg := {
  sender : address;
  timestamp : Z
}.

(** What the fund and the controller answer during a call. The fund's
    [callIntegration] runs code outside the contract, which may call back
    into it: it returns the storage it leaves. *)
Record Fund := {
  balanceOf : address -> Z;                         (* fund.balanceOf *)
  active : bool;                                    (* fund.active() *)
  reservePosition : Z;                              (* fund.getPositionBalance(fund.getReserveAsset()), int256 *)
  isValidKeeper : address -> bool;                  (* controller.isValidKeeper *)
  callIntegration : address -> Z -> string -> list address -> list Z -> State -> result State
}.

Definition ideaAt (st : State) (slot : Z) : InvestmentIdea :=
  default noIdea (investmentIdeasCurrentEpoch st !! slot).

Definition votesOf (st : State) (ideaIndex : Z) (voter : address) : Z :=
  default 0 (votes st !! (ideaIndex, voter)).

Definition require (cond : bool) (msg : string) : result unit :=
  if cond then Ok () else Revert (Message msg).

Definition onlyContributor (fund : Fund) (_caller : address) : result unit :=
  require (0 <? balanceOf fund _caller) "Only someone with the fund token can withdraw".

Definition onlyKeeper (fund : Fund) (msg : Msg) : result unit :=
  require (isValidKeeper fund (sender msg)) "Only a keeper can call this".

Definition onlyActive (fund : Fund) : result unit :=
  require (active fund) "Fund must be active".

Definition set_idea (slot : Z) (idea : InvestmentIdea) (st : State) : State :=
  {| votes := votes st;
     currentMinStakeEpoch := currentMinStakeEpoch st;
     currentMinStakeIndex := currentMinStakeIndex st;
     maxIdeasPerEpoch := maxIdeasPerEpoch st;
     currentInvestmentsIndex := currentInvestmentsIndex st;
     minVotersQuorum := minVotersQuorum st;
     investmentIdeasCurrentEpoch := <[slot := idea]> (investmentIdeasCurrentEpoch st);
     investmentsExecuted := investmentsExecuted st;
     lastInvestmentExecutedAt := lastInvestmentExecutedAt st;
     fundEpoch := fundEpoch st;
     fundDeliberationDuration := fundDeliberationDuration st |}.

Definition set_vote (ideaIndex : Z) (voter : address) (weight : Z) (st : State) : State :=
  {| votes := <[(ideaIndex, voter) := weight]> (votes st);
     currentMinStakeEpoch := currentMinStakeEpoch st;
     currentMinStakeIndex := currentMinStakeIndex st;
     maxIdeasPerEpoch := maxIdeasPerEpoch st;
     currentInvestmentsIndex := currentInvestmentsIndex st;
     minVotersQuorum := minVotersQuorum st;
     investmentIdeasCurrentEpoch := investmentIdeasCurrentEpoch st;
     investmentsExecuted := investmentsExecuted st;
     lastInvestmentExecutedAt := lastInvestmentExecutedAt st;
     fundEpoch := fundEpoch st;
     fundDeliberationDuration := fundDeliberationDuration st |}.

(** [currentInvestmentsIndex ++], unchecked in Solidity 0.7. *)
Definition next_index (st : State) : State :=
  {| votes := votes st;
     currentMinStakeEpoch := currentMinStakeEpoch st;
     currentMinStakeIndex := currentMinStakeIndex st;
     maxIdeasPerEpoch := maxIdeasPerEpoch st;
     currentInvestmentsIndex := (currentInvestmentsIndex st + 1) mod (MAX_UINT256 + 1);
     minVotersQuorum := minVotersQuorum st;
     investmentIdeasCurrentEpoch := investmentIdeasCurrentEpoch st;
     investmentsExecuted := investmentsExecuted st;
     lastInvestmentExecutedAt := lastInvestmentExecutedAt st;
     fundEpoch := fundEpoch st;
     fundDeliberationDuration := fundDeliberationDuration st |}.

(** The end of [executeTopInvestment]: the executed ideas replaced, the
    ideas of the epoch deleted, the epoch restarted. *)
Definition restart (executed : list InvestmentIdea) (now : Z) (st : State) : State :=
  {| votes := votes st;
     currentMinStakeEpoch := currentMinStakeEpoch st;
     currentMinStakeIndex := currentMinStakeIndex st;
     maxIdeasPerEpoch := maxIdeasPerEpoch st;
     currentInvestmentsIndex := currentInvestmentsIndex st;
     minVotersQuorum := minVotersQuorum st;
     investmentIdeasCurrentEpoch := ∅;
     investmentsExecuted := executed;
     lastInvestmentExecutedAt := now;
     fundEpoch := fundEpoch st;
     fundDeliberationDuration := fundDeliberationDuration st |}.

(** The fields [addInvestmentIdea] assigns; the others keep what the slot
    held. *)
Definition submitted (old : InvestmentIdea) (st : State) (msg : Msg)
           (_capitalRequested _stake _investmentDuration : Z) (_enterData _exitData : string)
           (_integration : address) (_expectedReturn : Z)
           (_enterTokensNeeded : list address) (_enterTokensAmounts : list Z)
  : InvestmentIdea :=
  {| index := currentInvestmentsIndex st;
     participant := sender msg;
     enteredAt := timestamp msg;
     executedAt := executedAt old;
     exitedAt := exitedAt old;
     stake := _stake;
     capitalRequested := _capitalRequested;
     expectedReturn := _expectedReturn;
     enterTokensNeeded := _enterTokensNeeded;
     enterTokensAmounts := _enterTokensAmounts;
     voters := voters old;
     duration := _investmentDuration;
     totalVotes := totalVotes old;
     totalVoters := totalVoters old;
     integration := _integration;
     enterPayload := _enterData;
     exitPayload := _exitData;
     finalized := finalized old |}.

Definition addInvestmentIdea (fund : Fund) (msg : Msg) (st : State)
           (_capitalRequested _stake _investmentDuration : Z) (_enterData _exitData : string)
           (_integration : address) (_expectedReturn : Z)
           (_enterTokensNeeded : list address) (_enterTokensAmounts : list Z)
  : result State :=
  onlyContributor fund (sender msg) ;;;
  onlyActive fund ;;;
  deadline <- add (lastInvestmentExecutedAt st) (fundEpoch st) ;;
  require (timestamp msg <? deadline)
          "Idea can only be suggested before the deliberation period" ;;;
  require (0 <? _stake) "Stake amount must be greater than 0" ;;;
  require (0 <? _capitalRequested) "Capital requested amount must be greater than 0" ;;;
  require (3600 <? _investmentDuration) "Investment duration must be greater than an hour" ;;;
  liquidReserveAsset <- toUint256 (reservePosition fund) ;;
  require (_capitalRequested <=? liquidReserveAsset)
          "The capital requested is greater than the capital available" ;;;
  require ((MAX_IDEAS <? maxIdeasPerEpoch st) || (currentMinStakeEpoch st <? _stake))
          "Not enough stake to add the idea" ;;;
  let ideaIndex :=
    if maxIdeasPerEpoch st <=? MAX_IDEAS then currentMinStakeIndex st else MAX_IDEAS in
  if ideaIndex <? MAX_IDEAS then
    Ok (next_index
          (set_idea ideaIndex
                    (submitted (ideaAt st ideaIndex) st msg _capitalRequested _stake
                               _investmentDuration _enterData _exitData _integration
                               _expectedReturn _enterTokensNeeded _enterTokensAmounts)
                    st))
  else Revert Arithmetic.

(** The loop of [curateInvestmentIdea]: one pass per slot of the array,
    each adding the caller's votes on the curated idea. *)
Fixpoint votesCounted (passes : nat) (vote totalVotesUser : Z) : result Z :=
  match passes with
  | O => Ok totalVotesUser
  | S passes' =>
      v <- toUint256 vote ;;
      t <- add totalVotesUser v ;;
      votesCounted passes' vote t
  end.

(** The voters' bookkeeping of [curateInvestmentIdea]. *)
Definition noted (first : bool) (voter : address) (idea : InvestmentIdea) : InvestmentIdea :=
  {| index := index idea;
     participant := participant idea;
     enteredAt := enteredAt idea;
     executedAt := executedAt idea;
     exitedAt := exitedAt idea;
     stake := stake idea;
     capitalRequested := capitalRequested idea;
     expectedReturn := expectedReturn idea;
     enterTokensNeeded := enterTokensNeeded idea;
     enterTokensAmounts := enterTokensAmounts idea;
     voters := if first then [voter] else voters idea ++ [voter];
     duration := duration idea;
     totalVotes := totalVotes idea;
     totalVoters := if first then (totalVoters idea + 1) mod (MAX_UINT256 + 1)
                    else totalVoters idea;
     integration := integration idea;
     enterPayload := enterPayload idea;
     exitPayload := exitPayload idea;
     finalized := finalized idea |}.

Definition curateInvestmentIdea (fund : Fund) (msg : Msg) (st : State)
           (_ideaIndex _amount : Z) : result State :=
  onlyContributor fund (sender msg) ;;;
  onlyActive fund ;;;
  require (_ideaIndex <? MAX_IDEAS) "The idea index does not exist" ;;;
  amount <- toUint256 _amount ;;
  require (amount <? balanceOf fund (sender msg))
          "Participant does not have enough balance" ;;;
  let idea := ideaAt st _ideaIndex in
  totalVotesUser <- votesCounted (Z.to_nat MAX_IDEAS)
                                 (votesOf st (index idea) (sender msg)) 0 ;;
  amount <- toUint256 _amount ;;
  total <- add totalVotesUser amount ;;
  require (total <? balanceOf fund (sender msg))
          "Participant does not have enough balance" ;;;
  let st := set_idea _ideaIndex
                     (noted (votesOf st (index idea) (sender msg) =? 0) (sender msg) idea)
                     st in
  vote <- SignedSafeMath.add (votesOf st (index idea) (sender msg)) _amount ;;
  let st := set_vote (index idea) (sender msg) vote st in
  SignedSafeMath.add (totalVotes (ideaAt st _ideaIndex)) _amount ;;;
  Ok st.

(** One pass of the loop of [getCurrentTopInvestmentIdea]. [maxScore] is
    compared against and never assigned. *)
Definition scored (st : State) (maxScore : Z) (i indexResult : Z) : result Z :=
  let idea := ideaAt st i in
  if (0 <? totalVotes idea) && (minVotersQuorum st <=? totalVoters idea) then
    v <- toUint256 (totalVotes idea) ;;
    weighted <- mul (stake idea) v ;;
    currentScore <- mul weighted (totalVoters idea) ;;
    Ok (if maxScore <? currentScore then i else indexResult)
  else Ok indexResult.

Fixpoint scan (st : State) (maxScore : Z) (passes : nat) (i indexResult : Z) : result Z :=
  match passes with
  | O => Ok indexResult
  | S passes' =>
      indexResult <- scored st maxScore i indexResult ;;
      scan st maxScore passes' (i + 1) indexResult
  end.

Definition getCurrentTopInvestmentIdea (st : State) : result Z :=
  let maxScore := 0 in
  let indexResult := (maxIdeasPerEpoch st + 1) mod 256 in
  scan st maxScore (Z.to_nat MAX_IDEAS) 0 indexResult.

(** [array[i] = value] on a dynamic array: the slot has to exist. *)
Definition assign {A} (array : list A) (i : nat) (value : A) : result (list A) :=
  if bool_decide (i < length array)%nat then Ok (<[i := value]> array)
  else Revert Arithmetic.

Definition executed_now (now : Z) (idea : InvestmentIdea) : InvestmentIdea :=
  {| index := index idea;
     participant := participant idea;
     enteredAt := enteredAt idea;
     executedAt := now;
     exitedAt := exitedAt idea;
     stake := stake idea;
     capitalRequested := capitalRequested idea;
     expectedReturn := expectedReturn idea;
     enterTokensNeeded := enterTokensNeeded idea;
     enterTokensAmounts := enterTokensAmounts idea;
     voters := voters idea;
     duration := duration idea;
     totalVotes := totalVotes idea;
     totalVoters := totalVoters idea;
     integration := integration idea;
     enterPayload := enterPayload idea;
     exitPayload := exitPayload idea;
     finalized := finalized idea |}.

Definition executeTopInvestment (fund : Fund) (msg : Msg) (st : State) : result State :=
  onlyKeeper fund msg ;;;
  onlyActive fund ;;;
  epochEnd <- add (lastInvestmentExecutedAt st) (fundEpoch st) ;;
  earliest <- add epochEnd (fundDeliberationDuration st) ;;
  require (earliest <? timestamp msg)
          "Idea can only be executed after the minimum period has elapsed" ;;;
  require (0 <? MAX_IDEAS) "There must be an investment idea ready to execute" ;;;
  topIdeaIndex <- getCurrentTopInvestmentIdea st ;;
  require (topIdeaIndex <? MAX_IDEAS) "No idea available to execute" ;;;
  let idea := ideaAt st topIdeaIndex in
  st <- callIntegration fund (integration idea) 0 (enterPayload idea)
                        (enterTokensNeeded idea) (enterTokensAmounts idea) st ;;
  executed <- assign (investmentsExecuted st) (length (investmentsExecuted st))
                     (ideaAt st topIdeaIndex) ;;
  let st := restart executed (timestamp msg) st in
  Ok (set_idea topIdeaIndex (executed_now (timestamp msg) (ideaAt st topIdeaIndex)) st).

(** The calls a contributor or a keeper can make, and a history of them:
    a call that reverts leaves the storage as it was. *)
Inductive Call :=
| AddInvestmentIdea (_capitalRequested _stake _investmentDuration : Z)
                    (_enterData _exitData : string) (_integration : address)
                    (_expectedReturn : Z) (_enterTokensNeeded : list address)
                    (_enterTokensAmounts : list Z)
| CurateInvestmentIdea (_ideaIndex _amount : Z)
| ExecuteTopInvestment.

Definition step (fund : Fund) (msg : Msg) (st : State) (call : Call) : result State :=
  match call with
  | AddInvestmentIdea c s d enter exit i r tokens amounts =>
      addInvestmentIdea fund msg st c s d enter exit i r tokens amounts
  | CurateInvestmentIdea i a => curateInvestmentIdea fund msg st i a
  | ExecuteTopInvestment => executeTopInvestment fund msg st
  end.

Definition history (st : State) (txs : list (Fund * Msg * Call)) : State :=
  foldl (fun st tx => commit st (step tx.1.1 tx.1.2 st tx.2)) st txs.

(** An idea takes part in the choice of [getCurrentTopInvestmentIdea]
    when it has votes, a quorum of voters and a positive score. *)
Definition eligible (st : State) (slot : Z) : Prop :=
  0 < totalVotes (ideaAt st slot) /\
  minVotersQuorum st <= totalVoters (ideaAt st slot) /\
  0 < stake (ideaAt st slot) * totalVotes (ideaAt st slot) * totalVoters (ideaAt st slot).

End IdeasEpoch.

(** * More example states *)

(** [AddressArrayUtils.remove] as in Set Protocol's library: the first
    occurrence is removed, an absent address reverts. *)
Fixpoint removeFirst (A : list address) (a : address) : result (list address) :=
  match A with
  | [] => Revert (Message "Address not in array.")
  | x :: A' =>
      if decide (x = a) then Ok A'
      else rest <- removeFirst A' a ;; Ok (x :: rest)
  end.

(** Strategies 50 and 51 of garden 100, both of strategist 11, with stakes
    of 3 and 4; 51 is active with 7 allocated. *)
Definition strategyViews (a : address) : GardenBook.StrategyView :=
  {| GardenBook.strategist := 11%N;
     GardenBook.stake := if decide (a = 50%N) then 3 else 4;
     GardenBook.garden := 100%N;
     GardenBook.isStrategyActive := bool_decide (a = 51%N);
     GardenBook.capitalAllocated := if decide (a = 51%N) then 7 else 0 |}.

(** A garden around [g] with strategies 50 and 51, where contributor 11
    holds 5 garden tokens and contributor 12 holds 20. *)
Definition bookOf (g : Garden.State) : GardenBook.State :=
  {| GardenBook.base := g;
     GardenBook.settings :=
       {| GardenBook.reserveAsset := 2%N; GardenBook.controller := 7%N;
          GardenBook.creator := 11%N; GardenBook.guestListEnabled := true;
          GardenBook.depositHardlock := 3600 |};
     GardenBook.registry :=
       {| GardenBook.strategies := [50%N; 51%N]; GardenBook.finalizedStrategies := [];
          GardenBook.absoluteReturns := 0 |};
     GardenBook.token :=
       {| GardenBook.shares := {[ 11%N := 5; 12%N := 20 ]}; GardenBook.totalSupply := 25 |};
     GardenBook.members :=
       {| GardenBook.contributors := ∅; GardenBook.totalContributors := 2;
          GardenBook.principal := 25; GardenBook.pid := 2 |};
     GardenBook.outside := {| GardenBook.ether := ∅; GardenBook.bablSent := [] |} |}.

(** The garden of [gardenWith 100 10 5 0], with its window open until
    [openUntil], after strategy 50 hands back 30 of capital and 6 of
    rewards at time [now], with returns of 6. *)
Definition handedBack (openUntil now : Z) : GardenBook.State :=
  match GardenBook.startWithdrawalWindow removeFirst strategyViews controller0
          (fromStrategy now)
          (bookOf (GardenBook.set_window openUntil 5 10 (gardenWith 100 10 5 0)))
          30 6 6 50%N with
  | Ok s => s
  | Revert _ => bookOf (gardenWith 100 10 5 0)
  end.

(** A controller like [controller0] that also lists keeper 10. *)
Definition controller1 : Garden.Controller :=
  {| Garden.isPaused := fun _ => false;
     Garden.isValidKeeper := fun a => bool_decide (a = 9%N) || bool_decide (a = 10%N);
     Garden.protocolManagementFee := 5 * 10 ^ 15;
     Garden.treasury := 8%N |}.

(** Half of the window belongs to every contributor. *)
Definition halfPower (_ : address) (_ _ : Z) : Z := 5 * 10 ^ 17.

(** [gardenWith 100 10 5 40] after keeper 9 is owed a further 50, then
    after 100 more reserve tokens arrive, then after keeper 10 is paid. *)
Definition owing : Garden.State :=
  commit (gardenWith 100 10 5 40)
         (Garden.payKeeper controller1 (fromStrategy 500) (gardenWith 100 10 5 40) 9%N 50).

Definition refilled : Garden.State := Garden.set_ledger {[ 100%N := 200 ]} owing.

Definition settled : Garden.State :=
  commit refilled (Garden.payKeeper controller1 (fromStrategy 600) refilled 10%N 1).

(** A garden of 6 ether, 1 of them in the window, after 2 ether are
    allocated during the window and 1 ether after it. *)
Definition twoAllocations : list (Garden.Msg * Z) :=
  [ (fromStrategy 500, 2 * 10 ^ 18); (fromStrategy 2000, 10 ^ 18) ].

Definition allocatedTwice : Garden.State :=
  commit (gardenWith (6 * 10 ^ 18) (10 ^ 18) 0 0)
         (GardenBook.allocateEach controller0 (gardenWith (6 * 10 ^ 18) (10 ^ 18) 0 0)
                                  twoAllocations).

Definition allocatedOnce : Garden.State :=
  commit (gardenWith (6 * 10 ^ 18) (10 ^ 18) 0 0)
         (Garden.allocateCapitalToStrategy controller0 (fromStrategy 500)
                                           (gardenWith (6 * 10 ^ 18) (10 ^ 18) 0 0)
                                           (2 * 10 ^ 18)).

(** [lossFund] with one voter, 12, who endorsed the idea with 5 votes. *)
Definition endorsedIdea : FundIdeas.InvestmentIdea :=
  {| FundIdeas.index := 1;
     FundIdeas.participant := 11%N;
     FundIdeas.stake := 10 ^ 18;
     FundIdeas.capitalRequested := 2 * 10 ^ 18;
     FundIdeas.voters := [12%N];
     FundIdeas.totalVotes := 5;
     FundIdeas.finalized := true |}.

Definition endorsedFund : FundIdeas.State :=
  {| FundIdeas.reserveAsset := 1%N;
     FundIdeas.positionBalance := 6 * 10 ^ 18;
     FundIdeas.votes := {[ (0, 12%N) := 5 ]};
     FundIdeas.investmentsExecuted := [endorsedIdea];
     FundIdeas.ideaCreatorProfitPercentage := 15 * 10 ^ 16;
     FundIdeas.ideaVotersProfitPercentage := 5 * 10 ^ 16 |}.

(** A fund whose contributors 11 and 12 hold 50 and 100 fund tokens, with
    6 ether of reserve, keeper 9, and an integration that does nothing. *)
Definition fund0 : IdeasEpoch.Fund :=
  {| IdeasEpoch.balanceOf :=
       fun a => if bool_decide (a = 12%N) then 100
                else if bool_decide (a = 11%N) then 50 else 0;
     IdeasEpoch.active := true;
     IdeasEpoch.reservePosition := 6 * 10 ^ 18;
     IdeasEpoch.isValidKeeper := fun a => bool_decide (a = 9%N);
     IdeasEpoch.callIntegration := fun _ _ _ _ _ st => Ok st |}.

(** The storage the constructor leaves, with three ideas per epoch. *)
Definition deployed : IdeasEpoch.State :=
  {| IdeasEpoch.votes := ∅;
     IdeasEpoch.currentMinStakeEpoch := 0;
     IdeasEpoch.currentMinStakeIndex := 0;
     IdeasEpoch.maxIdeasPerEpoch := 3;
     IdeasEpoch.currentInvestmentsIndex := 1;
     IdeasEpoch.minVotersQuorum := 1;
     IdeasEpoch.investmentIdeasCurrentEpoch := ∅;
     IdeasEpoch.investmentsExecuted := [];
     IdeasEpoch.lastInvestmentExecutedAt := 0;
     IdeasEpoch.fundEpoch := 1000;
     IdeasEpoch.fundDeliberationDuration := 100 |}.

Definition sentBy (who : address) (now : Z) : IdeasEpoch.Msg :=
  {| IdeasEpoch.sender := who; IdeasEpoch.timestamp := now |}.

(** Contributor 11 submits an idea, contributor 12 curates it with 5
    votes, then contributor 12 submits an idea with a stake of 2. *)
Definition firstIdea : IdeasEpoch.State :=
  commit deployed
         (IdeasEpoch.addInvestmentIdea fund0 (sentBy 11%N 10) deployed (2 * 10 ^ 18) (10 ^ 18)
                                       7200 EmptyString EmptyString 30%N 0 [] []).

Definition curated : IdeasEpoch.State :=
  commit firstIdea (IdeasEpoch.curateInvestmentIdea fund0 (sentBy 12%N 20) firstIdea 0 5).

Definition replaced : IdeasEpoch.State :=
  commit curated
         (IdeasEpoch.addInvestmentIdea fund0 (sentBy 12%N 30) curated 1 2
                                       7200 EmptyString EmptyString 30%N 0 [] []).

Definition someCalls : list (IdeasEpoch.Fund * IdeasEpoch.Msg * IdeasEpoch.Call) :=
  [ (fund0, sentBy 11%N 10,
     IdeasEpoch.AddInvestmentIdea (2 * 10 ^ 18) (10 ^ 18) 7200 EmptyString EmptyString
                                  30%N 0 [] []);
    (fund0, sentBy 12%N 20, IdeasEpoch.CurateInvestmentIdea 0 5);
    (fund0, sentBy 9%N 2000, IdeasEpoch.ExecuteTopInvestment) ].

(** An idea with the given stake, total votes and number of voters. *)
Definition ideaScoring (stake totalVotes totalVoters : Z) : IdeasEpoch.InvestmentIdea :=
  IdeasEpoch.submitted
    {| IdeasEpoch.index := 0; IdeasEpoch.participant := 0%N; IdeasEpoch.enteredAt := 0;
       IdeasEpoch.executedAt := 0; IdeasEpoch.exitedAt := 0; IdeasEpoch.stake := 0;
       IdeasEpoch.capitalRequested := 0; IdeasEpoch.expectedReturn := 0;
       IdeasEpoch.enterTokensNeeded := []; IdeasEpoch.enterTokensAmounts := [];
       IdeasEpoch.voters := [12%N]; IdeasEpoch.duration := 0;
       IdeasEpoch.totalVotes := totalVotes; IdeasEpoch.totalVoters := totalVoters;
       IdeasEpoch.integration := 0%N; IdeasEpoch.enterPayload := EmptyString;
       IdeasEpoch.exitPayload := EmptyString; IdeasEpoch.finalized := false |}
    deployed (sentBy 11%N 10) (2 * 10 ^ 18) stake 7200 EmptyString EmptyString 30%N 0 [] [].

(** Slot 0 scores 500, slot 1 scores 1. *)
Definition rivals : IdeasEpoch.State :=
  IdeasEpoch.set_idea 1 (ideaScoring 1 1 1) (IdeasEpoch.set_idea 0 (ideaScoring 100 5 1) deployed).

(** The strategy holds 300 DAI (asset 2), then supplies them. *)
Definition daiMarket : Market :=
  {| holdings := {[ (2%N, 50%N) := 300 ]};
     strategyActive := true;
     oraclePrice := None |}.

Definition suppliedMarket : Market :=
  match swap daiMarket 50%N 2%N 300 1002%N with
  | Ok m => m
  | Revert _ => daiMarket
  end.

(** A rewards distributor that owes every caller 3 BABL and 4 of profits,
    a controller that allows public gardens and no transfers, and
    accounts that take ether. *)
Definition peers0 : GardenBook.Peers :=
  {| GardenBook.allowPublicGardens := true;
     GardenBook.gardenTokensTransfersEnabled := false;
     GardenBook.getRewards := fun _ _ _ => Ok [0; 0; 0; 0; 0; 3; 4];
     GardenBook.sendTokensToContributor := fun _ _ => Ok tt;
     GardenBook.takesEther := fun _ => true |}.

Definition fromContributor (now : Z) : Garden.Msg :=
  {| Garden.sender := 12%N; Garden.timestamp := now |}.

Definition fromController (now : Z) : Garden.Msg :=
  {| Garden.sender := 7%N; Garden.timestamp := now |}.

Definition fromCreator (now : Z) : Garden.Msg :=
  {| Garden.sender := 11%N; Garden.timestamp := now |}.

Definition claimed : GardenBook.State :=
  GardenBook.settle (bookOf (gardenWith 100 10 5 0))
                    (GardenBook.claimReturns controller0 peers0 (fromContributor 500)
                                             (bookOf (gardenWith 100 10 5 0)) []).

Definition switchedOff : GardenBook.State :=
  GardenBook.settle (bookOf (gardenWith 100 10 5 0))
                    (GardenBook.setActive (fromController 500)
                                          (bookOf (gardenWith 100 10 5 0)) false).

Definition madePublic : GardenBook.State :=
  GardenBook.settle (bookOf (gardenWith 100 10 5 0))
                    (GardenBook.makeGardenPublic peers0 (fromCreator 500)
                                                 (bookOf (gardenWith 100 10 5 0))).
(** * Properties *)

(** ** The result monad and checked arithmetic *)

Lemma bind_Ok {A B} (m : result A) (k : A -> result B) (b : B) :
  bind m k = Ok b <-> exists a, m = Ok a /\ k a = Ok b.
Proof.
  destruct m as [a|r]; simpl; split.
  - intros Hk. exists a. auto.
  - intros (a' & Ha & Hk). congruence.
  - discriminate.
  - intros (a' & Ha & _). discriminate.
Qed.

Lemma bind_Revert {A B} (m : result A) (k : A -> result B) (r : revert_reason) :
  bind m k = Revert r <-> m = Revert r \/ exists a, m = Ok a /\ k a = Revert r.
Proof.
  destruct m as [a|r']; simpl; split.
  - intros Hk. right. exists a. auto.
  - intros [Hm | (a' & Ha & Hk)]; congruence.
  - intros [= ->]. left. reflexivity.
  - intros [Hm | (a' & Ha & _)]; congruence.
Qed.

Lemma commit_Revert {S} (before : S) (tx : result S) (r : revert_reason) :
  tx = Revert r -> commit before tx = before.
Proof. intros ->. reflexivity. Qed.

Lemma add_Ok (a b c : Z) :
  SafeMath.add a b = Ok c <-> c = a + b /\ a + b <= SafeMath.MAX_UINT256.
Proof.
  unfold SafeMath.add.
  destruct (Z.leb_spec (a + b) SafeMath.MAX_UINT256); split.
  - intros [= <-]. auto.
  - intros [-> _]. reflexivity.
  - discriminate.
  - intros [_ Hle]. lia.
Qed.

Lemma sub_Ok (a b c : Z) :
  SafeMath.sub a b = Ok c <-> c = a - b /\ b <= a.
Proof.
  unfold SafeMath.sub.
  destruct (Z.leb_spec b a); split.
  - intros [= <-]. auto.
  - intros [-> _]. reflexivity.
  - discriminate.
  - intros [_ Hle]. lia.
Qed.

Lemma sub_Revert (a b : Z) (r : revert_reason) :
  SafeMath.sub a b = Revert r <-> r = Arithmetic /\ a < b.
Proof.
  unfold SafeMath.sub.
  destruct (Z.leb_spec b a); split.
  - discriminate.
  - intros [_ Hlt]. lia.
  - intros [= <-]. auto.
  - intros [-> _]. reflexivity.
Qed.

Lemma mul_Ok (a b c : Z) :
  SafeMath.mul a b = Ok c <-> c = a * b /\ a * b <= SafeMath.MAX_UINT256.
Proof.
  unfold SafeMath.mul.
  destruct (Z.leb_spec (a * b) SafeMath.MAX_UINT256); split.
  - intros [= <-]. auto.
  - intros [-> _]. reflexivity.
  - discriminate.
  - intros [_ Hle]. lia.
Qed.

Lemma preciseMul_Ok (a b c : Z) :
  PreciseUnitMath.preciseMul a b = Ok c <->
  c = a * b / 10 ^ 18 /\ a * b <= SafeMath.MAX_UINT256.
Proof.
  unfold PreciseUnitMath.preciseMul. rewrite bind_Ok. split.
  - intros (p & Hp & Hd). apply mul_Ok in Hp as [-> Hle].
    unfold SafeMath.div, PreciseUnitMath.PRECISE_UNIT in Hd. simpl in Hd.
    injection Hd as <-. auto.
  - intros [-> Hle]. exists (a * b). split.
    + apply mul_Ok. auto.
    + reflexivity.
Qed.

Lemma neg_range (a : Z) : 0 <= SafeMath.neg a <= SafeMath.MAX_UINT256.
Proof.
  unfold SafeMath.neg.
  assert (0 < SafeMath.MAX_UINT256 + 1) by (unfold SafeMath.MAX_UINT256; lia).
  pose proof (Z.mod_pos_bound (- a) (SafeMath.MAX_UINT256 + 1)). lia.
Qed.

(** ** FundIdeas: the slash of the loss branch *)

Section LossBranch.
Import FundIdeas.

Variable idea : InvestmentIdea.
Variable capitalReturned : Z.

Hypothesis stake_range : 0 <= stake idea.
Hypothesis returned_range : 0 <= capitalReturned.
Hypothesis no_overflow : capitalReturned + stake idea <= SafeMath.MAX_UINT256.
Hypothesis loss : capitalReturned <= capitalRequested idea.

(** What the loss branch computes: when the stake exceeds the shortfall,
    it is the stake less the shortfall, otherwise the whole stake. *)
Lemma stakeToSlash_loss :
  stakeToSlash idea capitalReturned =
  Ok (if decide (capitalRequested idea - capitalReturned < stake idea)
      then stake idea - (capitalRequested idea - capitalReturned)
      else stake idea).
Proof.
  unfold stakeToSlash.
  assert (Hadd : SafeMath.add capitalReturned (stake idea) = Ok (capitalReturned + stake idea))
    by (apply add_Ok; auto).
  rewrite Hadd. simpl.
  destruct (Z.gtb_spec (capitalReturned + stake idea) (capitalRequested idea));
    case_decide; try lia.
  - apply sub_Ok. lia.
  - reflexivity.
Qed.

(** The computed slash is the specification's only when the shortfall
    reaches the stake, or is exactly half of it. *)
Lemma stakeToSlash_agrees_iff :
  stakeToSlash idea capitalReturned = Ok (stakeToSlash_spec idea capitalReturned) <->
  stake idea <= capitalRequested idea - capitalReturned \/
  stake idea = 2 * (capitalRequested idea - capitalReturned).
Proof.
  rewrite stakeToSlash_loss. unfold stakeToSlash_spec.
  case_decide; split; intros Hx.
  - injection Hx as Hx. lia.
  - f_equal. lia.
  - left. lia.
  - f_equal. lia.
Qed.

End LossBranch.

(** Scenario C on a storage that holds [lossIdea] as an executed idea:
    settling it with 90% of its capital returned (1.8 ether of 2) deposits
    0.8 ether of the stake, the stake less the shortfall; the slash of the
    specification, min(stake, capital - returned), is 0.2 ether. *)
Example transferIdeaRewards_on_a_loss_of_a_tenth :
  FundIdeas._transferIdeaRewards lossFund 0 (18 * 10 ^ 17) =
    Ok [FundIdeas.WETHDeposit (8 * 10 ^ 17);
        FundIdeas.CalculateAndEditPosition 1%N (6 * 10 ^ 18) 0] /\
  FundIdeas.stakeToSlash_spec lossIdea (18 * 10 ^ 17) = 2 * 10 ^ 17.
Proof. split; vm_compute; reflexivity. Qed.

(** ** Garden: the liquid reserve *)

Section GardenFacts.
Import Garden.

Lemma require_Ok (cond : bool) (e : Errors) :
  cond = true -> _require cond e = Ok tt.
Proof. intros ->. reflexivity. Qed.

Lemma require_inv (cond : bool) (e : Errors) (u : unit) :
  _require cond e = Ok u -> cond = true.
Proof. destruct cond; [reflexivity | discriminate]. Qed.

Lemma onlyStrategy_Ok ctl msg g :
  isPaused ctl (this g) = false -> isStrategy g (sender msg) = true ->
  _onlyStrategy ctl msg g = Ok tt.
Proof.
  intros Hp Hs. unfold _onlyStrategy, _onlyUnpaused. rewrite Hp, Hs. reflexivity.
Qed.

Lemma onlyActive_Ok ctl g :
  isPaused ctl (this g) = false -> active g = true -> _onlyActive ctl g = Ok tt.
Proof.
  intros Hp Ha. unfold _onlyActive, _onlyUnpaused. rewrite Hp, Ha. reflexivity.
Qed.

(** [_liquidReserve] returns exactly when the balance covers the window
    and what is left covers the rewards set aside. *)
Lemma liquidReserve_Ok g r :
  _liquidReserve g = Ok r <->
  r = liquidOf g /\
  reserveAssetPrincipalWindow g <= ERC20.balanceOf (ledger g) (this g) /\
  reserveAssetRewardsSetAside g
    <= ERC20.balanceOf (ledger g) (this g) - reserveAssetPrincipalWindow g.
Proof.
  unfold _liquidReserve, liquidOf. rewrite bind_Ok. split.
  - intros (a & Ha & Hr). apply sub_Ok in Ha as [-> Hw]. apply sub_Ok in Hr as [-> Hs].
    auto.
  - intros (-> & Hw & Hs). eexists. split; apply sub_Ok; eauto.
Qed.

Lemma liquidReserve_Revert g r :
  0 <= reserveAssetRewardsSetAside g ->
  _liquidReserve g = Revert r ->
  r = Arithmetic /\
  ERC20.balanceOf (ledger g) (this g)
    < reserveAssetPrincipalWindow g + reserveAssetRewardsSetAside g.
Proof.
  intros Hset. unfold _liquidReserve. rewrite bind_Revert.
  intros [Hw | (a & Ha & Hs)].
  - apply sub_Revert in Hw as [-> Hlt]. split; [reflexivity | lia].
  - apply sub_Ok in Ha as [-> _]. apply sub_Revert in Hs as [-> Hlt].
    split; [reflexivity | lia].
Qed.

Lemma liquidReserve_underflow g :
  ERC20.balanceOf (ledger g) (this g)
    < reserveAssetPrincipalWindow g + reserveAssetRewardsSetAside g ->
  _liquidReserve g = Revert Arithmetic.
Proof.
  intros Hlt. destruct (_liquidReserve g) as [r|r] eqn:Hr.
  - apply liquidReserve_Ok in Hr. lia.
  - unfold _liquidReserve in Hr. apply bind_Revert in Hr as [Hw | (a & Ha & Hs)].
    + apply sub_Revert in Hw as [-> _]. reflexivity.
    + apply sub_Revert in Hs as [-> _]. reflexivity.
Qed.

End GardenFacts.

Ltac invert_Ok :=
  repeat match goal with
         | H : bind _ _ = Ok _ |- _ =>
             let a := fresh "a" in
             let Ha := fresh "Ha" in
             apply bind_Ok in H as (a & Ha & H)
         | u : unit |- _ => destruct u
         end.

Lemma transfer_Ok (from to : address) (amount : Z) (l : gmap address Z) :
  amount <= ERC20.balanceOf l from ->
  ERC20.transfer from to amount l =
  Ok (<[to := ERC20.balanceOf (<[from := ERC20.balanceOf l from - amount]> l) to + amount]>
        (<[from := ERC20.balanceOf l from - amount]> l)).
Proof.
  intros Hle. unfold ERC20.transfer.
  destruct (Z.leb_spec amount (ERC20.balanceOf l from)); [reflexivity | lia].
Qed.

Lemma transfer_inv (from to : address) (amount : Z) (l l' : gmap address Z) :
  ERC20.transfer from to amount l = Ok l' -> amount <= ERC20.balanceOf l from.
Proof.
  unfold ERC20.transfer.
  destruct (Z.leb_spec amount (ERC20.balanceOf l from)); [auto | discriminate].
Qed.

(** A transfer debits the sender and credits the receiver. *)
Lemma transfer_balances (from to : address) (amount : Z) (l l' : gmap address Z) :
  ERC20.transfer from to amount l = Ok l' -> from <> to ->
  ERC20.balanceOf l' from = ERC20.balanceOf l from - amount /\
  ERC20.balanceOf l' to = ERC20.balanceOf l to + amount /\
  forall other, other <> from -> other <> to ->
                ERC20.balanceOf l' other = ERC20.balanceOf l other.
Proof.
  intros Ht Hne. pose proof (transfer_inv _ _ _ _ _ Ht) as Hle.
  rewrite (transfer_Ok _ _ _ _ Hle) in Ht. injection Ht as <-.
  unfold ERC20.balanceOf. repeat split.
  - rewrite lookup_insert_ne by congruence. rewrite lookup_insert_eq. reflexivity.
  - rewrite lookup_insert_eq. rewrite lookup_insert_ne by congruence. reflexivity.
  - intros other H1 H2. rewrite !lookup_insert_ne by congruence. reflexivity.
Qed.

(** ** Garden: paying the keeper *)

(** C10, as stated, fails: in a garden whose reserve balance (5) is below
    the withdrawal window set aside (10), a registered strategy paying a
    whitelisted keeper a fee of 1 reverts in [_liquidReserve]; the fee is
    not added to [keeperDebt] and no debt is carried to a later call. *)
Lemma payKeeper_reverts_below_set_asides :
  Garden.isValidKeeper controller0 9%N = true /\
  Garden.isStrategy (gardenWith 5 10 0 0) (Garden.sender (fromStrategy 500)) = true /\
  Garden.payKeeper controller0 (fromStrategy 500) (gardenWith 5 10 0 0) 9%N 1
    = Revert Arithmetic /\
  Garden.keeperDebt
    (commit (gardenWith 5 10 0 0)
            (Garden.payKeeper controller0 (fromStrategy 500) (gardenWith 5 10 0 0) 9%N 1))
    <> Garden.keeperDebt (gardenWith 5 10 0 0) + 1.
Proof. repeat split; vm_compute; congruence. Qed.

(** C10, amended. A [payKeeper] call by a registered strategy of an unpaused
    garden for a whitelisted keeper, with the debt and the fee within
    uint256: when the balance covers the two set-asides, the fee is added to
    [keeperDebt], and the keeper is transferred the whole debt, which is
    reset to zero, exactly when the debt is positive and the liquid reserve
    covers it; otherwise no token moves and the debt stays. A zero debt
    stays zero. When the balance is below the set-asides and the debt is
    positive, the call reverts. *)
Theorem payKeeper_defers_uncovered_debt
        (ctl : Garden.Controller) (msg : Garden.Msg) (g : Garden.State)
        (keeper : address) (fee : Z) :
  Garden.isValidKeeper ctl keeper = true ->
  Garden.isPaused ctl (Garden.this g) = false ->
  Garden.isStrategy g (Garden.sender msg) = true ->
  0 <= Garden.reserveAssetPrincipalWindow g ->
  0 <= Garden.reserveAssetRewardsSetAside g ->
  0 <= Garden.keeperDebt g -> 0 <= fee ->
  Garden.keeperDebt g + fee <= SafeMath.MAX_UINT256 ->
  (Garden.reserveAssetPrincipalWindow g + Garden.reserveAssetRewardsSetAside g
     <= ERC20.balanceOf (Garden.ledger g) (Garden.this g) ->
   (0 < Garden.keeperDebt g + fee <= Garden.liquidOf g ->
    exists l,
      ERC20.transfer (Garden.this g) keeper (Garden.keeperDebt g + fee) (Garden.ledger g) = Ok l /\
      Garden.payKeeper ctl msg g keeper fee
        = Ok (Garden.set_keeperDebt 0 (Garden.set_ledger l g))) /\
   (Garden.liquidOf g < Garden.keeperDebt g + fee ->
    Garden.payKeeper ctl msg g keeper fee
      = Ok (Garden.set_keeperDebt (Garden.keeperDebt g + fee) g))) /\
  (Garden.keeperDebt g + fee = 0 ->
   Garden.payKeeper ctl msg g keeper fee = Ok (Garden.set_keeperDebt 0 g)) /\
  (0 < Garden.keeperDebt g + fee ->
   ERC20.balanceOf (Garden.ledger g) (Garden.this g)
     < Garden.reserveAssetPrincipalWindow g + Garden.reserveAssetRewardsSetAside g ->
   Garden.payKeeper ctl msg g keeper fee = Revert Arithmetic).
Proof.
  intros Hk Hp Hs Hw Hr Hd Hf Hmax.
  assert (Hadd : SafeMath.add (Garden.keeperDebt g) fee = Ok (Garden.keeperDebt g + fee))
    by (apply add_Ok; auto).
  assert (Hstart : forall k : Z -> result Garden.State,
             (Garden._require (Garden.isValidKeeper ctl keeper) ONLY_KEEPER ;;;
              Garden._onlyStrategy ctl msg g ;;;
              debt <- SafeMath.add (Garden.keeperDebt g) fee ;; k debt)
             = k (Garden.keeperDebt g + fee)).
  { intros k. rewrite Hk, (onlyStrategy_Ok _ _ _ Hp Hs), Hadd. reflexivity. }
  unfold Garden.payKeeper. rewrite Hstart. cbn [Garden.keeperDebt Garden.set_keeperDebt].
  set (debt := Garden.keeperDebt g + fee) in *.
  assert (Hliq : Garden._liquidReserve (Garden.set_keeperDebt debt g) = Garden._liquidReserve g)
    by reflexivity.
  split; [intros Hcov; split | split].
  - intros [Hpos Hle].
    destruct (Z.gtb_spec debt 0); [|lia].
    assert (Hl : Garden._liquidReserve g = Ok (Garden.liquidOf g)).
    { apply liquidReserve_Ok. repeat split; lia. }
    rewrite Hliq, Hl. cbn [bind].
    destruct (Z.geb_spec (Garden.liquidOf g) debt); [|lia].
    assert (Hbal : debt <= ERC20.balanceOf (Garden.ledger g) (Garden.this g))
      by (unfold Garden.liquidOf in Hle; lia).
    eexists. split; [apply transfer_Ok; exact Hbal|].
    unfold Garden.safeTransfer. cbn [Garden.ledger Garden.this Garden.set_keeperDebt].
    rewrite (transfer_Ok _ _ _ _ Hbal). reflexivity.
  - intros Hlt.
    assert (Hl : Garden._liquidReserve g = Ok (Garden.liquidOf g)).
    { apply liquidReserve_Ok. repeat split; lia. }
    destruct (Z.gtb_spec debt 0).
    + rewrite Hliq, Hl. cbn [bind].
      destruct (Z.geb_spec (Garden.liquidOf g) debt); [lia | reflexivity].
    + reflexivity.
  - intros Hz. rewrite Hz. reflexivity.
  - intros Hpos Hlt.
    destruct (Z.gtb_spec debt 0); [|lia].
    rewrite Hliq, (liquidReserve_underflow _ Hlt). reflexivity.
Qed.

Ltac evaluate :=
  vm_compute; first [reflexivity | discriminate | (split; first [reflexivity | discriminate])].

(** With a balance of 100, a window of 10, rewards of 5 and a debt of 40: a
    fee of 50 is deferred (90 exceeds the liquid 85), a fee of 2 pays the
    keeper 42. *)
Lemma payKeeper_defers_uncovered_debt_witness :
  Garden.payKeeper controller0 (fromStrategy 500) (gardenWith 100 10 5 40) 9%N 50
    = Ok (Garden.set_keeperDebt 90 (gardenWith 100 10 5 40)) /\
  exists l,
    ERC20.transfer 100%N 9%N 42 (Garden.ledger (gardenWith 100 10 5 40)) = Ok l /\
    Garden.payKeeper controller0 (fromStrategy 500) (gardenWith 100 10 5 40) 9%N 2
      = Ok (Garden.set_keeperDebt 0 (Garden.set_ledger l (gardenWith 100 10 5 40))).
Proof.
  split.
  - refine (proj2 (proj1 (payKeeper_defers_uncovered_debt
              controller0 (fromStrategy 500) (gardenWith 100 10 5 40) 9%N 50
              _ _ _ _ _ _ _ _) _) _); evaluate.
  - refine (proj1 (proj1 (payKeeper_defers_uncovered_debt
              controller0 (fromStrategy 500) (gardenWith 100 10 5 40) 9%N 2
              _ _ _ _ _ _ _ _) _) _); evaluate.
Defined.

(** ** Garden: allocating capital to a strategy *)

(** C9, as stated, fails: in a garden whose reserve balance (5) is below
    the withdrawal window set aside (10), with the window still open, a
    registered strategy asking for 1 is above the balance net of the
    set-asides, and the call reverts in [_liquidReserve], with no error
    code, before the comparison that would give MIN_LIQUIDITY. *)
Lemma allocateCapitalToStrategy_reverts_without_MIN_LIQUIDITY :
  Garden.isStrategy (gardenWith 5 10 0 0) (Garden.sender (fromStrategy 500)) = true /\
  Garden.active (gardenWith 5 10 0 0) = true /\
  PreciseUnitMath.preciseMul (Garden.protocolManagementFee controller0) 1 = Ok 0 /\
  Garden.liquidOf (Garden._reenableReserveForStrategies (fromStrategy 500) (gardenWith 5 10 0 0))
    < 1 + 0 /\
  Garden.allocateCapitalToStrategy controller0 (fromStrategy 500) (gardenWith 5 10 0 0) 1
    = Revert Arithmetic /\
  Garden.allocateCapitalToStrategy controller0 (fromStrategy 500) (gardenWith 5 10 0 0) 1
    <> Revert (BabylonError MIN_LIQUIDITY).
Proof. repeat split; vm_compute; congruence. Qed.

(** When the balance is below the set-asides, the liquid reserve cannot be
    computed and the call reverts in [_liquidReserve], before the
    MIN_LIQUIDITY check. *)
Lemma allocateCapitalToStrategy_below_set_asides
      (ctl : Garden.Controller) (msg : Garden.Msg) (g : Garden.State) (capital fee : Z) :
  Garden.isPaused ctl (Garden.this g) = false ->
  Garden.isStrategy g (Garden.sender msg) = true ->
  Garden.active g = true ->
  PreciseUnitMath.preciseMul (Garden.protocolManagementFee ctl) capital = Ok fee ->
  capital + fee <= SafeMath.MAX_UINT256 ->
  ERC20.balanceOf (Garden.ledger (Garden._reenableReserveForStrategies msg g))
                  (Garden.this (Garden._reenableReserveForStrategies msg g))
    < Garden.reserveAssetPrincipalWindow (Garden._reenableReserveForStrategies msg g)
      + Garden.reserveAssetRewardsSetAside (Garden._reenableReserveForStrategies msg g) ->
  Garden.allocateCapitalToStrategy ctl msg g capital = Revert Arithmetic.
Proof.
  intros Hp Hs Ha Hfee Hfit Hlt.
  unfold Garden.allocateCapitalToStrategy.
  rewrite (onlyStrategy_Ok _ _ _ Hp Hs), (onlyActive_Ok _ _ Hp Ha). cbn [bind].
  rewrite Hfee. cbn [bind].
  assert (Hadd : SafeMath.add capital fee = Ok (capital + fee)) by (apply add_Ok; auto).
  rewrite Hadd, (liquidReserve_underflow _ Hlt). reflexivity.
Qed.

(** C9, amended. [allocateCapitalToStrategy] returns only when the capital
    and the management fee on it fit the liquid reserve, computed after
    the withdrawal window is re-enabled, and then it has sent the fee to
    the treasury and the capital to the calling strategy. For a
    registered strategy of an unpaused, active garden: when the balance
    covers the set-asides, a request above the liquid reserve reverts
    with MIN_LIQUIDITY; when the balance is below the set-asides, every
    request reverts in [_liquidReserve], with no error code. Check and
    transfers are one call: a revert leaves the garden and the ledger as
    they were. *)
Theorem allocateCapitalToStrategy_checks_liquid_reserve
        (ctl : Garden.Controller) (msg : Garden.Msg) (g : Garden.State) (capital : Z) :
  (forall g',
      Garden.allocateCapitalToStrategy ctl msg g capital = Ok g' ->
      exists fee gFee,
        PreciseUnitMath.preciseMul (Garden.protocolManagementFee ctl) capital = Ok fee /\
        Garden._liquidReserve (Garden._reenableReserveForStrategies msg g)
          = Ok (Garden.liquidOf (Garden._reenableReserveForStrategies msg g)) /\
        capital + fee <= Garden.liquidOf (Garden._reenableReserveForStrategies msg g) /\
        Garden.safeTransfer (Garden.treasury ctl) fee
                            (Garden._reenableReserveForStrategies msg g) = Ok gFee /\
        Garden.safeTransfer (Garden.sender msg) capital gFee = Ok g') /\
  (forall fee,
      Garden.isPaused ctl (Garden.this g) = false ->
      Garden.isStrategy g (Garden.sender msg) = true ->
      Garden.active g = true ->
      PreciseUnitMath.preciseMul (Garden.protocolManagementFee ctl) capital = Ok fee ->
      capital + fee <= SafeMath.MAX_UINT256 ->
      Garden._liquidReserve (Garden._reenableReserveForStrategies msg g)
        = Ok (Garden.liquidOf (Garden._reenableReserveForStrategies msg g)) ->
      Garden.liquidOf (Garden._reenableReserveForStrategies msg g) < capital + fee ->
      Garden.allocateCapitalToStrategy ctl msg g capital
        = Revert (BabylonError MIN_LIQUIDITY)) /\
  (forall fee,
      Garden.isPaused ctl (Garden.this g) = false ->
      Garden.isStrategy g (Garden.sender msg) = true ->
      Garden.active g = true ->
      PreciseUnitMath.preciseMul (Garden.protocolManagementFee ctl) capital = Ok fee ->
      capital + fee <= SafeMath.MAX_UINT256 ->
      ERC20.balanceOf (Garden.ledger (Garden._reenableReserveForStrategies msg g))
                      (Garden.this (Garden._reenableReserveForStrategies msg g))
        < Garden.reserveAssetPrincipalWindow (Garden._reenableReserveForStrategies msg g)
          + Garden.reserveAssetRewardsSetAside (Garden._reenableReserveForStrategies msg g) ->
      Garden.allocateCapitalToStrategy ctl msg g capital = Revert Arithmetic) /\
  (forall r,
      Garden.allocateCapitalToStrategy ctl msg g capital = Revert r ->
      commit g (Garden.allocateCapitalToStrategy ctl msg g capital) = g).
Proof.
  split; [|split; [|split]].
  - intros g' Hok. unfold Garden.allocateCapitalToStrategy in Hok.
    invert_Ok.
    rename a1 into fee, a2 into needed, a3 into liquid, a5 into gFee.
    apply add_Ok in Ha2 as [-> Hfit].
    apply require_inv in Ha4. apply Z.leb_le in Ha4.
    pose proof Ha3 as Hliq. apply liquidReserve_Ok in Hliq as (-> & _ & _).
    exists fee, gFee. unfold Garden._payProtocolFeeFromGarden in Ha5. auto.
  - intros fee Hp Hs Ha Hfee Hfit Hliq Hlt.
    unfold Garden.allocateCapitalToStrategy.
    rewrite (onlyStrategy_Ok _ _ _ Hp Hs), (onlyActive_Ok _ _ Hp Ha). cbn [bind].
    rewrite Hfee. cbn [bind].
    assert (Hadd : SafeMath.add capital fee = Ok (capital + fee)) by (apply add_Ok; auto).
    rewrite Hadd, Hliq. cbn [bind].
    destruct (Z.leb_spec (capital + fee)
                (Garden.liquidOf (Garden._reenableReserveForStrategies msg g))); [lia|].
    reflexivity.
  - intros fee. apply allocateCapitalToStrategy_below_set_asides.
  - intros r Hr. rewrite Hr. reflexivity.
Qed.

(** A garden holding 6 ether with nothing set aside: 2 ether are allocated
    with a fee of 0.01 ether, leaving it 3.99 ether; 6 ether, with their
    fee on top, are refused with MIN_LIQUIDITY. A garden holding 5 with 10
    in an open window refuses a request of 1 with no error code. *)
Lemma allocateCapitalToStrategy_checks_liquid_reserve_witness :
  (exists fee gFee,
      PreciseUnitMath.preciseMul (Garden.protocolManagementFee controller0) (2 * 10 ^ 18)
        = Ok fee /\
      Garden._liquidReserve
        (Garden._reenableReserveForStrategies (fromStrategy 500) (gardenWith (6 * 10 ^ 18) 0 0 0))
        = Ok (Garden.liquidOf
                (Garden._reenableReserveForStrategies (fromStrategy 500)
                                                      (gardenWith (6 * 10 ^ 18) 0 0 0))) /\
      2 * 10 ^ 18 + fee
        <= Garden.liquidOf
             (Garden._reenableReserveForStrategies (fromStrategy 500)
                                                   (gardenWith (6 * 10 ^ 18) 0 0 0)) /\
      Garden.safeTransfer (Garden.treasury controller0) fee
        (Garden._reenableReserveForStrategies (fromStrategy 500) (gardenWith (6 * 10 ^ 18) 0 0 0))
        = Ok gFee /\
      Garden.safeTransfer (Garden.sender (fromStrategy 500)) (2 * 10 ^ 18) gFee
        = Ok (Garden.set_ledger
                {[ 100%N := 399 * 10 ^ 16; 8%N := 10 ^ 16; 50%N := 2 * 10 ^ 18 ]}
                (gardenWith (6 * 10 ^ 18) 0 0 0))) /\
  Garden.allocateCapitalToStrategy controller0 (fromStrategy 500)
                                   (gardenWith (6 * 10 ^ 18) 0 0 0) (6 * 10 ^ 18)
    = Revert (BabylonError MIN_LIQUIDITY) /\
  Garden.allocateCapitalToStrategy controller0 (fromStrategy 500) (gardenWith 5 10 0 0) 1
    = Revert Arithmetic.
Proof.
  split; [|split].
  - apply (proj1 (allocateCapitalToStrategy_checks_liquid_reserve
                    controller0 (fromStrategy 500) (gardenWith (6 * 10 ^ 18) 0 0 0)
                    (2 * 10 ^ 18))).
    vm_compute. reflexivity.
  - refine (proj1 (proj2 (allocateCapitalToStrategy_checks_liquid_reserve
                            controller0 (fromStrategy 500) (gardenWith (6 * 10 ^ 18) 0 0 0)
                            (6 * 10 ^ 18)))
                  (3 * 10 ^ 16) _ _ _ _ _ _ _); evaluate.
  - refine (proj1 (proj2 (proj2 (allocateCapitalToStrategy_checks_liquid_reserve
                                   controller0 (fromStrategy 500) (gardenWith 5 10 0 0) 1)))
                  0 _ _ _ _ _ _); evaluate.
Defined.

(** ** Lend operation *)

Section LendFacts.
Import LendOperation.
Context {W : Type} `{Chain W}.

(** C7. [getNAV] of a Lend operation returns 0 when the calling strategy
    is not active. For an active strategy it does not return 0: a value
    computed as zero reverts with 'NAV has to be bigger 0', and a price
    lookup that reverts makes the call revert. *)
Theorem getNAV_zero_only_when_inactive
        (w : W) (msgSender assetToken garden integration : address) :
  onlyStrategy w msgSender = Ok tt ->
  (isStrategyActive w msgSender = false ->
   getNAV w msgSender assetToken garden integration = Ok 0) /\
  (isStrategyActive w msgSender = true ->
   getNAV w msgSender assetToken garden integration <> Ok 0 /\
   (forall investmentToken rate amount,
       getInvestmentToken w integration assetToken = Ok investmentToken ->
       getExchangeRatePerToken w integration assetToken = Ok rate ->
       SafeMath.mul rate (balanceOf w investmentToken msgSender) = Ok amount ->
       (forall r, _getPrice w (reserveAsset w garden) assetToken = Revert r ->
                  getNAV w msgSender assetToken garden integration = Revert r) /\
       (forall price normalized,
           _getPrice w (reserveAsset w garden) assetToken = Ok price ->
           normalizeDecimals w assetToken amount = Ok normalized ->
           PreciseUnitMath.preciseDiv normalized price = Ok 0 ->
           getNAV w msgSender assetToken garden integration
             = Revert (Message "NAV has to be bigger 0")))).
Proof.
  intros Hs. split.
  - intros Hoff. unfold getNAV. rewrite Hs, Hoff. reflexivity.
  - intros Hon. split.
    + unfold getNAV. rewrite Hs, Hon. cbn [bind negb]. intros Hzero.
      invert_Ok.
      match type of Hzero with
      | (if ?nav =? 0 then _ else _) = _ =>
          destruct (Z.eqb_spec nav 0); [discriminate|];
          injection Hzero as Hzero; contradiction
      end.
    + intros tok rate amount Htok Hrate Hmul. split.
      * intros r Hprice. unfold getNAV.
        rewrite Hs, Hon. cbn [bind negb]. rewrite Htok. cbn [bind].
        rewrite Hrate. cbn [bind]. rewrite Hmul. cbn [bind]. rewrite Hprice.
        reflexivity.
      * intros price normalized Hprice Hnorm Hdiv. unfold getNAV.
        rewrite Hs, Hon. cbn [bind negb]. rewrite Htok. cbn [bind].
        rewrite Hrate. cbn [bind]. rewrite Hmul. cbn [bind]. rewrite Hprice.
        cbn [bind]. rewrite Hnorm. cbn [bind]. rewrite Hdiv. reflexivity.
Qed.

End LendFacts.

(** The strategy of [lentMarket], active or not; with a price so high that
    the value rounds to zero; with no price. *)
Lemma getNAV_zero_only_when_inactive_witness :
  LendOperation.getNAV (lentMarket false (Some (10 ^ 18))) 50%N 2%N 100%N 60%N = Ok 0 /\
  LendOperation.getNAV (lentMarket true (Some (10 ^ 18))) 50%N 2%N 100%N 60%N <> Ok 0 /\
  LendOperation.getNAV (lentMarket true (Some (10 ^ 30))) 50%N 2%N 100%N 60%N
    = Revert (Message "NAV has to be bigger 0") /\
  LendOperation.getNAV (lentMarket true None) 50%N 2%N 100%N 60%N = Revert External.
Proof.
  split; [|split; [|split]].
  - refine (proj1 (getNAV_zero_only_when_inactive
                     (lentMarket false (Some (10 ^ 18))) 50%N 2%N 100%N 60%N _) _);
      reflexivity.
  - refine (proj1 (proj2 (getNAV_zero_only_when_inactive
                     (lentMarket true (Some (10 ^ 18))) 50%N 2%N 100%N 60%N _) _));
      reflexivity.
  - refine (proj2 (proj2 (proj2 (getNAV_zero_only_when_inactive
                     (lentMarket true (Some (10 ^ 30))) 50%N 2%N 100%N 60%N _) _)
                     1002%N 1 200 _ _ _) (10 ^ 30) 200 _ _ _); evaluate.
  - refine (proj1 (proj2 (proj2 (getNAV_zero_only_when_inactive
                     (lentMarket true None) 50%N 2%N 100%N 60%N _) _)
                     1002%N 1 200 _ _ _) External _); evaluate.
Defined.

Section ExitFacts.
Import LendOperation.
Context {W : Type} `{Chain W}.
Variable SLIPPAGE_ALLOWED : Z.

(** C8. [exitOperation] reverts for every percentage above 100%. At or
    below 100% the percentage is accepted: the call returns exactly when
    its collaborators do, and then it has redeemed the fraction
    [held * percentage / 1e18] of the investment tokens held, the whole
    position at 100%, and, when the asset is not the garden's reserve
    asset, traded the strategy's balance of the asset to the reserve
    asset. *)
Theorem exitOperation_percentage
        (w : W) (msgSender : address) (percentage : Z)
        (assetToken garden integration : address) :
  onlyStrategy w msgSender = Ok tt ->
  (HUNDRED_PERCENT < percentage ->
   exitOperation SLIPPAGE_ALLOWED w msgSender percentage assetToken garden integration
     = Revert (Message "Unwind Percentage <= 100%")) /\
  (percentage <= HUNDRED_PERCENT ->
   forall w',
     exitOperation SLIPPAGE_ALLOWED w msgSender percentage assetToken garden integration
       = Ok w' <->
     exists investmentToken rate w1,
       getInvestmentToken w integration assetToken = Ok investmentToken /\
       getExchangeRatePerToken w integration assetToken = Ok rate /\
       let redeemed := balanceOf w investmentToken msgSender * percentage / 10 ^ 18 in
       let slip := redeemed * SLIPPAGE_ALLOWED / 10 ^ 18 in
       balanceOf w investmentToken msgSender * percentage <= SafeMath.MAX_UINT256 /\
       redeemed * SLIPPAGE_ALLOWED <= SafeMath.MAX_UINT256 /\
       slip <= redeemed /\
       rate * (redeemed - slip) <= SafeMath.MAX_UINT256 /\
       redeemTokens w integration msgSender assetToken redeemed (rate * (redeemed - slip))
         = Ok w1 /\
       (assetToken = reserveAsset w1 garden -> w' = w1) /\
       (assetToken <> reserveAsset w1 garden ->
        trade w1 msgSender assetToken (balanceOf w1 assetToken msgSender)
              (reserveAsset w1 garden) = Ok w')) /\
  (forall position, position * HUNDRED_PERCENT / 10 ^ 18 = position).
Proof.
  intros Hs. split; [|split].
  - intros Hgt. unfold exitOperation. rewrite Hs. cbn [bind].
    destruct (Z.leb_spec percentage HUNDRED_PERCENT); [lia | reflexivity].
  - intros Hle w'. unfold exitOperation. rewrite Hs. cbn [bind].
    destruct (Z.leb_spec percentage HUNDRED_PERCENT); [|lia].
    split.
    + intros Hok. invert_Ok.
      apply preciseMul_Ok in Ha0 as [-> Hfit].
      apply preciseMul_Ok in Ha2 as [-> Hslip].
      apply sub_Ok in Ha3 as [-> Hnet].
      apply mul_Ok in Ha4 as [-> Hmin].
      exists a, a1, a5. cbn zeta. repeat split; try assumption.
      * intros Heq. destruct (decide _); [congruence | contradiction].
      * intros Hne. destruct (decide _); [contradiction | assumption].
    + intros (tok & rate & w1 & Htok & Hrate & Hfit & Hslip & Hnet & Hmin & Hredeem & Hsame & Htrade).
      rewrite Htok. cbn [bind].
      rewrite (proj2 (preciseMul_Ok _ _ _) (conj eq_refl Hfit)). cbn [bind].
      rewrite Hrate. cbn [bind].
      rewrite (proj2 (preciseMul_Ok _ _ _) (conj eq_refl Hslip)). cbn [bind].
      rewrite (proj2 (sub_Ok _ _ _) (conj eq_refl Hnet)). cbn [bind].
      rewrite (proj2 (mul_Ok _ _ _) (conj eq_refl Hmin)). cbn [bind].
      rewrite Hredeem. cbn [bind].
      destruct (decide _) as [Heq | Hne]; [f_equal; symmetry; auto | auto].
  - intros position. unfold HUNDRED_PERCENT. apply Z.div_mul. lia.
Qed.

End ExitFacts.

(** Discharges the conditions of an accepted exit on a concrete market. *)
Ltac exit_steps :=
  cbv zeta;
  do 7 (split; [evaluate|]);
  split; [intros Heq; vm_compute in Heq; discriminate | intros _; evaluate].

(** With 1% of slippage, the strategy of [lentMarket] leaves at 150%, 100%
    and 25%: the first is refused, the second redeems the 200 investment
    tokens and trades 200 DAI to WETH, the third does the same with 50. *)
Lemma exitOperation_percentage_witness :
  LendOperation.exitOperation (10 ^ 16) (lentMarket true None) 50%N (15 * 10 ^ 17)
                              2%N 100%N 60%N
    = Revert (Message "Unwind Percentage <= 100%") /\
  LendOperation.exitOperation (10 ^ 16) (lentMarket true None) 50%N (10 ^ 18)
                              2%N 100%N 60%N = Ok (exitedMarket 200) /\
  LendOperation.exitOperation (10 ^ 16) (lentMarket true None) 50%N (25 * 10 ^ 16)
                              2%N 100%N 60%N = Ok (exitedMarket 50).
Proof.
  split; [|split].
  - refine (proj1 (exitOperation_percentage (10 ^ 16) (lentMarket true None) 50%N
                     (15 * 10 ^ 17) 2%N 100%N 60%N _) _); evaluate.
  - refine (proj2 (proj1 (proj2 (exitOperation_percentage (10 ^ 16) (lentMarket true None)
                     50%N (10 ^ 18) 2%N 100%N 60%N _)) _ (exitedMarket 200)) _).
    + evaluate.
    + evaluate.
    + exists 1002%N, 1, (redeemedMarket 200). exit_steps.
  - refine (proj2 (proj1 (proj2 (exitOperation_percentage (10 ^ 16) (lentMarket true None)
                     50%N (25 * 10 ^ 16) 2%N 100%N 60%N _)) _ (exitedMarket 50)) _).
    + evaluate.
    + evaluate.
    + exists 1002%N, 1, (redeemedMarket 50). exit_steps.
Defined.

(** ** Strategy life cycle *)

Section StrategyFacts.
Import Strategy.

Lemma require_Success (cond : bool) (e : Error) (u : unit) :
  require cond e = Success u <-> cond = true.
Proof. destruct cond, u; simpl; split; congruence. Qed.

Lemma andThen_Success {A B} (m : outcome A) (k : A -> outcome B) (b : B) :
  andThen m k = Success b <-> exists a, m = Success a /\ k a = Success b.
Proof.
  destruct m as [a|e]; simpl; split.
  - intros Hk. exists a. auto.
  - intros (a' & [= ->] & Hk). exact Hk.
  - discriminate.
  - intros (a' & Ha & _). discriminate.
Qed.

Lemma settle_Failure {S} (before : S) (call : outcome S) (e : Error) :
  call = Failure e -> settle before call = before.
Proof. intros ->. reflexivity. Qed.

Lemma onlyKeeper_Success env msg fee u :
  onlyKeeper env msg fee = Success u <->
  isValidKeeper env (sender msg) = true /\ fee <= maxFee env.
Proof.
  unfold onlyKeeper. destruct u.
  destruct (isValidKeeper env (sender msg)); simpl;
    destruct (Z.leb_spec fee (maxFee env)); simpl; split;
    try discriminate; try (intros [? ?]; try discriminate; lia); auto.
Qed.

Lemma onlyKeeper_above_ceiling env msg fee :
  isValidKeeper env (sender msg) = true -> maxFee env < fee ->
  onlyKeeper env msg fee = Failure FeeTooHigh.
Proof.
  intros Hk Hgt. unfold onlyKeeper. rewrite Hk. simpl.
  destruct (Z.leb_spec fee (maxFee env)); [lia | reflexivity].
Qed.

End StrategyFacts.

(** Peels the guards off a successful call. *)
Ltac invert_Success :=
  repeat match goal with
         | H : Strategy.andThen _ _ = Strategy.Success _ |- _ =>
             let u := fresh "u" in
             let Hu := fresh "Hu" in
             apply andThen_Success in H as (u & Hu & H)
         | H : Strategy.require _ _ = Strategy.Success _ |- _ =>
             apply require_Success in H
         | H : Strategy.onlyKeeper _ _ _ = Strategy.Success _ |- _ =>
             apply onlyKeeper_Success in H as [? ?]
         | H : Strategy.Success _ = Strategy.Success _ |- _ =>
             injection H as H
         end.

Section VotingFacts.
Import Strategy.

Lemma recordVotes_notin (vs : list address) (ps : list Z) (m : gmap address Z) (v : address) :
  v ∉ vs -> recordVotes vs ps m !! v = m !! v.
Proof.
  revert ps m. induction vs as [|v0 vs IH]; intros ps m Hnotin.
  - reflexivity.
  - destruct ps as [|p ps]; [reflexivity|]. simpl.
    apply not_elem_of_cons in Hnotin as [Hne Hnotin].
    rewrite IH by assumption. apply lookup_insert_ne. congruence.
Qed.

Lemma recordVotes_lookup (vs : list address) (ps : list Z) (m : gmap address Z)
      (i : nat) (v : address) (p : Z) :
  NoDup vs -> vs !! i = Some v -> ps !! i = Some p ->
  recordVotes vs ps m !! v = Some p.
Proof.
  revert ps m i. induction vs as [|v0 vs IH]; intros ps m i Hnd Hv Hp.
  - discriminate.
  - destruct ps as [|p0 ps]; [destruct i; discriminate|].
    apply NoDup_cons in Hnd as [Hfresh Hnd]. simpl.
    destruct i as [|i]; simpl in Hv, Hp.
    + injection Hv as ->. injection Hp as ->.
      rewrite recordVotes_notin by assumption. apply lookup_insert_eq.
    + eapply IH; eauto.
Qed.

(** C2. For a keeper, [resolveVoting] after the voting window has closed
    fails with VotingWindowClosed; within the window, on a strategy whose
    voting is resolved, it fails with VotingAlreadyResolved, which is the
    case of every strategy a [resolveVoting] call has returned; resolved
    voting admits no successful [resolveVoting] at all. The failing call
    leaves the strategy unchanged. *)
Theorem resolveVoting_is_a_latch
        (env : Env) (msg : Msg) (s : State)
        (voterAddresses : list address) (voterPowers : list Z)
        (absoluteTotal netTotal keeperFee : Z) :
  isValidKeeper env (sender msg) = true ->
  (enteredAt (params s) + votingWindow env < timestamp msg ->
   resolveVoting env msg s voterAddresses voterPowers absoluteTotal netTotal keeperFee
     = Failure VotingWindowClosed /\
   settle s (resolveVoting env msg s voterAddresses voterPowers
                           absoluteTotal netTotal keeperFee) = s) /\
  (timestamp msg <= enteredAt (params s) + votingWindow env ->
   resolved (voting s) = true ->
   resolveVoting env msg s voterAddresses voterPowers absoluteTotal netTotal keeperFee
     = Failure VotingAlreadyResolved /\
   settle s (resolveVoting env msg s voterAddresses voterPowers
                           absoluteTotal netTotal keeperFee) = s) /\
  (forall env0 msg0 s0 vs0 ps0 abs0 net0 fee0,
      resolveVoting env0 msg0 s0 vs0 ps0 abs0 net0 fee0 = Success s ->
      resolved (voting s) = true /\ params s = params s0) /\
  (resolved (voting s) = true ->
   forall env' msg' vs ps abs net fee s',
     resolveVoting env' msg' s vs ps abs net fee <> Success s').
Proof.
  intros Hk. split; [|split; [|split]].
  - intros Hlate.
    assert (Hcall : resolveVoting env msg s voterAddresses voterPowers
                                  absoluteTotal netTotal keeperFee
                    = Failure VotingWindowClosed).
    { unfold resolveVoting. rewrite Hk. simpl.
      destruct (Z.leb_spec (timestamp msg) (enteredAt (params s) + votingWindow env));
        [lia | reflexivity]. }
    split; [exact Hcall | rewrite Hcall; reflexivity].
  - intros Hopen Hres.
    assert (Hcall : resolveVoting env msg s voterAddresses voterPowers
                                  absoluteTotal netTotal keeperFee
                    = Failure VotingAlreadyResolved).
    { unfold resolveVoting. rewrite Hk, Hres. simpl.
      destruct (Z.leb_spec (timestamp msg) (enteredAt (params s) + votingWindow env));
        [reflexivity | lia]. }
    split; [exact Hcall | rewrite Hcall; reflexivity].
  - intros env0 msg0 s0 vs0 ps0 abs0 net0 fee0 Hok.
    unfold resolveVoting in Hok. invert_Success. subst s. split; reflexivity.
  - intros Hres env' msg' vs ps abs net fee s' Hok.
    unfold resolveVoting in Hok. invert_Success.
    rewrite Hres in *. discriminate.
Qed.

(** C3. After a successful [resolveVoting] on a strategy that satisfies
    the invariants, with no voter listed twice, [getUserVotes] returns
    for each listed voter the power submitted at the same position and 0
    for every other address, and the stored totals are the submitted
    ones, whatever the powers sum to. *)
Theorem resolveVoting_records_submitted_votes
        (env : Env) (msg : Msg) (s s' : State)
        (voterAddresses : list address) (voterPowers : list Z)
        (absoluteTotal netTotal keeperFee : Z) :
  wellFormed s ->
  NoDup voterAddresses ->
  resolveVoting env msg s voterAddresses voterPowers absoluteTotal netTotal keeperFee
    = Success s' ->
  (forall i v, voterAddresses !! i = Some v ->
               exists p, voterPowers !! i = Some p /\ getUserVotes s' v = p) /\
  (forall v, v ∉ voterAddresses -> getUserVotes s' v = 0) /\
  absoluteTotalVotes (voting s') = absoluteTotal /\
  totalVotes (voting s') = netTotal.
Proof.
  intros (Hunres & _ & _) Hnd Hok.
  unfold resolveVoting in Hok. invert_Success.
  apply negb_true_iff in Hu1. destruct (Hunres Hu1) as [Hempty _].
  apply Nat.eqb_eq in Hu2.
  subst s'. unfold getUserVotes. cbn [voting votes payKeeper absoluteTotalVotes totalVotes].
  rewrite Hempty. repeat split.
  - intros i v Hv.
    destruct (voterPowers !! i) as [p|] eqn:Hp.
    + exists p. split; [reflexivity|].
      rewrite (recordVotes_lookup _ _ _ _ _ _ Hnd Hv Hp). reflexivity.
    + apply lookup_ge_None in Hp. apply lookup_lt_Some in Hv. lia.
  - intros v Hnotin. rewrite recordVotes_notin by assumption.
    rewrite lookup_empty. reflexivity.
Qed.

End VotingFacts.

(** Scenario A: the powers +5, +3 and -2 are read back, address 24 reads 0,
    and the totals are the submitted 10 and +6. *)
Lemma resolveVoting_records_submitted_votes_witness :
  (forall i v, [21%N; 22%N; 23%N] !! i = Some v ->
               exists p, [5; 3; -2] !! i = Some p /\ Strategy.getUserVotes voted v = p) /\
  (forall v, v ∉ [21%N; 22%N; 23%N] -> Strategy.getUserVotes voted v = 0) /\
  Strategy.absoluteTotalVotes (Strategy.voting voted) = 10 /\
  Strategy.totalVotes (Strategy.voting voted) = 6.
Proof.
  apply (resolveVoting_records_submitted_votes scenarioEnv (byKeeper 2000) proposed voted
           [21%N; 22%N; 23%N] [5; 3; -2] 10 6 42).
  - repeat split; try reflexivity; try discriminate.
  - repeat constructor; intros Hin;
      repeat (apply elem_of_cons in Hin as [Hin | Hin]; [discriminate|]);
      apply elem_of_nil in Hin; exact Hin.
  - reflexivity.
Defined.

(** A second call on the strategy of scenario A, and a call on a fresh
    proposal after its seven days. *)
Lemma resolveVoting_is_a_latch_witness :
  Strategy.resolveVoting scenarioEnv (byKeeper 3000) voted [21%N] [7] 7 7 0
    = Strategy.Failure Strategy.VotingAlreadyResolved /\
  Strategy.resolveVoting scenarioEnv (byKeeper (1001 + 7 * 86400)) proposed [21%N] [7] 7 7 0
    = Strategy.Failure Strategy.VotingWindowClosed.
Proof.
  split.
  - refine (proj1 (proj1 (proj2 (resolveVoting_is_a_latch
              scenarioEnv (byKeeper 3000) voted [21%N] [7] 7 7 0 _)) _ _)); evaluate.
  - refine (proj1 (proj1 (resolveVoting_is_a_latch
              scenarioEnv (byKeeper (1001 + 7 * 86400)) proposed [21%N] [7] 7 7 0 _) _));
      evaluate.
Defined.

Section LifeCycleFacts.
Import Strategy.

Lemma wellFormed_propose (p : Params) (reserve : Z) :
  0 <= capitalRequested p -> wellFormed (propose p reserve).
Proof.
  intros Hreq. unfold wellFormed, propose. simpl. repeat split; auto; try discriminate; lia.
Qed.

(** Every successful transaction with unsigned arguments preserves the
    invariants. *)
Lemma wellFormed_step (env : Env) (msg : Msg) (s s' : State) (c : Call) :
  wellFormed s -> unsignedArgs c -> step env msg s c = Success s' -> wellFormed s'.
Proof.
  intros (Hunres & Hfin & Hcap) Hargs Hstep.
  destruct c as [vs ps absT netT fee | amount fee | amount | fee]; simpl in Hstep, Hargs.
  - unfold resolveVoting in Hstep. invert_Success. subst s'.
    unfold wellFormed. simpl. intuition (try discriminate; try lia).
  - unfold executeStrategy in Hstep. invert_Success. subst s'.
    apply negb_true_iff in Hu2. apply Z.leb_le in Hu3.
    unfold wellFormed. simpl. intuition (try congruence; try lia).
  - unfold unwindStrategy in Hstep. invert_Success. subst s'.
    apply negb_true_iff in Hu1. apply Z.leb_le in Hu2.
    unfold wellFormed. simpl. intuition (try congruence; try lia).
  - unfold finalizeStrategy in Hstep. invert_Success.
    destruct (exitOperations env) as [recovered|]; [|discriminate].
    invert_Success. subst s'. apply Z.leb_le in Hu2.
    unfold wellFormed. simpl. intuition (try congruence; try lia).
Qed.

Lemma wellFormed_history (s : State) (txs : list Tx) :
  wellFormed s -> Forall (fun tx => unsignedArgs (txCall tx)) txs ->
  wellFormed (history s txs).
Proof.
  revert s. induction txs as [|tx txs IH]; intros s Hwf Hargs.
  - exact Hwf.
  - apply Forall_cons in Hargs as [Harg Hargs]. simpl. apply IH; [|assumption].
    unfold apply. destruct (step (txEnv tx) (txMsg tx) s (txCall tx)) as [s1|e] eqn:Hstep.
    + simpl. eapply wellFormed_step; eauto.
    + exact Hwf.
Qed.

(** Once a strategy is active, no transaction changes [executedAt] or
    clears [active]. *)
Lemma apply_keeps_executedAt (s : State) (tx : Tx) :
  active (capital s) = true ->
  executedAt (capital (apply s tx)) = executedAt (capital s) /\
  active (capital (apply s tx)) = true.
Proof.
  intros Hact. unfold apply.
  destruct (step (txEnv tx) (txMsg tx) s (txCall tx)) as [s1|e] eqn:Hstep;
    [|simpl; auto].
  simpl. destruct (txCall tx) as [vs ps absT netT fee | amount fee | amount | fee];
    simpl in Hstep.
  - unfold resolveVoting in Hstep. invert_Success. subst s1. simpl. auto.
  - unfold executeStrategy in Hstep. invert_Success. subst s1. simpl.
    rewrite Hact. auto.
  - unfold unwindStrategy in Hstep. invert_Success. subst s1. simpl. auto.
  - unfold finalizeStrategy in Hstep. invert_Success.
    destruct (exitOperations (txEnv tx)) as [recovered|]; [|discriminate].
    invert_Success. subst s1. simpl. auto.
Qed.

Lemma history_keeps_executedAt (s : State) (txs : list Tx) :
  active (capital s) = true ->
  executedAt (capital (history s txs)) = executedAt (capital s) /\
  active (capital (history s txs)) = true.
Proof.
  revert s. induction txs as [|tx txs IH]; intros s Hact.
  - simpl. auto.
  - simpl. destruct (apply_keeps_executedAt s tx Hact) as [Hat Hact'].
    destruct (IH _ Hact') as [Hat' Hact'']. split; congruence.
Qed.

(** C4. A successful [executeStrategy] on a strategy that is not active
    sets [executedAt] to the time of the call and makes it active; on an
    active strategy it leaves [executedAt] as it is. Either way it adds
    the capital to [capitalAllocated], and whatever transactions follow,
    further executions included, [executedAt] keeps its value. *)
Theorem executedAt_is_set_once
        (env : Env) (msg : Msg) (s s' : State) (amount fee : Z) :
  executeStrategy env msg s amount fee = Success s' ->
  (active (capital s) = false -> executedAt (capital s') = timestamp msg) /\
  (active (capital s) = true -> executedAt (capital s') = executedAt (capital s)) /\
  capitalAllocated (capital s') = capitalAllocated (capital s) + amount /\
  active (capital s') = true /\
  (forall txs, executedAt (capital (history s' txs)) = executedAt (capital s')).
Proof.
  intros Hok.
  assert (Hact : active (capital s') = true).
  { unfold executeStrategy in Hok. invert_Success. subst s'. reflexivity. }
  repeat split.
  - intros Hoff. unfold executeStrategy in Hok. invert_Success. subst s'. simpl.
    rewrite Hoff. reflexivity.
  - intros Hon. unfold executeStrategy in Hok. invert_Success. subst s'. simpl.
    rewrite Hon. reflexivity.
  - unfold executeStrategy in Hok. invert_Success. subst s'. reflexivity.
  - exact Hact.
  - intros txs. apply history_keeps_executedAt. exact Hact.
Qed.

End LifeCycleFacts.

(** Scenario B, then a second execution of 1 ether a day later, an unwind
    and a finalization: [executedAt] stays at the time of the first. *)
Lemma executedAt_is_set_once_witness :
  Strategy.executedAt (Strategy.capital executed)
  = Strategy.timestamp (byKeeper (2000 + 2 * 86400)) /\
  Strategy.capitalAllocated (Strategy.capital executed)
  = Strategy.capitalAllocated (Strategy.capital voted) + 2 * 10 ^ 18 /\
  Strategy.executedAt
    (Strategy.capital
       (Strategy.history executed
          [ {| Strategy.txEnv := scenarioEnv; Strategy.txMsg := byKeeper (2000 + 3 * 86400);
               Strategy.txCall := Strategy.ExecuteStrategy (10 ^ 18) 42 |};
            {| Strategy.txEnv := scenarioEnv; Strategy.txMsg := byStrategist (2000 + 4 * 86400);
               Strategy.txCall := Strategy.UnwindStrategy (10 ^ 18) |};
            {| Strategy.txEnv := scenarioEnv; Strategy.txMsg := byKeeper (2000 + 40 * 86400);
               Strategy.txCall := Strategy.FinalizeStrategy 42 |} ]))
  = Strategy.executedAt (Strategy.capital executed).
Proof.
  destruct (executedAt_is_set_once scenarioEnv (byKeeper (2000 + 2 * 86400)) voted executed
              (2 * 10 ^ 18) 42)
    as (Hfirst & _ & Hcap & _ & Hlater).
  - vm_compute. reflexivity.
  - split; [|split].
    + apply Hfirst. vm_compute. reflexivity.
    + exact Hcap.
    + apply Hlater.
Defined.

Section KeeperFeeFacts.
Import Strategy.

(** C5. For a keeper, [executeStrategy] with the fee at the ceiling
    succeeds when its other requirements hold, and credits the keeper
    with that fee; with any fee above the ceiling, one unit above
    included, it fails with FeeTooHigh. [finalizeStrategy] does the same
    with the same ceiling. *)
Theorem keeper_fee_ceiling (env : Env) (msg : Msg) (s : State) (amount : Z) :
  isValidKeeper env (sender msg) = true ->
  (resolved (voting s) = true ->
   resolvedAt (voting s) + cooldownPeriod env <= timestamp msg ->
   finalized (capital s) = false ->
   capitalAllocated (capital s) + amount <= capitalRequested (params s) ->
   amount <= gardenReserve s ->
   enterOperations env amount = true ->
   exists s', executeStrategy env msg s amount (maxFee env) = Success s' /\
              feesOf s' (sender msg) = feesOf s (sender msg) + maxFee env) /\
  (forall fee, maxFee env < fee ->
               executeStrategy env msg s amount fee = Failure FeeTooHigh) /\
  executeStrategy env msg s amount (maxFee env + 1) = Failure FeeTooHigh /\
  (active (capital s) = true ->
   finalized (capital s) = false ->
   executedAt (capital s) + duration (params s) <= timestamp msg ->
   exitOperations env <> None ->
   exists s', finalizeStrategy env msg s (maxFee env) = Success s' /\
              feesOf s' (sender msg) = feesOf s (sender msg) + maxFee env) /\
  (forall fee, maxFee env < fee ->
               finalizeStrategy env msg s fee = Failure FeeTooHigh) /\
  finalizeStrategy env msg s (maxFee env + 1) = Failure FeeTooHigh.
Proof.
  intros Hk.
  assert (Hat : onlyKeeper env msg (maxFee env) = Success tt).
  { apply onlyKeeper_Success. split; [exact Hk | lia]. }
  assert (Hexec : forall fee, maxFee env < fee ->
                              executeStrategy env msg s amount fee = Failure FeeTooHigh).
  { intros fee Hgt. unfold executeStrategy.
    rewrite (onlyKeeper_above_ceiling _ _ _ Hk Hgt). reflexivity. }
  assert (Hfin : forall fee, maxFee env < fee ->
                             finalizeStrategy env msg s fee = Failure FeeTooHigh).
  { intros fee Hgt. unfold finalizeStrategy.
    rewrite (onlyKeeper_above_ceiling _ _ _ Hk Hgt). reflexivity. }
  split; [|split; [|split; [|split; [|split]]]].
  - intros Hres Hcool Hnot Hfit Hliq Hops.
    unfold executeStrategy. rewrite Hat, Hres, Hnot, Hops. cbn [andThen require negb].
    destruct (Z.leb_spec (resolvedAt (voting s) + cooldownPeriod env) (timestamp msg)); [|lia].
    destruct (Z.leb_spec (capitalAllocated (capital s) + amount) (capitalRequested (params s)));
      [|lia].
    destruct (Z.leb_spec amount (gardenReserve s)); [|lia].
    cbn [andThen]. eexists. split; [reflexivity|].
    unfold feesOf, payKeeper. cbn [keeperFees]. rewrite lookup_insert_eq. reflexivity.
  - exact Hexec.
  - apply Hexec. lia.
  - intros Hact Hnot Hdur Hexit.
    unfold finalizeStrategy. rewrite Hat, Hact, Hnot. cbn [andThen require negb].
    destruct (Z.leb_spec (executedAt (capital s) + duration (params s)) (timestamp msg)); [|lia].
    cbn [andThen]. destruct (exitOperations env) as [recovered|]; [|congruence].
    eexists. split; [reflexivity|].
    unfold feesOf, payKeeper. cbn [keeperFees]. rewrite lookup_insert_eq. reflexivity.
  - exact Hfin.
  - apply Hfin. lia.
Qed.



End KeeperFeeFacts.

(** The strategy of scenario B at the ceiling and one unit above it, on
    execution a day after the first and on finalization after 40 days. *)
Lemma keeper_fee_ceiling_witness :
  (exists s', Strategy.executeStrategy scenarioEnv (byKeeper (2000 + 3 * 86400)) executed
                                       (10 ^ 18) (Strategy.maxFee scenarioEnv)
              = Strategy.Success s' /\
              Strategy.feesOf s' (Strategy.sender (byKeeper (2000 + 3 * 86400)))
              = Strategy.feesOf executed (Strategy.sender (byKeeper (2000 + 3 * 86400)))
                + Strategy.maxFee scenarioEnv) /\
  Strategy.executeStrategy scenarioEnv (byKeeper (2000 + 3 * 86400)) executed
                           (10 ^ 18) (Strategy.maxFee scenarioEnv + 1)
    = Strategy.Failure Strategy.FeeTooHigh.
Proof.
  destruct (keeper_fee_ceiling scenarioEnv (byKeeper (2000 + 3 * 86400)) executed (10 ^ 18))
    as (Hat & _ & Habove & _).
  - reflexivity.
  - split; [|exact Habove].
    apply Hat; evaluate.
Defined.



(** Scenario B: 2 ether allocated, the strategy active, executed at the
    time of the call, and 42 credited to the keeper on each of the two
    calls it made. *)
Example scenario_B :
  Strategy.capitalAllocated (Strategy.capital executed) = 2 * 10 ^ 18 /\
  Strategy.active (Strategy.capital executed) = true /\
  Strategy.executedAt (Strategy.capital executed) = 2000 + 2 * 86400 /\
  Strategy.feesOf executed 9%N = Strategy.feesOf voted 9%N + 42.
Proof. repeat split; vm_compute; reflexivity. Qed.

(** * Further properties *)

(** ** Garden: withdrawal windows *)

Section WindowFacts.
Import GardenBook.
Variable remove : list address -> address -> result (list address).
Variable strategyAt : address -> StrategyView.

Lemma nextWindowEnd_Ok (now openUntil next : Z) :
  nextWindowEnd now openUntil = Ok next ->
  (openUntil <= now -> next = now + withdrawalWindowAfterStrategyCompletes) /\
  (now < openUntil ->
   openUntil <= now + withdrawalWindowAfterStrategyCompletes /\
   next = now + withdrawalWindowAfterStrategyCompletes - (openUntil - now)).
Proof.
  unfold nextWindowEnd. destruct (Z.gtb_spec openUntil now); intros Hnext.
  - invert_Ok. apply sub_Ok in Ha as [-> _]. apply sub_Ok in Ha0 as [-> Hle].
    apply add_Ok in Hnext as [-> _]. split; [lia|]. intros _. split; lia.
  - apply add_Ok in Hnext as [-> _]. split; [auto | lia].
Qed.

(** X1. A successful [startWithdrawalWindow] moves no token: it adds the
    amount to the principal window and the rewards to the rewards set
    aside, so the liquid reserve drops by their sum; it adds the returns
    to [absoluteReturns] and appends the strategy to the finalized ones. *)
Theorem startWithdrawalWindow_sets_aside
        (ctl : Garden.Controller) (msg : Garden.Msg) (s s' : State)
        (amount rewards returns : Z) (strategy : address) :
  startWithdrawalWindow remove strategyAt ctl msg s amount rewards returns strategy = Ok s' ->
  Garden.reserveAssetPrincipalWindow (base s')
    = Garden.reserveAssetPrincipalWindow (base s) + amount /\
  Garden.reserveAssetRewardsSetAside (base s')
    = Garden.reserveAssetRewardsSetAside (base s) + rewards /\
  Garden.ledger (base s') = Garden.ledger (base s) /\
  Garden.keeperDebt (base s') = Garden.keeperDebt (base s) /\
  Garden.liquidOf (base s') = Garden.liquidOf (base s) - amount - rewards /\
  absoluteReturns (registry s') = absoluteReturns (registry s) + returns /\
  finalizedStrategies (registry s') = finalizedStrategies (registry s) ++ [strategy] /\
  remove (strategies (registry s)) strategy = Ok (strategies (registry s')).
Proof.
  intros Hok. unfold startWithdrawalWindow in Hok. invert_Ok.
  apply add_Ok in Ha2 as [-> _]. apply add_Ok in Ha3 as [-> _].
  unfold SignedSafeMath.add in Ha4.
  destruct ((SignedSafeMath.MIN_INT256 <=? _) && _); [|discriminate].
  injection Ha4 as <-. injection Hok as <-.
  unfold Garden.liquidOf. cbn. repeat split; try assumption; lia.
Qed.

(** X2. The window of a successful [startWithdrawalWindow] ends at most
    seven days after the call. With no window open it ends exactly seven
    days later; with one open until [u], which cannot be more than seven
    days ahead, it ends at [now + 7 days - (u - now)]: when more than
    three and a half days were left, the window now closes earlier than
    it did. *)
Theorem startWithdrawalWindow_window
        (ctl : Garden.Controller) (msg : Garden.Msg) (s s' : State)
        (amount rewards returns : Z) (strategy : address) :
  startWithdrawalWindow remove strategyAt ctl msg s amount rewards returns strategy = Ok s' ->
  Garden.timestamp msg <= Garden.withdrawalsOpenUntil (base s')
    <= Garden.timestamp msg + 7 * 86400 /\
  (Garden.withdrawalsOpenUntil (base s) <= Garden.timestamp msg ->
   Garden.withdrawalsOpenUntil (base s') = Garden.timestamp msg + 7 * 86400) /\
  (Garden.timestamp msg < Garden.withdrawalsOpenUntil (base s) ->
   Garden.withdrawalsOpenUntil (base s) <= Garden.timestamp msg + 7 * 86400 /\
   Garden.withdrawalsOpenUntil (base s')
   = Garden.timestamp msg + 7 * 86400
     - (Garden.withdrawalsOpenUntil (base s) - Garden.timestamp msg)) /\
  (Garden.timestamp msg + 302400 < Garden.withdrawalsOpenUntil (base s) ->
   Garden.withdrawalsOpenUntil (base s') < Garden.withdrawalsOpenUntil (base s)).
Proof.
  intros Hok. unfold startWithdrawalWindow in Hok. invert_Ok.
  injection Hok as <-. cbn.
  apply nextWindowEnd_Ok in Ha1 as [Hclosed Hopen].
  unfold withdrawalWindowAfterStrategyCompletes in *.
  destruct (Z.le_gt_cases (Garden.withdrawalsOpenUntil (base s)) (Garden.timestamp msg))
    as [Hle | Hgt].
  - specialize (Hclosed Hle). repeat split; intros; lia.
  - destruct (Hopen Hgt) as [Hbound Hnext]. repeat split; intros; lia.
Qed.

(** X3. The strategy named in a successful [startWithdrawalWindow] or
    [expireCandidateStrategy] is no longer a strategy of the garden: no
    later [payKeeper] or [allocateCapitalToStrategy] it sends can succeed.
    The registration of every other address stays as it was. *)
Theorem deregistered_strategy_is_locked_out
        (ctl : Garden.Controller) (msg : Garden.Msg) (s s' : State)
        (amount rewards returns : Z) (strategy : address) :
  startWithdrawalWindow remove strategyAt ctl msg s amount rewards returns strategy = Ok s'
  \/ expireCandidateStrategy remove ctl msg s strategy = Ok s' ->
  Garden.isStrategy (base s') strategy = false /\
  (forall other, other <> strategy ->
                 Garden.isStrategy (base s') other = Garden.isStrategy (base s) other) /\
  (forall ctl' msg' keeper fee g',
      Garden.sender msg' = strategy ->
      Garden.payKeeper ctl' msg' (base s') keeper fee <> Ok g') /\
  (forall ctl' msg' capital g',
      Garden.sender msg' = strategy ->
      Garden.allocateCapitalToStrategy ctl' msg' (base s') capital <> Ok g').
Proof.
  intros Hcall.
  assert (Hmap : Garden.strategyMapping (base s')
                 = <[strategy := false]> (Garden.strategyMapping (base s))).
  { destruct Hcall as [Hok | Hok].
    - unfold startWithdrawalWindow in Hok. invert_Ok. injection Hok as <-. reflexivity.
    - unfold expireCandidateStrategy in Hok. invert_Ok. injection Hok as <-. reflexivity. }
  assert (Hgone : Garden.isStrategy (base s') strategy = false).
  { unfold Garden.isStrategy. rewrite Hmap, lookup_insert_eq. reflexivity. }
  assert (Hguard : forall ctl' msg' u, Garden.sender msg' = strategy ->
                                       Garden._onlyStrategy ctl' msg' (base s') <> Ok u).
  { intros ctl' msg' u Hsender Hguard. unfold Garden._onlyStrategy in Hguard.
    invert_Ok. apply require_inv in Hguard. congruence. }
  repeat split.
  - exact Hgone.
  - intros other Hne. unfold Garden.isStrategy. rewrite Hmap.
    rewrite lookup_insert_ne by congruence. reflexivity.
  - intros ctl' msg' keeper fee g' Hsender Hpay. unfold Garden.payKeeper in Hpay.
    invert_Ok. eapply Hguard; eauto.
  - intros ctl' msg' capital g' Hsender Halloc. unfold Garden.allocateCapitalToStrategy in Halloc.
    invert_Ok. eapply Hguard; eauto.
Qed.

End WindowFacts.

(** Strategy 50 hands back 30 and 6 of rewards: the liquid reserve of 85
    drops by 36. *)
Lemma startWithdrawalWindow_sets_aside_witness :
  Garden.liquidOf (GardenBook.base (handedBack 1000 500))
  = Garden.liquidOf
      (GardenBook.base (bookOf (GardenBook.set_window 1000 5 10 (gardenWith 100 10 5 0))))
    - 30 - 6.
Proof.
  destruct (startWithdrawalWindow_sets_aside removeFirst strategyViews controller0
              (fromStrategy 500)
              (bookOf (GardenBook.set_window 1000 5 10 (gardenWith 100 10 5 0)))
              (handedBack 1000 500) 30 6 6 50%N)
    as (_ & _ & _ & _ & Hliquid & _).
  - vm_compute. reflexivity.
  - exact Hliquid.
Defined.

(** A window open until day 6, renewed on day 1, now ends on day 3. *)
Lemma startWithdrawalWindow_window_witness :
  Garden.withdrawalsOpenUntil (GardenBook.base (handedBack (6 * 86400) 86400))
  < Garden.withdrawalsOpenUntil
      (GardenBook.base (bookOf (GardenBook.set_window (6 * 86400) 5 10 (gardenWith 100 10 5 0)))).
Proof.
  destruct (startWithdrawalWindow_window removeFirst strategyViews controller0
              (fromStrategy 86400)
              (bookOf (GardenBook.set_window (6 * 86400) 5 10 (gardenWith 100 10 5 0)))
              (handedBack (6 * 86400) 86400) 30 6 6 50%N)
    as (_ & _ & _ & Hshorter).
  - vm_compute. reflexivity.
  - apply Hshorter. vm_compute. reflexivity.
Defined.

(** After handing back, strategy 50 cannot have capital allocated. *)
Lemma deregistered_strategy_is_locked_out_witness :
  Garden.isStrategy (GardenBook.base (handedBack 1000 500)) 50%N = false /\
  forall g', Garden.allocateCapitalToStrategy controller0 (fromStrategy 600)
               (GardenBook.base (handedBack 1000 500)) 1 <> Ok g'.
Proof.
  destruct (deregistered_strategy_is_locked_out removeFirst strategyViews controller0
              (fromStrategy 500)
              (bookOf (GardenBook.set_window 1000 5 10 (gardenWith 100 10 5 0)))
              (handedBack 1000 500) 30 6 6 50%N)
    as (Hgone & _ & _ & Hblocked).
  - left. vm_compute. reflexivity.
  - split; [exact Hgone|]. intros g'. apply Hblocked. reflexivity.
Defined.

(** ** Garden: locked stakes and active capital *)

Section StakeFacts.
Import GardenBook.
Variable strategyAt : address -> StrategyView.

Lemma lockedIn_sum (c : address) (ss : list address) (acc : Z) :
  Forall (fun strategy => 0 <= stake (strategyAt strategy)) ss ->
  0 <= acc ->
  acc + stakedBy strategyAt c ss <= SafeMath.MAX_UINT256 ->
  lockedIn strategyAt c ss acc = Ok (acc + stakedBy strategyAt c ss).
Proof.
  revert acc. induction ss as [|strategy ss IH]; intros acc Hpos Hacc Hfit; simpl.
  - f_equal. lia.
  - apply Forall_cons in Hpos as [Hstake Hpos].
    assert (Hrest : 0 <= stakedBy strategyAt c ss).
    { clear -Hpos. induction ss as [|x ss IH]; simpl; [lia|].
      apply Forall_cons in Hpos as [Hx Hpos]. specialize (IH Hpos).
      destruct (decide _); lia. }
    simpl in Hfit. destruct (decide (c = strategist (strategyAt strategy))).
    + assert (Hadd : SafeMath.add acc (stake (strategyAt strategy))
                     = Ok (acc + stake (strategyAt strategy))) by (apply add_Ok; lia).
      rewrite Hadd. cbn [bind]. rewrite IH by (auto; lia). f_equal. lia.
    + rewrite IH by (auto; lia). reflexivity.
Qed.

(** X4. [getLockedBalance] is the sum of the stakes of the listed
    strategies whose strategist is the contributor, capped at the
    contributor's balance of garden tokens: it never exceeds the balance. *)
Theorem getLockedBalance_is_capped_sum (s : State) (c : address) :
  Forall (fun strategy => 0 <= stake (strategyAt strategy)) (strategies (registry s)) ->
  stakedBy strategyAt c (strategies (registry s)) <= SafeMath.MAX_UINT256 ->
  getLockedBalance strategyAt s c
  = Ok (Z.min (stakedBy strategyAt c (strategies (registry s))) (balanceOf s c)).
Proof.
  intros Hpos Hfit. unfold getLockedBalance.
  rewrite lockedIn_sum by (auto; lia). cbn [bind]. f_equal.
  destruct (Z.ltb_spec (balanceOf s c) (0 + stakedBy strategyAt c (strategies (registry s))));
    lia.
Qed.

Lemma activeCapital_spec (ss : list address) (total best : Z) (who : address)
      (total' best' : Z) (who' : address) :
  activeCapital strategyAt ss total best who = Ok (total', best', who') ->
  total' = total + activeTotal strategyAt ss /\
  best <= best' /\
  (forall strategy, strategy ∈ ss -> isStrategyActive (strategyAt strategy) = true ->
                    capitalAllocated (strategyAt strategy) <= best') /\
  ((best' = best /\ who' = who) \/
   (best < best' /\ who' ∈ ss /\ isStrategyActive (strategyAt who') = true /\
    capitalAllocated (strategyAt who') = best')).
Proof.
  revert total best who. induction ss as [|strategy ss IH]; intros total best who Hrun;
    simpl in Hrun.
  - injection Hrun as <- <- <-. simpl. split; [lia | split; [lia | split]].
    + intros strategy Hin. apply elem_of_nil in Hin. contradiction.
    + left. auto.
  - simpl. destruct (isStrategyActive (strategyAt strategy)) eqn:Hactive.
    + invert_Ok. apply add_Ok in Ha as [-> _].
      destruct (Z.gtb_spec (capitalAllocated (strategyAt strategy)) best) as [Hgt | Hle];
        apply IH in Hrun as (-> & Hmono & Hall & Hwho);
        (split; [lia | split; [lia | split]]).
      * intros x Hin Hx. apply elem_of_cons in Hin as [-> | Hin]; [lia | auto].
      * right. destruct Hwho as [[-> ->] | (Hlt & Hin & Hact & Hcap)].
        -- repeat split; auto. apply elem_of_cons. left. reflexivity.
        -- split; [lia|]. split; [apply elem_of_cons; right; exact Hin | auto].
      * intros x Hin Hx. apply elem_of_cons in Hin as [-> | Hin]; [lia | auto].
      * destruct Hwho as [[-> ->] | (Hlt & Hin & Hact & Hcap)]; [left; auto|].
        right. split; [lia|]. split; [apply elem_of_cons; right; exact Hin | auto].
    + apply IH in Hrun as (-> & Hmono & Hall & Hwho). split; [lia | split; [lia | split]].
      * intros x Hin Hx. apply elem_of_cons in Hin as [-> | Hin]; [congruence | auto].
      * destruct Hwho as [[-> ->] | (Hlt & Hin & Hact & Hcap)]; [left; auto|].
        right. split; [lia|]. split; [apply elem_of_cons; right; exact Hin | auto].
Qed.

(** X5. When [_getActiveCapital] returns, the first component is the sum
    of the capital allocated to the active strategies, the second bounds
    the allocation of each of them, and the third is an active strategy
    with exactly that allocation, or the zero address when no active
    strategy has a positive allocation. *)
Theorem getActiveCapital_total_and_largest
        (s : State) (total largest : Z) (who : address) :
  _getActiveCapital strategyAt s = Ok (total, largest, who) ->
  total = activeTotal strategyAt (strategies (registry s)) /\
  (forall strategy, strategy ∈ strategies (registry s) ->
                    isStrategyActive (strategyAt strategy) = true ->
                    capitalAllocated (strategyAt strategy) <= largest) /\
  ((largest = 0 /\ who = 0%N) \/
   (0 < largest /\ who ∈ strategies (registry s) /\
    isStrategyActive (strategyAt who) = true /\
    capitalAllocated (strategyAt who) = largest)).
Proof.
  unfold _getActiveCapital. destruct (_ <=? _)%nat; [|discriminate].
  intros Hrun. apply activeCapital_spec in Hrun as (-> & _ & Hall & Hwho).
  split; [reflexivity | split; [exact Hall|]].
  destruct Hwho as [[-> ->] | Hfound]; [left; auto | right; exact Hfound].
Qed.

End StakeFacts.

(** Contributor 11 has stakes of 3 and 4 in strategies 50 and 51 but holds
    5 garden tokens: 5 are locked. *)
Lemma getLockedBalance_is_capped_sum_witness :
  GardenBook.getLockedBalance strategyViews (bookOf (gardenWith 100 10 5 0)) 11%N
  = Ok (Z.min (GardenBook.stakedBy strategyViews 11%N
                 (GardenBook.strategies (GardenBook.registry (bookOf (gardenWith 100 10 5 0)))))
              (GardenBook.balanceOf (bookOf (gardenWith 100 10 5 0)) 11%N)).
Proof.
  apply (getLockedBalance_is_capped_sum strategyViews (bookOf (gardenWith 100 10 5 0)) 11%N).
  - repeat constructor; vm_compute; discriminate.
  - vm_compute. discriminate.
Defined.

(** Of strategies 50 and 51 only 51 is active, with 7 allocated. *)
Lemma getActiveCapital_total_and_largest_witness :
  7 = GardenBook.activeTotal strategyViews
        (GardenBook.strategies (GardenBook.registry (bookOf (gardenWith 100 10 5 0)))).
Proof.
  destruct (getActiveCapital_total_and_largest strategyViews (bookOf (gardenWith 100 10 5 0))
              7 7 51%N) as (Htotal & _).
  - vm_compute. reflexivity.
  - exact Htotal.
Defined.

(** ** Garden: the reserve under withdrawals, allocations and keeper fees *)

Section ReserveFacts.
Import GardenBook.

(** X6. During an open window, [_canWithdrawReserveAmount] approves an
    amount above the free reserve when the contributor's share of the
    window covers the difference. Once that amount has left the garden,
    the balance no longer covers the set-asides: [_liquidReserve] reverts,
    and so does [_canWithdrawReserveAmount] for every contributor, amount
    and time, as long as the window is not reset. *)
Theorem pro_rata_withdrawal_blocks_the_reserve
        (msg : Garden.Msg) (s : State) (power : address -> Z -> Z -> Z)
        (contributor to : address) (amount : Z) :
  Garden.timestamp msg <= Garden.withdrawalsOpenUntil (base s) ->
  0 <= Garden.reserveAssetRewardsSetAside (base s) ->
  0 <= Garden.reserveAssetPrincipalWindow (base s) ->
  0 <= Garden.liquidOf (base s) ->
  0 <= power contributor (initialDepositAt (contributorOf s contributor)) (Garden.timestamp msg)
    <= 10 ^ 18 ->
  Garden.reserveAssetPrincipalWindow (base s)
  * power contributor (initialDepositAt (contributorOf s contributor)) (Garden.timestamp msg)
    <= SafeMath.MAX_UINT256 ->
  Garden.liquidOf (base s) < amount ->
  amount <= Garden.reserveAssetPrincipalWindow (base s)
            * power contributor (initialDepositAt (contributorOf s contributor))
                    (Garden.timestamp msg) / 10 ^ 18
            + Garden.liquidOf (base s) ->
  ERC20.balanceOf (Garden.ledger (base s)) (Garden.this (base s)) <= SafeMath.MAX_UINT256 ->
  to <> Garden.this (base s) ->
  _canWithdrawReserveAmount msg s power contributor amount = Ok true /\
  exists g',
    Garden.safeTransfer to amount (base s) = Ok g' /\
    Garden._liquidReserve g' = Revert Arithmetic /\
    forall msg' power' contributor' amount',
      _canWithdrawReserveAmount msg' (set_base g' s) power' contributor' amount'
      = Revert Arithmetic.
Proof.
  intros Hopen Hset Hwin Hliq Hp Hfit Habove Hshare Hmax Hto.
  unfold Garden.liquidOf in *.
  remember (base s) as g eqn:Hg.
  remember (ERC20.balanceOf (Garden.ledger g) (Garden.this g)) as balance eqn:Hbalance.
  remember (Garden.reserveAssetPrincipalWindow g) as window eqn:Hwindow.
  remember (Garden.reserveAssetRewardsSetAside g) as setAside eqn:HsetAside.
  remember (power contributor (initialDepositAt (contributorOf s contributor))
                  (Garden.timestamp msg)) as p eqn:Hpower.
  assert (Hpos : 0 <= window * p / 10 ^ 18 <= window).
  { assert (Hprod : 0 <= window * p) by (apply Z.mul_nonneg_nonneg; lia).
    split; [apply Z.div_pos; lia|].
    apply Z.div_le_upper_bound; [lia|].
    rewrite (Z.mul_comm (10 ^ 18)). apply Z.mul_le_mono_nonneg_l; lia. }
  assert (Hbal : amount <= balance) by lia.
  split.
  - assert (H1 : SafeMath.sub balance setAside = Ok (balance - setAside))
      by (apply sub_Ok; split; [reflexivity | lia]).
    assert (H2 : SafeMath.sub (balance - setAside) window = Ok (balance - setAside - window))
      by (apply sub_Ok; split; [reflexivity | lia]).
    assert (H3 : SafeMath.add (window * p / 10 ^ 18) (balance - setAside - window)
                 = Ok (window * p / 10 ^ 18 + (balance - setAside - window)))
      by (apply add_Ok; split; [reflexivity | lia]).
    unfold _canWithdrawReserveAmount. cbv zeta.
    rewrite <- Hg, <- Hbalance, <- HsetAside, <- Hwindow, <- Hpower.
    rewrite H1. cbn [bind].
    destruct (Z.leb_spec (Garden.timestamp msg) (Garden.withdrawalsOpenUntil g)); [|lia].
    rewrite H2. cbn [bind].
    destruct (Z.gtb_spec (balance - setAside - window) amount); [lia|].
    rewrite (proj2 (preciseMul_Ok window p _) (conj eq_refl Hfit)). cbn [bind].
    rewrite H3. cbn [bind].
    destruct (Z.geb_spec (window * p / 10 ^ 18 + (balance - setAside - window)) amount);
      [reflexivity | lia].
  - unfold Garden.safeTransfer.
    destruct (ERC20.transfer (Garden.this g) to amount (Garden.ledger g)) as [l|r] eqn:Hsend.
    2:{ rewrite transfer_Ok in Hsend by (rewrite <- Hbalance; lia). discriminate. }
    cbn [bind]. eexists. split; [reflexivity|].
    destruct (transfer_balances _ _ _ _ _ Hsend (not_eq_sym Hto)) as (Hthis & _ & _).
    rewrite <- Hbalance in Hthis.
    assert (Hunder : ERC20.balanceOf (Garden.ledger (Garden.set_ledger l g))
                                     (Garden.this (Garden.set_ledger l g))
                     < Garden.reserveAssetPrincipalWindow (Garden.set_ledger l g)
                       + Garden.reserveAssetRewardsSetAside (Garden.set_ledger l g)).
    { cbn [Garden.ledger Garden.this Garden.set_ledger Garden.reserveAssetRewardsSetAside
           Garden.reserveAssetPrincipalWindow].
      rewrite Hthis, <- Hwindow, <- HsetAside. lia. }
    split; [apply liquidReserve_underflow; exact Hunder|].
    intros msg' power' contributor' amount'.
    unfold _canWithdrawReserveAmount. cbv zeta. cbn [base set_base].
    cbn [Garden.ledger Garden.this Garden.set_ledger Garden.reserveAssetRewardsSetAside
         Garden.reserveAssetPrincipalWindow Garden.withdrawalsOpenUntil].
    rewrite Hthis, <- Hwindow, <- HsetAside.
    destruct (Z.le_gt_cases setAside (balance - amount)) as [Hcov | Hnot].
    + rewrite (proj2 (sub_Ok (balance - amount) setAside _) (conj eq_refl Hcov)). cbn [bind].
      assert (Hsub : SafeMath.sub (balance - amount - setAside) window = Revert Arithmetic).
      { apply sub_Revert. split; [reflexivity | lia]. }
      destruct (Garden.timestamp msg' <=? Garden.withdrawalsOpenUntil g);
        rewrite Hsub; reflexivity.
    + assert (Hsub : SafeMath.sub (balance - amount) setAside = Revert Arithmetic).
      { apply sub_Revert. split; [reflexivity | lia]. }
      rewrite Hsub. reflexivity.
Qed.

End ReserveFacts.

Section KeeperAndCapital.
Import Garden.

Lemma payKeeper_Ok (ctl : Controller) (msg : Msg) (g g' : State) (keeper : address) (fee : Z) :
  payKeeper ctl msg g keeper fee = Ok g' ->
  isValidKeeper ctl keeper = true /\
  isStrategy g (sender msg) = true /\
  ((g' = set_keeperDebt (keeperDebt g + fee) g /\
    (keeperDebt g + fee <= 0 \/
     (_liquidReserve g = Ok (liquidOf g) /\ liquidOf g < keeperDebt g + fee))) \/
   (0 < keeperDebt g + fee <= liquidOf g /\
    _liquidReserve g = Ok (liquidOf g) /\
    exists l, ERC20.transfer (this g) keeper (keeperDebt g + fee) (ledger g) = Ok l /\
              g' = set_keeperDebt 0 (set_ledger l g))).
Proof.
  unfold payKeeper. intros Hpay.
  apply bind_Ok in Hpay as (u1 & Hkeeper & Hpay). apply require_inv in Hkeeper.
  apply bind_Ok in Hpay as (u2 & Hguard & Hpay).
  unfold _onlyStrategy in Hguard. apply bind_Ok in Hguard as (u3 & _ & Hguard).
  apply require_inv in Hguard.
  apply bind_Ok in Hpay as (debt & Hadd & Hpay). apply add_Ok in Hadd as [-> _].
  split; [assumption | split; [assumption|]].
  cbn [keeperDebt set_keeperDebt] in Hpay.
  destruct (Z.gtb_spec (keeperDebt g + fee) 0) as [Hpos | Hzero].
  - apply bind_Ok in Hpay as (liquid & Hliq & Hpay).
    assert (Hliq' : _liquidReserve g = Ok liquid) by exact Hliq.
    pose proof Hliq' as Hval. apply liquidReserve_Ok in Hval as (-> & _ & _).
    destruct (Z.geb_spec (liquidOf g) (keeperDebt g + fee)) as [Hcov | Hshort].
    + right. apply bind_Ok in Hpay as (gPaid & Hsend & Hpay).
      unfold safeTransfer in Hsend. apply bind_Ok in Hsend as (l & Hsend & HgPaid).
      cbn [ledger this set_keeperDebt] in Hsend. injection HgPaid as <-. injection Hpay as <-.
      split; [lia | split; [assumption|]]. exists l. split; [assumption | reflexivity].
    + left. injection Hpay as <-. split; [reflexivity | right; split; [assumption | lia]].
  - left. injection Hpay as <-. split; [reflexivity | left; lia].
Qed.

(** X7. A [payKeeper] call that returns either moves no token and records
    the fee in [keeperDebt], or clears [keeperDebt] by paying the keeper
    the old debt and the fee out of the garden's balance; in the second
    case the balance left still covers the principal window and the
    rewards set aside. *)
Theorem payKeeper_never_pays_from_set_asides
        (ctl : Controller) (msg : Msg) (g g' : State) (keeper : address) (fee : Z) :
  payKeeper ctl msg g keeper fee = Ok g' ->
  keeper <> this g ->
  (ledger g' = ledger g /\ keeperDebt g' = keeperDebt g + fee) \/
  (keeperDebt g' = 0 /\
   ERC20.balanceOf (ledger g') keeper
   = ERC20.balanceOf (ledger g) keeper + (keeperDebt g + fee) /\
   ERC20.balanceOf (ledger g') (this g')
   = ERC20.balanceOf (ledger g) (this g) - (keeperDebt g + fee) /\
   reserveAssetPrincipalWindow g' + reserveAssetRewardsSetAside g'
   <= ERC20.balanceOf (ledger g') (this g')).
Proof.
  intros Hpay Hne. apply payKeeper_Ok in Hpay as (_ & _ & [[-> _] | (Hcov & _ & l & Hsend & ->)]).
  - left. split; reflexivity.
  - right. destruct (transfer_balances _ _ _ _ _ Hsend (not_eq_sym Hne)) as (Hthis & Hkeeper & _).
    cbn [keeperDebt ledger this set_keeperDebt set_ledger
         reserveAssetPrincipalWindow reserveAssetRewardsSetAside].
    unfold liquidOf in Hcov. repeat split; try assumption; lia.
Qed.

(** X8. The debt is not tied to the keeper who earned it. When a call for
    keeper A is deferred and a later call for another keeper B, on a
    garden carrying the same debt, is paid, B receives A's fee, the debt
    before it and B's own fee, and A's balance does not change. *)
Theorem payKeeper_pays_the_latest_keeper
        (ctl ctl' : Controller) (msg msg' : Msg) (g g1 g2 g3 : State)
        (keeperA keeperB : address) (feeA feeB : Z) :
  payKeeper ctl msg g keeperA feeA = Ok g1 ->
  0 < keeperDebt g1 ->
  keeperDebt g2 = keeperDebt g1 ->
  payKeeper ctl' msg' g2 keeperB feeB = Ok g3 ->
  0 <= feeB ->
  keeperDebt g3 = 0 ->
  keeperA <> keeperB -> keeperA <> this g2 -> keeperB <> this g2 ->
  ERC20.balanceOf (ledger g3) keeperB
  = ERC20.balanceOf (ledger g2) keeperB + keeperDebt g + feeA + feeB /\
  ERC20.balanceOf (ledger g3) keeperA = ERC20.balanceOf (ledger g2) keeperA /\
  ledger g1 = ledger g.
Proof.
  intros HpayA Hdebt Hsame HpayB HfeeB Hpaid Hab Ha Hb.
  apply payKeeper_Ok in HpayA as (_ & _ & [[-> _] | (_ & _ & l & _ & ->)]);
    [|cbn in Hdebt; lia].
  cbn [keeperDebt set_keeperDebt] in Hsame, Hdebt.
  apply payKeeper_Ok in HpayB as (_ & _ & [[-> _] | (_ & _ & l & Hsend & ->)]).
  - cbn [keeperDebt set_keeperDebt] in Hpaid. lia.
  - destruct (transfer_balances _ _ _ _ _ Hsend (not_eq_sym Hb)) as (_ & HB & Hother).
    cbn [ledger set_keeperDebt set_ledger]. repeat split.
    + rewrite HB. lia.
    + apply Hother; congruence.
Qed.

Lemma allocate_Ok (ctl : Controller) (msg : Msg) (g g' : State) (capital : Z) :
  allocateCapitalToStrategy ctl msg g capital = Ok g' ->
  let g1 := _reenableReserveForStrategies msg g in
  let fee := protocolManagementFee ctl * capital / 10 ^ 18 in
  capital + fee <= liquidOf g1 /\
  exists l1 l2,
    ERC20.transfer (this g) (treasury ctl) fee (ledger g) = Ok l1 /\
    ERC20.transfer (this g) (sender msg) capital l1 = Ok l2 /\
    g' = set_ledger l2 g1.
Proof.
  unfold allocateCapitalToStrategy. intros Halloc.
  apply bind_Ok in Halloc as (u1 & _ & Halloc).
  apply bind_Ok in Halloc as (u2 & _ & Halloc).
  apply bind_Ok in Halloc as (fee & Hfee & Halloc). apply preciseMul_Ok in Hfee as [-> _].
  apply bind_Ok in Halloc as (needed & Hadd & Halloc). apply add_Ok in Hadd as [-> _].
  apply bind_Ok in Halloc as (liquid & Hliq & Halloc).
  apply liquidReserve_Ok in Hliq as (-> & _ & _).
  apply bind_Ok in Halloc as (u3 & Hfit & Halloc).
  apply require_inv in Hfit. apply Z.leb_le in Hfit.
  apply bind_Ok in Halloc as (gFee & Hpaid & Halloc).
  unfold _payProtocolFeeFromGarden, safeTransfer in Hpaid.
  apply bind_Ok in Hpaid as (l1 & Hsend1 & HgFee). injection HgFee as <-.
  unfold safeTransfer in Halloc. apply bind_Ok in Halloc as (l2 & Hsend2 & Hg').
  injection Hg' as <-.
  cbv zeta. split; [assumption|].
  assert (Hthis : this (_reenableReserveForStrategies msg g) = this g)
    by (unfold _reenableReserveForStrategies; destruct (_ >=? _); reflexivity).
  assert (Hledger : ledger (_reenableReserveForStrategies msg g) = ledger g)
    by (unfold _reenableReserveForStrategies; destruct (_ >=? _); reflexivity).
  cbn [ledger this set_ledger] in Hsend1, Hsend2. rewrite Hthis, Hledger in Hsend1.
  rewrite Hthis in Hsend2.
  exists l1, l2. split; [assumption | split; [assumption|]]. reflexivity.
Qed.

(** X9. A successful [allocateCapitalToStrategy] takes from the garden
    exactly the capital and the fee [protocolManagementFee * capital / 1e18],
    gives the capital to the calling strategy and the fee to the treasury,
    and leaves every other balance, the debt to keepers and the rewards
    set aside untouched; what is left covers the set-asides. *)
Theorem allocateCapitalToStrategy_moves_exactly
        (ctl : Controller) (msg : Msg) (g g' : State) (capital : Z) :
  allocateCapitalToStrategy ctl msg g capital = Ok g' ->
  this g <> treasury ctl -> this g <> sender msg -> treasury ctl <> sender msg ->
  ERC20.balanceOf (ledger g') (this g')
  = ERC20.balanceOf (ledger g) (this g)
    - capital - protocolManagementFee ctl * capital / 10 ^ 18 /\
  ERC20.balanceOf (ledger g') (sender msg) = ERC20.balanceOf (ledger g) (sender msg) + capital /\
  ERC20.balanceOf (ledger g') (treasury ctl)
  = ERC20.balanceOf (ledger g) (treasury ctl) + protocolManagementFee ctl * capital / 10 ^ 18 /\
  (forall other, other <> this g -> other <> sender msg -> other <> treasury ctl ->
                 ERC20.balanceOf (ledger g') other = ERC20.balanceOf (ledger g) other) /\
  keeperDebt g' = keeperDebt g /\
  reserveAssetRewardsSetAside g' = reserveAssetRewardsSetAside g /\
  reserveAssetPrincipalWindow g' + reserveAssetRewardsSetAside g'
  <= ERC20.balanceOf (ledger g') (this g').
Proof.
  intros Halloc Htreasury Hsender Hboth.
  apply allocate_Ok in Halloc as (Hfit & l1 & l2 & Hfee & Hcap & ->).
  destruct (transfer_balances _ _ _ _ _ Hfee Htreasury) as (Hthis1 & Htreasury1 & Hother1).
  destruct (transfer_balances _ _ _ _ _ Hcap Hsender) as (Hthis2 & Hsender2 & Hother2).
  assert (Hg1 : this (_reenableReserveForStrategies msg g) = this g /\
                keeperDebt (_reenableReserveForStrategies msg g) = keeperDebt g /\
                reserveAssetRewardsSetAside (_reenableReserveForStrategies msg g)
                = reserveAssetRewardsSetAside g /\
                ledger (_reenableReserveForStrategies msg g) = ledger g).
  { unfold _reenableReserveForStrategies. destruct (_ >=? _); cbn; auto. }
  destruct Hg1 as (Ht & Hd & Hs & Hl).
  unfold liquidOf in Hfit. rewrite Ht, Hl, Hs in Hfit.
  cbn [ledger this set_ledger keeperDebt reserveAssetRewardsSetAside
       reserveAssetPrincipalWindow].
  rewrite Ht, Hd, Hs.
  split; [rewrite Hthis2, Hthis1; lia|].
  split; [rewrite Hsender2, Hother1 by congruence; reflexivity|].
  split; [rewrite Hother2, Htreasury1 by congruence; reflexivity|].
  split; [intros other H1 H2 H3; rewrite Hother2, Hother1 by congruence; reflexivity|].
  split; [reflexivity | split; [reflexivity|]].
  rewrite Hthis2, Hthis1. lia.
Qed.

End KeeperAndCapital.

Section Allocations.
Import Garden.

Lemma allocate_step (ctl : Controller) (msg : Msg) (g g' : State) (capital : Z) :
  allocateCapitalToStrategy ctl msg g capital = Ok g' ->
  this g <> treasury ctl -> this g <> sender msg ->
  0 <= reserveAssetPrincipalWindow g ->
  this g' = this g /\
  reserveAssetRewardsSetAside g' = reserveAssetRewardsSetAside g /\
  0 <= reserveAssetPrincipalWindow g' /\
  ERC20.balanceOf (ledger g') (this g)
  = ERC20.balanceOf (ledger g) (this g)
    - (capital + protocolManagementFee ctl * capital / 10 ^ 18) /\
  reserveAssetRewardsSetAside g <= ERC20.balanceOf (ledger g') (this g).
Proof.
  intros Halloc Htreasury Hsender Hwindow.
  apply allocate_Ok in Halloc as (Hfit & l1 & l2 & Hfee & Hcap & ->).
  destruct (transfer_balances _ _ _ _ _ Hfee Htreasury) as (Hthis1 & _ & _).
  destruct (transfer_balances _ _ _ _ _ Hcap Hsender) as (Hthis2 & _ & _).
  assert (Hg1 : this (_reenableReserveForStrategies msg g) = this g /\
                reserveAssetRewardsSetAside (_reenableReserveForStrategies msg g)
                = reserveAssetRewardsSetAside g /\
                ledger (_reenableReserveForStrategies msg g) = ledger g /\
                0 <= reserveAssetPrincipalWindow (_reenableReserveForStrategies msg g)).
  { unfold _reenableReserveForStrategies. destruct (_ >=? _); cbn; repeat split; auto; lia. }
  destruct Hg1 as (Ht & Hs & Hl & Hw).
  unfold liquidOf in Hfit. rewrite Ht, Hl, Hs in Hfit.
  cbn [ledger this set_ledger reserveAssetRewardsSetAside reserveAssetPrincipalWindow].
  rewrite Ht, Hs, Hthis2, Hthis1. repeat split; try assumption; lia.
Qed.

(** X10. However many allocations follow one another, whatever their
    times and whether or not a withdrawal window ends in between, the
    garden pays exactly the capitals and their fees, and its balance
    never goes below the rewards set aside: together the allocations take
    at most the balance less the rewards set aside. *)
Theorem allocations_never_take_the_rewards_set_aside
        (ctl : Controller) (g g' : State) (calls : list (Msg * Z)) :
  GardenBook.allocateEach ctl g calls = Ok g' ->
  calls <> [] ->
  this g <> treasury ctl ->
  Forall (fun call => this g <> sender (fst call)) calls ->
  0 <= reserveAssetPrincipalWindow g ->
  ERC20.balanceOf (ledger g') (this g)
  = ERC20.balanceOf (ledger g) (this g) - GardenBook.taken ctl calls /\
  reserveAssetRewardsSetAside g' = reserveAssetRewardsSetAside g /\
  GardenBook.taken ctl calls
  <= ERC20.balanceOf (ledger g) (this g) - reserveAssetRewardsSetAside g.
Proof.
  intros Hrun Hcalls Htreasury Hsenders Hwindow.
  enough (Hgen : ERC20.balanceOf (ledger g') (this g)
                 = ERC20.balanceOf (ledger g) (this g) - GardenBook.taken ctl calls /\
                 reserveAssetRewardsSetAside g' = reserveAssetRewardsSetAside g /\
                 reserveAssetRewardsSetAside g <= ERC20.balanceOf (ledger g') (this g)).
  { destruct Hgen as (Hbal & Hset & Hcov). repeat split; try assumption. lia. }
  destruct calls as [|[msg capital] calls]; [congruence|]. clear Hcalls.
  revert g msg capital Hrun Htreasury Hsenders Hwindow.
  induction calls as [|[msg2 capital2] calls IH];
    intros g msg capital Hrun Htreasury Hsenders Hwindow.
  - simpl in Hrun. apply bind_Ok in Hrun as (g1 & Halloc & Hrest). injection Hrest as <-.
    apply Forall_cons in Hsenders as [Hsender _]. simpl in Hsender.
    destruct (allocate_step _ _ _ _ _ Halloc Htreasury Hsender Hwindow)
      as (_ & Hset & _ & Hbal & Hcov).
    simpl. repeat split; try assumption. lia.
  - simpl in Hrun. apply bind_Ok in Hrun as (g1 & Halloc & Hrest).
    apply Forall_cons in Hsenders as [Hsender Hsenders]. simpl in Hsender.
    destruct (allocate_step _ _ _ _ _ Halloc Htreasury Hsender Hwindow)
      as (Hthis & Hset & Hwindow1 & Hbal & _).
    specialize (IH g1 msg2 capital2 Hrest).
    rewrite Hthis in IH. specialize (IH Htreasury Hsenders Hwindow1).
    destruct IH as (Hbal' & Hset' & Hcov').
    change (GardenBook.taken ctl ((msg, capital) :: (msg2, capital2) :: calls))
      with (capital + protocolManagementFee ctl * capital / 10 ^ 18
            + GardenBook.taken ctl ((msg2, capital2) :: calls)).
    repeat split.
    + rewrite Hbal'. lia.
    + congruence.
    + lia.
Qed.

End Allocations.

(** With a balance of 100, 90 in the window and 5 of rewards, 5 are free;
    a contributor with half of the power may take 40, after which no
    liquid reserve can be computed. *)
Lemma pro_rata_withdrawal_blocks_the_reserve_witness :
  GardenBook._canWithdrawReserveAmount (fromStrategy 500) (bookOf (gardenWith 100 90 5 0))
                                       halfPower 12%N 40 = Ok true /\
  exists g',
    Garden.safeTransfer 12%N 40 (GardenBook.base (bookOf (gardenWith 100 90 5 0))) = Ok g' /\
    Garden._liquidReserve g' = Revert Arithmetic.
Proof.
  destruct (pro_rata_withdrawal_blocks_the_reserve
              (fromStrategy 500) (bookOf (gardenWith 100 90 5 0)) halfPower 12%N 12%N 40)
    as [Happroved (g' & Hsent & Hblocked & _)]; [evaluate .. |].
  split; [exact Happroved | exists g'; split; assumption].
Defined.

(** Keeper 9 is paid the debt of 40 and a fee of 2 out of a liquid
    reserve of 85. *)
Lemma payKeeper_never_pays_from_set_asides_witness :
  (Garden.ledger (commit (gardenWith 100 10 5 40)
                         (Garden.payKeeper controller0 (fromStrategy 500)
                                           (gardenWith 100 10 5 40) 9%N 2))
   = Garden.ledger (gardenWith 100 10 5 40) /\
   Garden.keeperDebt (commit (gardenWith 100 10 5 40)
                             (Garden.payKeeper controller0 (fromStrategy 500)
                                               (gardenWith 100 10 5 40) 9%N 2))
   = Garden.keeperDebt (gardenWith 100 10 5 40) + 2) \/
  (Garden.keeperDebt (commit (gardenWith 100 10 5 40)
                             (Garden.payKeeper controller0 (fromStrategy 500)
                                               (gardenWith 100 10 5 40) 9%N 2)) = 0 /\
   ERC20.balanceOf
     (Garden.ledger (commit (gardenWith 100 10 5 40)
                            (Garden.payKeeper controller0 (fromStrategy 500)
                                              (gardenWith 100 10 5 40) 9%N 2))) 9%N
   = ERC20.balanceOf (Garden.ledger (gardenWith 100 10 5 40)) 9%N
     + (Garden.keeperDebt (gardenWith 100 10 5 40) + 2) /\
   ERC20.balanceOf
     (Garden.ledger (commit (gardenWith 100 10 5 40)
                            (Garden.payKeeper controller0 (fromStrategy 500)
                                              (gardenWith 100 10 5 40) 9%N 2)))
     (Garden.this (commit (gardenWith 100 10 5 40)
                          (Garden.payKeeper controller0 (fromStrategy 500)
                                            (gardenWith 100 10 5 40) 9%N 2)))
   = ERC20.balanceOf (Garden.ledger (gardenWith 100 10 5 40))
                     (Garden.this (gardenWith 100 10 5 40))
     - (Garden.keeperDebt (gardenWith 100 10 5 40) + 2) /\
   Garden.reserveAssetPrincipalWindow
     (commit (gardenWith 100 10 5 40)
             (Garden.payKeeper controller0 (fromStrategy 500) (gardenWith 100 10 5 40) 9%N 2))
   + Garden.reserveAssetRewardsSetAside
       (commit (gardenWith 100 10 5 40)
               (Garden.payKeeper controller0 (fromStrategy 500) (gardenWith 100 10 5 40) 9%N 2))
   <= ERC20.balanceOf
        (Garden.ledger (commit (gardenWith 100 10 5 40)
                               (Garden.payKeeper controller0 (fromStrategy 500)
                                                 (gardenWith 100 10 5 40) 9%N 2)))
        (Garden.this (commit (gardenWith 100 10 5 40)
                             (Garden.payKeeper controller0 (fromStrategy 500)
                                               (gardenWith 100 10 5 40) 9%N 2)))).
Proof.
  apply (payKeeper_never_pays_from_set_asides controller0 (fromStrategy 500)
           (gardenWith 100 10 5 40)
           (commit (gardenWith 100 10 5 40)
                   (Garden.payKeeper controller0 (fromStrategy 500)
                                     (gardenWith 100 10 5 40) 9%N 2))
           9%N 2).
  - vm_compute. reflexivity.
  - vm_compute. discriminate.
Defined.

(** Keeper 9 is owed 40 and 50; keeper 10, asking for 1, is paid 91. *)
Lemma payKeeper_pays_the_latest_keeper_witness :
  ERC20.balanceOf (Garden.ledger settled) 10%N
  = ERC20.balanceOf (Garden.ledger refilled) 10%N
    + Garden.keeperDebt (gardenWith 100 10 5 40) + 50 + 1 /\
  ERC20.balanceOf (Garden.ledger settled) 9%N = ERC20.balanceOf (Garden.ledger refilled) 9%N.
Proof.
  destruct (payKeeper_pays_the_latest_keeper controller1 controller1
              (fromStrategy 500) (fromStrategy 600)
              (gardenWith 100 10 5 40) owing refilled settled 9%N 10%N 50 1)
    as (HB & HA & _); [evaluate .. |].
  split; assumption.
Defined.

(** 2 ether allocated out of 6: the garden keeps 3.99 ether. *)
Lemma allocateCapitalToStrategy_moves_exactly_witness :
  ERC20.balanceOf (Garden.ledger allocatedOnce) (Garden.this allocatedOnce)
  = ERC20.balanceOf (Garden.ledger (gardenWith (6 * 10 ^ 18) (10 ^ 18) 0 0))
                    (Garden.this (gardenWith (6 * 10 ^ 18) (10 ^ 18) 0 0))
    - 2 * 10 ^ 18 - Garden.protocolManagementFee controller0 * (2 * 10 ^ 18) / 10 ^ 18.
Proof.
  destruct (allocateCapitalToStrategy_moves_exactly controller0 (fromStrategy 500)
              (gardenWith (6 * 10 ^ 18) (10 ^ 18) 0 0) allocatedOnce (2 * 10 ^ 18))
    as (Hgarden & _); [evaluate .. |].
  exact Hgarden.
Defined.

(** Two allocations, 2 ether in the window and 1 ether after it. *)
Lemma allocations_never_take_the_rewards_set_aside_witness :
  GardenBook.taken controller0 twoAllocations
  <= ERC20.balanceOf (Garden.ledger (gardenWith (6 * 10 ^ 18) (10 ^ 18) 0 0))
                     (Garden.this (gardenWith (6 * 10 ^ 18) (10 ^ 18) 0 0))
     - Garden.reserveAssetRewardsSetAside (gardenWith (6 * 10 ^ 18) (10 ^ 18) 0 0).
Proof.
  destruct (allocations_never_take_the_rewards_set_aside controller0
              (gardenWith (6 * 10 ^ 18) (10 ^ 18) 0 0) allocatedTwice twoAllocations)
    as (_ & _ & Hbound).
  - vm_compute. reflexivity.
  - discriminate.
  - vm_compute. discriminate.
  - repeat constructor; vm_compute; discriminate.
  - vm_compute. discriminate.
  - exact Hbound.
Defined.

(** ** FundIdeas: what a settlement pays and books *)

Section SettlementFacts.
Import FundIdeas.

Lemma payVoters_against (st : State) (ideaIndex pool total : Z) (vs : list address)
      (paid : list Call) :
  payVoters st (fun w => w <? 0) ideaIndex pool total vs = Ok paid ->
  paid = [] /\ Forall (fun v => 0 <= votesOf st ideaIndex v) vs.
Proof.
  revert paid. induction vs as [|v vs IH]; intros paid; simpl.
  - intros [= <-]. split; [reflexivity | constructor].
  - destruct (Z.ltb_spec (votesOf st ideaIndex v) 0) as [Hneg | Hpos].
    + unfold voterShare, SafeMath.toUint256.
      destruct (Z.leb_spec 0 (votesOf st ideaIndex v)); [lia|].
      simpl. discriminate.
    + intros Hrest. apply IH in Hrest as [-> Hall].
      split; [reflexivity | constructor; assumption].
Qed.

Lemma editPosition_Ok (st : State) (tail : list Call) :
  editPosition st 0 = Ok tail ->
  tail = [CalculateAndEditPosition (reserveAsset st) (positionBalance st) 0] /\
  0 <= positionBalance st.
Proof.
  unfold editPosition, SafeMath.toUint256.
  replace (positionBalance st + 0) with (positionBalance st) by lia.
  destruct (Z.leb_spec 0 (positionBalance st)); simpl; [|discriminate].
  intros [= <-]. split; [reflexivity | assumption].
Qed.

(** X11. When the capital returned does not exceed the capital requested,
    a settlement that returns has paid no voter: it deposits the slashed
    stake and edits the position, nothing else. A voter on the list with a
    negative weight makes it revert, so voting against a losing idea is
    never rewarded. *)
Theorem transferIdeaRewards_loss_pays_no_voter
        (st : State) (ideaIndex capitalReturned : Z) (idea : InvestmentIdea)
        (calls : list Call) :
  investmentsExecuted st !! Z.to_nat ideaIndex = Some idea ->
  capitalReturned <= capitalRequested idea ->
  _transferIdeaRewards st ideaIndex capitalReturned = Ok calls ->
  Forall (fun v => 0 <= votesOf st ideaIndex v) (voters idea) /\
  exists slashed,
    stakeToSlash idea capitalReturned = Ok slashed /\
    calls = [WETHDeposit slashed;
             CalculateAndEditPosition (reserveAsset st) (positionBalance st) 0].
Proof.
  intros Hidea Hloss. unfold _transferIdeaRewards. rewrite Hidea. cbv zeta.
  destruct (Z.gtb_spec capitalReturned (capitalRequested idea)) as [Hgain | _]; [lia|].
  intros Hrun.
  apply bind_Ok in Hrun as (slashed & Hslashed & Hrun).
  apply bind_Ok in Hrun as (booked & _ & Hrun).
  apply bind_Ok in Hrun as (votersRewards & _ & Hrun).
  apply bind_Ok in Hrun as (paid & Hpaid & Hrun).
  apply bind_Ok in Hrun as (unbooked & _ & Hrun).
  apply bind_Ok in Hrun as (tail & Htail & Hrun).
  apply payVoters_against in Hpaid as [-> Hall].
  apply editPosition_Ok in Htail as [-> _].
  injection Hrun as <-.
  split; [assumption|]. exists slashed. split; [assumption | reflexivity].
Qed.

(** An endorsed idea that returns 1.8 ether of 2: the voter is not paid. *)
Lemma transferIdeaRewards_loss_pays_no_voter_witness :
  Forall (fun v => 0 <= votesOf endorsedFund 0 v) (voters endorsedIdea) /\
  exists slashed,
    stakeToSlash endorsedIdea (18 * 10 ^ 17) = Ok slashed /\
    commit [] (_transferIdeaRewards endorsedFund 0 (18 * 10 ^ 17))
    = [WETHDeposit slashed;
       CalculateAndEditPosition (reserveAsset endorsedFund) (positionBalance endorsedFund) 0].
Proof.
  apply (transferIdeaRewards_loss_pays_no_voter endorsedFund 0 (18 * 10 ^ 17) endorsedIdea).
  - reflexivity.
  - vm_compute. discriminate.
  - vm_compute. reflexivity.
Defined.

(** X12. Every settlement that returns ends by editing the reserve
    position to the balance it already has, with a delta of zero: neither
    the profits paid out nor the stake slashed are ever booked, because
    each [reserveAssetDelta.add(..)] of the body drops its result. *)
Theorem transferIdeaRewards_never_books
        (st : State) (ideaIndex capitalReturned : Z) (calls : list Call) :
  _transferIdeaRewards st ideaIndex capitalReturned = Ok calls ->
  0 <= positionBalance st /\
  exists paid,
    calls = paid ++ [CalculateAndEditPosition (reserveAsset st) (positionBalance st) 0] /\
    Forall (fun call => match call with
                        | CalculateAndEditPosition _ _ _ => False
                        | _ => True
                        end) paid.
Proof.
  unfold _transferIdeaRewards.
  destruct (investmentsExecuted st !! Z.to_nat ideaIndex) as [idea|]; [|discriminate].
  cbv zeta.
  assert (Hvoters : forall pays pool total vs paid,
             payVoters st pays ideaIndex pool total vs = Ok paid ->
             Forall (fun call => match call with
                                 | CalculateAndEditPosition _ _ _ => False
                                 | _ => True
                                 end) paid).
  { intros pays pool total vs. induction vs as [|v vs IH]; intros paid; simpl.
    - intros [= <-]. constructor.
    - destruct (pays (votesOf st ideaIndex v)); [|apply IH].
      intros Hrun.
      apply bind_Ok in Hrun as (amount & _ & Hrun).
      apply bind_Ok in Hrun as (rest & Hrest & Hrun).
      injection Hrun as <-. constructor; [exact I | apply IH; assumption]. }
  destruct (capitalReturned >? capitalRequested idea); intros Hrun.
  - apply bind_Ok in Hrun as (ideatorProfits & _ & Hrun).
    apply bind_Ok in Hrun as (booked & _ & Hrun).
    apply bind_Ok in Hrun as (votersProfits & _ & Hrun).
    apply bind_Ok in Hrun as (paid & Hpaid & Hrun).
    apply bind_Ok in Hrun as (unbooked & _ & Hrun).
    apply bind_Ok in Hrun as (tail & Htail & Hrun).
    apply editPosition_Ok in Htail as [-> Hpos].
    injection Hrun as <-.
    split; [assumption|].
    exists (EtherTransfer (participant idea) (stake idea)
            :: ERC20Transfer (reserveAsset st) (participant idea) ideatorProfits :: paid).
    split; [reflexivity|].
    repeat constructor. eapply Hvoters; eassumption.
  - apply bind_Ok in Hrun as (slashed & _ & Hrun).
    apply bind_Ok in Hrun as (booked & _ & Hrun).
    apply bind_Ok in Hrun as (votersRewards & _ & Hrun).
    apply bind_Ok in Hrun as (paid & Hpaid & Hrun).
    apply bind_Ok in Hrun as (unbooked & _ & Hrun).
    apply bind_Ok in Hrun as (tail & Htail & Hrun).
    apply editPosition_Ok in Htail as [-> Hpos].
    injection Hrun as <-.
    split; [assumption|].
    exists (WETHDeposit slashed :: paid).
    split; [reflexivity|].
    constructor; [exact I | eapply Hvoters; eassumption].
Qed.

(** An endorsed idea that returns 3 ether for 2: stake, creator's and
    voter's shares are paid, the position stays at 6 ether. *)
Lemma transferIdeaRewards_never_books_witness :
  0 <= positionBalance endorsedFund /\
  exists paid,
    commit [] (_transferIdeaRewards endorsedFund 0 (3 * 10 ^ 18))
    = paid ++ [CalculateAndEditPosition (reserveAsset endorsedFund)
                                        (positionBalance endorsedFund) 0] /\
    Forall (fun call => match call with
                        | CalculateAndEditPosition _ _ _ => False
                        | _ => True
                        end) paid.
Proof.
  apply (transferIdeaRewards_never_books endorsedFund 0 (3 * 10 ^ 18)).
  vm_compute. reflexivity.
Defined.

(** X25. When the capital returned does not exceed the capital requested,
    a settlement that returns deposits the stake less the shortfall when
    the shortfall is below the stake, and the whole stake otherwise: the
    smaller the loss, the more of the stake is taken. That is the
    [min(stake, shortfall)] of the specification only when the shortfall
    reaches the stake or is exactly half of it. *)
Theorem transferIdeaRewards_loss_deposits_stake_less_shortfall
        (st : State) (ideaIndex capitalReturned : Z) (idea : InvestmentIdea)
        (calls : list Call) :
  investmentsExecuted st !! Z.to_nat ideaIndex = Some idea ->
  capitalReturned + stake idea <= SafeMath.MAX_UINT256 ->
  capitalReturned <= capitalRequested idea ->
  _transferIdeaRewards st ideaIndex capitalReturned = Ok calls ->
  calls = [WETHDeposit (if decide (capitalRequested idea - capitalReturned < stake idea)
                        then stake idea - (capitalRequested idea - capitalReturned)
                        else stake idea);
           CalculateAndEditPosition (reserveAsset st) (positionBalance st) 0] /\
  ((if decide (capitalRequested idea - capitalReturned < stake idea)
    then stake idea - (capitalRequested idea - capitalReturned)
    else stake idea) = stakeToSlash_spec idea capitalReturned <->
   stake idea <= capitalRequested idea - capitalReturned \/
   stake idea = 2 * (capitalRequested idea - capitalReturned)).
Proof.
  intros Hidea Hfit Hloss. unfold _transferIdeaRewards.
  rewrite Hidea. cbv zeta.
  destruct (Z.gtb_spec capitalReturned (capitalRequested idea)) as [Hgain | _]; [lia|].
  intros Hrun.
  apply bind_Ok in Hrun as (slashed & Hslashed & Hrun).
  apply bind_Ok in Hrun as (booked & _ & Hrun).
  apply bind_Ok in Hrun as (votersRewards & _ & Hrun).
  apply bind_Ok in Hrun as (paid & Hpaid & Hrun).
  apply bind_Ok in Hrun as (unbooked & _ & Hrun).
  apply bind_Ok in Hrun as (tail & Htail & Hrun).
  apply payVoters_against in Hpaid as [-> _].
  apply editPosition_Ok in Htail as [-> _].
  injection Hrun as <-.
  rewrite (stakeToSlash_loss idea capitalReturned Hfit) in Hslashed.
  injection Hslashed as <-.
  split; [reflexivity|].
  unfold stakeToSlash_spec. case_decide; lia.
Qed.

(** Scenario C: a stake of 1 ether, 2 ether of capital and 1.8 ether
    returned. 0.8 ether are deposited. *)
Lemma transferIdeaRewards_loss_deposits_stake_less_shortfall_witness :
  commit [] (_transferIdeaRewards lossFund 0 (18 * 10 ^ 17))
  = [WETHDeposit (if decide (capitalRequested lossIdea - 18 * 10 ^ 17 < stake lossIdea)
                  then stake lossIdea - (capitalRequested lossIdea - 18 * 10 ^ 17)
                  else stake lossIdea);
     CalculateAndEditPosition (reserveAsset lossFund) (positionBalance lossFund) 0] /\
  stake lossIdea - (capitalRequested lossIdea - 18 * 10 ^ 17) = 8 * 10 ^ 17.
Proof.
  split; [|vm_compute; reflexivity].
  refine (proj1 (transferIdeaRewards_loss_deposits_stake_less_shortfall
                   lossFund 0 (18 * 10 ^ 17) lossIdea _ _ _ _ _)).
  - reflexivity.
  - vm_compute. discriminate.
  - vm_compute. discriminate.
  - vm_compute. reflexivity.
Defined.

End SettlementFacts.

(** ** FundIdeas: the ideas of an epoch *)

Section EpochFacts.
Import IdeasEpoch.

Lemma ideaAt_set_idea (slot slot' : Z) (idea : InvestmentIdea) (st : State) :
  ideaAt (set_idea slot idea st) slot'
  = if decide (slot' = slot) then idea else ideaAt st slot'.
Proof.
  unfold ideaAt, set_idea. cbn [investmentIdeasCurrentEpoch].
  case_decide as Hslot.
  - subst. rewrite lookup_insert_eq. reflexivity.
  - rewrite lookup_insert_ne by congruence. reflexivity.
Qed.

Lemma epoch_require_Ok (cond : bool) (msg : string) (u : unit) :
  require cond msg = Ok u -> cond = true.
Proof. destruct cond; [reflexivity | discriminate]. Qed.

Lemma toUint256_Ok (i v : Z) : SafeMath.toUint256 i = Ok v -> 0 <= i /\ v = i.
Proof.
  unfold SafeMath.toUint256. destruct (Z.leb_spec 0 i); [|discriminate].
  intros [= <-]. split; [assumption | reflexivity].
Qed.

Lemma add_inv (a b c : Z) : SafeMath.add a b = Ok c -> c = a + b.
Proof.
  unfold SafeMath.add. destruct (a + b <=? SafeMath.MAX_UINT256); [|discriminate].
  intros [= <-]. reflexivity.
Qed.

Lemma signed_add_inv (a b c : Z) : SignedSafeMath.add a b = Ok c -> c = a + b.
Proof.
  unfold SignedSafeMath.add.
  destruct ((SignedSafeMath.MIN_INT256 <=? a + b) && (a + b <=? SignedSafeMath.MAX_INT256));
    [|discriminate].
  intros [= <-]. reflexivity.
Qed.

(** *** The choice of the top idea *)

Lemma scored_spec (st : State) (i indexResult : Z) :
  stake (ideaAt st i) * totalVotes (ideaAt st i) <= SafeMath.MAX_UINT256 ->
  stake (ideaAt st i) * totalVotes (ideaAt st i) * totalVoters (ideaAt st i)
    <= SafeMath.MAX_UINT256 ->
  exists r, scored st 0 i indexResult = Ok r /\
            (eligible st i -> r = i) /\ (~ eligible st i -> r = indexResult).
Proof.
  intros Hfit1 Hfit2. unfold scored, eligible. cbv zeta.
  destruct (Z.ltb_spec 0 (totalVotes (ideaAt st i))) as [Hvotes | Hvotes];
    destruct (Z.leb_spec (minVotersQuorum st) (totalVoters (ideaAt st i))) as [Hq | Hq];
    cbn [andb].
  2-4: exists indexResult; split; [reflexivity | split; [lia | reflexivity]].
  unfold SafeMath.toUint256.
  destruct (Z.leb_spec 0 (totalVotes (ideaAt st i))); [|lia]. cbn [bind].
  assert (Hweighted : SafeMath.mul (stake (ideaAt st i)) (totalVotes (ideaAt st i))
                      = Ok (stake (ideaAt st i) * totalVotes (ideaAt st i)))
    by (apply mul_Ok; split; [reflexivity | assumption]).
  assert (Hscored : SafeMath.mul (stake (ideaAt st i) * totalVotes (ideaAt st i))
                                 (totalVoters (ideaAt st i))
                    = Ok (stake (ideaAt st i) * totalVotes (ideaAt st i)
                          * totalVoters (ideaAt st i)))
    by (apply mul_Ok; split; [reflexivity | assumption]).
  rewrite Hweighted. cbn [bind]. rewrite Hscored. cbn [bind].
  destruct (Z.ltb_spec 0 (stake (ideaAt st i) * totalVotes (ideaAt st i)
                          * totalVoters (ideaAt st i))) as [Hscore | Hscore].
  - exists i. split; [reflexivity | split; [reflexivity | intros Hno; exfalso; apply Hno; lia]].
  - exists indexResult. split; [reflexivity | split; [lia | reflexivity]].
Qed.

Lemma scan_spec (st : State) (passes : nat) (i indexResult : Z) :
  (forall j, i <= j < i + Z.of_nat passes ->
             stake (ideaAt st j) * totalVotes (ideaAt st j) <= SafeMath.MAX_UINT256 /\
             stake (ideaAt st j) * totalVotes (ideaAt st j) * totalVoters (ideaAt st j)
               <= SafeMath.MAX_UINT256) ->
  exists r, scan st 0 passes i indexResult = Ok r /\
            (forall k, i <= k < i + Z.of_nat passes -> eligible st k ->
                       (forall j, k < j < i + Z.of_nat passes -> ~ eligible st j) -> r = k) /\
            ((forall j, i <= j < i + Z.of_nat passes -> ~ eligible st j) -> r = indexResult).
Proof.
  revert i indexResult. induction passes as [|passes IH]; intros i indexResult Hfit.
  - exists indexResult. split; [reflexivity|]. split; [lia | reflexivity].
  - destruct (Hfit i ltac:(lia)) as [Hfit1 Hfit2].
    destruct (scored_spec st i indexResult Hfit1 Hfit2) as (r1 & Hr1 & Hyes & Hno).
    destruct (IH (i + 1) r1) as (r & Hr & Hlast & Hnone).
    { intros j Hj. apply Hfit. lia. }
    exists r. cbn [scan]. rewrite Hr1. cbn [bind]. split; [exact Hr|]. split.
    + intros k Hk Hel Hlater.
      destruct (decide (k = i)) as [-> | Hne].
      * rewrite Hnone by (intros j Hj; apply Hlater; lia). apply Hyes, Hel.
      * apply Hlast; [lia | assumption | intros j Hj; apply Hlater; lia].
    + intros Hall. rewrite Hnone by (intros j Hj; apply Hall; lia).
      apply Hno, Hall. lia.
Qed.

(** X13. When the scores fit a uint256, [getCurrentTopInvestmentIdea]
    returns the last slot whose idea has votes, a quorum of voters and a
    positive score, whatever the scores of the slots before it: the score
    to beat stays zero. With no such slot it returns
    [maxIdeasPerEpoch + 1], cut to a uint8. *)
Theorem getCurrentTopInvestmentIdea_picks_the_last_eligible (st : State) :
  (forall j, 0 <= j < MAX_IDEAS ->
             stake (ideaAt st j) * totalVotes (ideaAt st j) <= SafeMath.MAX_UINT256 /\
             stake (ideaAt st j) * totalVotes (ideaAt st j) * totalVoters (ideaAt st j)
               <= SafeMath.MAX_UINT256) ->
  exists r,
    getCurrentTopInvestmentIdea st = Ok r /\
    (forall k, 0 <= k < MAX_IDEAS -> eligible st k ->
               (forall j, k < j < MAX_IDEAS -> ~ eligible st j) -> r = k) /\
    ((forall j, 0 <= j < MAX_IDEAS -> ~ eligible st j) ->
     r = (maxIdeasPerEpoch st + 1) mod 256).
Proof.
  intros Hfit. unfold getCurrentTopInvestmentIdea. cbv zeta.
  apply (scan_spec st (Z.to_nat MAX_IDEAS) 0 ((maxIdeasPerEpoch st + 1) mod 256)).
  exact Hfit.
Qed.

(** *** Curating *)

Lemma votesCounted_Ok (passes : nat) (vote acc total : Z) :
  votesCounted passes vote acc = Ok total ->
  total = acc + Z.of_nat passes * vote /\ (passes <> O -> 0 <= vote).
Proof.
  revert acc. induction passes as [|passes IH]; intros acc; cbn [votesCounted].
  - intros [= <-]. split; [lia | congruence].
  - intros Hrun.
    apply bind_Ok in Hrun as (v & Hv & Hrun).
    apply bind_Ok in Hrun as (t & Ht & Hrun).
    apply toUint256_Ok in Hv as [Hpos ->].
    apply add_inv in Ht as ->.
    apply IH in Hrun as [-> _]. split; [lia | intros _; assumption].
Qed.

Lemma curateInvestmentIdea_Ok
      (fund : Fund) (msg : Msg) (st st' : State) (_ideaIndex _amount : Z) :
  curateInvestmentIdea fund msg st _ideaIndex _amount = Ok st' ->
  0 <= _amount /\
  0 <= votesOf st (index (ideaAt st _ideaIndex)) (sender msg) /\
  10 * votesOf st (index (ideaAt st _ideaIndex)) (sender msg) + _amount
    < balanceOf fund (sender msg) /\
  st' = set_vote (index (ideaAt st _ideaIndex)) (sender msg)
                 (votesOf st (index (ideaAt st _ideaIndex)) (sender msg) + _amount)
                 (set_idea _ideaIndex
                           (noted (votesOf st (index (ideaAt st _ideaIndex)) (sender msg) =? 0)
                                  (sender msg) (ideaAt st _ideaIndex))
                           st).
Proof.
  unfold curateInvestmentIdea. intros Hrun.
  apply bind_Ok in Hrun as ([] & _ & Hrun).
  apply bind_Ok in Hrun as ([] & _ & Hrun).
  apply bind_Ok in Hrun as ([] & _ & Hrun).
  apply bind_Ok in Hrun as (amount & Hamount & Hrun).
  apply bind_Ok in Hrun as ([] & _ & Hrun).
  cbv zeta in Hrun.
  apply bind_Ok in Hrun as (totalVotesUser & Hcount & Hrun).
  apply bind_Ok in Hrun as (amount' & Hamount' & Hrun).
  apply bind_Ok in Hrun as (total & Htotal & Hrun).
  apply bind_Ok in Hrun as ([] & Hbudget & Hrun).
  apply bind_Ok in Hrun as (vote & Hvote & Hrun).
  apply bind_Ok in Hrun as (dropped & _ & Hrun).
  injection Hrun as <-.
  apply toUint256_Ok in Hamount as [Hpos ->].
  apply toUint256_Ok in Hamount' as [_ ->].
  apply votesCounted_Ok in Hcount as [-> Hvotes].
  apply add_inv in Htotal as ->.
  apply epoch_require_Ok in Hbudget. apply Z.ltb_lt in Hbudget.
  apply signed_add_inv in Hvote as ->.
  change (Z.of_nat (Z.to_nat MAX_IDEAS)) with 10 in Hbudget.
  split; [assumption|].
  split; [apply Hvotes; discriminate|].
  split; [lia | reflexivity].
Qed.

Lemma curated_totalVotes (st : State) (slot _ideaIndex ideaIndex : Z) (voter : address)
      (weight : Z) (first : bool) :
  totalVotes (ideaAt (set_vote ideaIndex voter weight
                               (set_idea _ideaIndex (noted first voter (ideaAt st _ideaIndex)) st))
                     slot)
  = totalVotes (ideaAt st slot).
Proof.
  change (ideaAt (set_vote ?i ?v ?w ?s) slot) with (ideaAt s slot).
  rewrite ideaAt_set_idea. case_decide as Hslot; [subst|]; reflexivity.
Qed.

(** X14. [curateInvestmentIdea] reverts on every negative amount: the
    amount is cast to a uint256 before anything is recorded, so an idea
    cannot be voted down. *)
Theorem curateInvestmentIdea_rejects_negative_amounts
        (fund : Fund) (msg : Msg) (st : State) (_ideaIndex _amount : Z) :
  _amount < 0 ->
  exists r, curateInvestmentIdea fund msg st _ideaIndex _amount = Revert r.
Proof.
  intros Hneg.
  destruct (curateInvestmentIdea fund msg st _ideaIndex _amount) as [st'|r] eqn:Hrun.
  - apply curateInvestmentIdea_Ok in Hrun as (Hpos & _). lia.
  - exists r. reflexivity.
Qed.

(** X15. A [curateInvestmentIdea] that returns has added the amount, which
    is not negative, to the caller's votes on the idea, after checking
    that ten times the caller's votes on this idea plus the amount stay
    below the caller's balance of fund tokens. It leaves the total votes
    of every idea as they were: the sum [idea.totalVotes.add(_amount)] is
    computed and dropped. *)
Theorem curateInvestmentIdea_keeps_totalVotes
        (fund : Fund) (msg : Msg) (st st' : State) (_ideaIndex _amount : Z) :
  curateInvestmentIdea fund msg st _ideaIndex _amount = Ok st' ->
  0 <= _amount /\
  0 <= votesOf st (index (ideaAt st _ideaIndex)) (sender msg) /\
  10 * votesOf st (index (ideaAt st _ideaIndex)) (sender msg) + _amount
    < balanceOf fund (sender msg) /\
  votesOf st' (index (ideaAt st _ideaIndex)) (sender msg)
    = votesOf st (index (ideaAt st _ideaIndex)) (sender msg) + _amount /\
  (forall slot, totalVotes (ideaAt st' slot) = totalVotes (ideaAt st slot)) /\
  investmentsExecuted st' = investmentsExecuted st.
Proof.
  intros Hrun.
  apply curateInvestmentIdea_Ok in Hrun as (Hpos & Hold & Hbudget & ->).
  split; [assumption|]. split; [assumption|]. split; [assumption|].
  split.
  { unfold votesOf at 1. cbn [votes set_vote]. rewrite lookup_insert_eq. reflexivity. }
  split; [|reflexivity].
  intros slot. apply curated_totalVotes.
Qed.

(** *** Executing *)

Lemma executeTopInvestment_Ok (fund : Fund) (msg : Msg) (st st' : State) :
  executeTopInvestment fund msg st = Ok st' -> False.
Proof.
  unfold executeTopInvestment. intros Hrun.
  apply bind_Ok in Hrun as ([] & _ & Hrun).
  apply bind_Ok in Hrun as ([] & _ & Hrun).
  apply bind_Ok in Hrun as (epochEnd & _ & Hrun).
  apply bind_Ok in Hrun as (earliest & _ & Hrun).
  apply bind_Ok in Hrun as ([] & _ & Hrun).
  apply bind_Ok in Hrun as ([] & _ & Hrun).
  apply bind_Ok in Hrun as (topIdeaIndex & _ & Hrun).
  apply bind_Ok in Hrun as ([] & _ & Hrun).
  cbv zeta in Hrun.
  apply bind_Ok in Hrun as (st1 & _ & Hrun).
  apply bind_Ok in Hrun as (executed & Hassign & _).
  unfold assign in Hassign.
  rewrite bool_decide_eq_false_2 in Hassign by lia. discriminate.
Qed.

(** X16. [executeTopInvestment] never returns. Whoever calls it, whenever,
    whatever the ideas and whatever the integration does, it reverts: the
    executed idea is assigned to [investmentsExecuted] at the index
    [investmentsExecuted.length], one past its last element. *)
Theorem executeTopInvestment_always_reverts (fund : Fund) (msg : Msg) (st : State) :
  exists r, executeTopInvestment fund msg st = Revert r.
Proof.
  destruct (executeTopInvestment fund msg st) as [st'|r] eqn:Hrun.
  - exfalso. exact (executeTopInvestment_Ok fund msg st st' Hrun).
  - exists r. reflexivity.
Qed.

(** *** Submitting *)

Lemma addInvestmentIdea_Ok
      (fund : Fund) (msg : Msg) (st st' : State)
      (_capitalRequested _stake _investmentDuration : Z) (_enterData _exitData : string)
      (_integration : address) (_expectedReturn : Z)
      (_enterTokensNeeded : list address) (_enterTokensAmounts : list Z) :
  addInvestmentIdea fund msg st _capitalRequested _stake _investmentDuration
                    _enterData _exitData _integration _expectedReturn
                    _enterTokensNeeded _enterTokensAmounts = Ok st' ->
  maxIdeasPerEpoch st <= MAX_IDEAS /\
  currentMinStakeEpoch st < _stake /\
  st' = next_index
          (set_idea (currentMinStakeIndex st)
                    (submitted (ideaAt st (currentMinStakeIndex st)) st msg
                               _capitalRequested _stake _investmentDuration
                               _enterData _exitData _integration _expectedReturn
                               _enterTokensNeeded _enterTokensAmounts)
                    st).
Proof.
  unfold addInvestmentIdea. intros Hrun.
  apply bind_Ok in Hrun as ([] & _ & Hrun).
  apply bind_Ok in Hrun as ([] & _ & Hrun).
  apply bind_Ok in Hrun as (deadline & _ & Hrun).
  apply bind_Ok in Hrun as ([] & _ & Hrun).
  apply bind_Ok in Hrun as ([] & _ & Hrun).
  apply bind_Ok in Hrun as ([] & _ & Hrun).
  apply bind_Ok in Hrun as ([] & _ & Hrun).
  apply bind_Ok in Hrun as (liquidReserveAsset & _ & Hrun).
  apply bind_Ok in Hrun as ([] & _ & Hrun).
  apply bind_Ok in Hrun as ([] & Hstake & Hrun).
  apply epoch_require_Ok in Hstake.
  cbv zeta in Hrun.
  destruct (Z.leb_spec (maxIdeasPerEpoch st) MAX_IDEAS) as [Hmax | Hmax].
  2: { rewrite Z.ltb_irrefl in Hrun. discriminate. }
  destruct (Z.ltb_spec (currentMinStakeIndex st) MAX_IDEAS) as [Hslot | Hslot];
    [|discriminate].
  injection Hrun as <-.
  destruct (Z.ltb_spec MAX_IDEAS (maxIdeasPerEpoch st)) as [Hover | _]; [lia|].
  cbn [orb] in Hstake. apply Z.ltb_lt in Hstake.
  split; [assumption|]. split; [assumption | reflexivity].
Qed.

(** X17. An [addInvestmentIdea] that returns has written the slot
    [currentMinStakeIndex], whose idea it replaces whatever that idea's
    stake, since the new stake is compared with [currentMinStakeEpoch] and
    neither of the two is ever updated. The new idea takes the next
    investment index and keeps the voters, the total votes and the number
    of voters of the idea it replaces; every other slot is untouched. *)
Theorem addInvestmentIdea_replaces_one_slot
        (fund : Fund) (msg : Msg) (st st' : State)
        (_capitalRequested _stake _investmentDuration : Z) (_enterData _exitData : string)
        (_integration : address) (_expectedReturn : Z)
        (_enterTokensNeeded : list address) (_enterTokensAmounts : list Z) :
  addInvestmentIdea fund msg st _capitalRequested _stake _investmentDuration
                    _enterData _exitData _integration _expectedReturn
                    _enterTokensNeeded _enterTokensAmounts = Ok st' ->
  currentMinStakeEpoch st < _stake /\
  currentMinStakeIndex st' = currentMinStakeIndex st /\
  currentMinStakeEpoch st' = currentMinStakeEpoch st /\
  index (ideaAt st' (currentMinStakeIndex st)) = currentInvestmentsIndex st /\
  stake (ideaAt st' (currentMinStakeIndex st)) = _stake /\
  voters (ideaAt st' (currentMinStakeIndex st)) = voters (ideaAt st (currentMinStakeIndex st)) /\
  totalVotes (ideaAt st' (currentMinStakeIndex st))
    = totalVotes (ideaAt st (currentMinStakeIndex st)) /\
  totalVoters (ideaAt st' (currentMinStakeIndex st))
    = totalVoters (ideaAt st (currentMinStakeIndex st)) /\
  (forall slot, slot <> currentMinStakeIndex st -> ideaAt st' slot = ideaAt st slot) /\
  votes st' = votes st.
Proof.
  intros Hrun. apply addInvestmentIdea_Ok in Hrun as (_ & Hstake & ->).
  change (ideaAt (next_index ?s)) with (ideaAt s).
  split; [assumption|].
  split; [reflexivity|]. split; [reflexivity|].
  rewrite !ideaAt_set_idea. case_decide; [|congruence].
  split; [reflexivity|]. split; [reflexivity|]. split; [reflexivity|].
  split; [reflexivity|]. split; [reflexivity|].
  split; [|reflexivity].
  intros slot Hne. rewrite ideaAt_set_idea. case_decide; [congruence | reflexivity].
Qed.

(** *** Histories *)

Lemma scan_no_votes (st : State) (passes : nat) (i indexResult : Z) :
  (forall slot, totalVotes (ideaAt st slot) = 0) ->
  scan st 0 passes i indexResult = Ok indexResult.
Proof.
  intros Hzero. revert i. induction passes as [|passes IH]; intros i; cbn [scan].
  - reflexivity.
  - unfold scored. cbv zeta. rewrite Hzero. cbn [Z.ltb Z.compare andb bind]. apply IH.
Qed.

Lemma step_keeps_no_votes (fund : Fund) (msg : Msg) (st : State) (call : Call) :
  investmentsExecuted st = [] ->
  (forall slot, totalVotes (ideaAt st slot) = 0) ->
  (forall i v, 0 <= votesOf st i v) ->
  investmentsExecuted (commit st (step fund msg st call)) = [] /\
  (forall slot, totalVotes (ideaAt (commit st (step fund msg st call)) slot) = 0) /\
  (forall i v, 0 <= votesOf (commit st (step fund msg st call)) i v) /\
  maxIdeasPerEpoch (commit st (step fund msg st call)) = maxIdeasPerEpoch st.
Proof.
  intros Hnone Hzero Hvotes.
  destruct (step fund msg st call) as [st'|r] eqn:Hstep; cbn [commit]; [|auto].
  destruct call as [c s d enter exit i r tokens amounts | slot amount |]; cbn [step] in Hstep.
  - apply addInvestmentIdea_Ok in Hstep as (_ & _ & ->).
    split; [exact Hnone|]. split; [|split; [exact Hvotes | reflexivity]].
    intros slot. change (ideaAt (next_index ?s)) with (ideaAt s).
    rewrite ideaAt_set_idea. case_decide; [|apply Hzero].
    cbn [totalVotes submitted]. apply Hzero.
  - apply curateInvestmentIdea_Ok in Hstep as (Hpos & Hold & _ & ->).
    split; [exact Hnone|]. split; [|split; [|reflexivity]].
    + intros slot'. rewrite curated_totalVotes. apply Hzero.
    + intros i v. unfold votesOf in *. cbn [votes set_vote set_idea].
      destruct (decide ((index (ideaAt st slot), sender msg) = (i, v))) as [<- | Hne].
      * rewrite lookup_insert_eq. cbn [default]. unfold id.
        apply Z.add_nonneg_nonneg; [exact Hold | exact Hpos].
      * rewrite lookup_insert_ne by assumption. apply Hvotes.
  - exfalso. exact (executeTopInvestment_Ok fund msg st st' Hstep).
Qed.

(** X18. From a storage with no executed idea, no total votes and no
    negative vote, as the contract is deployed, no history of
    [addInvestmentIdea], [curateInvestmentIdea] and [executeTopInvestment]
    calls, by anyone, leads anywhere else: no idea is ever executed, the
    total votes of every slot stay zero, no vote is negative, and
    [getCurrentTopInvestmentIdea] keeps answering [maxIdeasPerEpoch + 1],
    its value for no idea. *)
Theorem no_idea_ever_becomes_eligible (st : State) (txs : list (Fund * Msg * Call)) :
  investmentsExecuted st = [] ->
  (forall slot, totalVotes (ideaAt st slot) = 0) ->
  (forall i v, 0 <= votesOf st i v) ->
  investmentsExecuted (history st txs) = [] /\
  (forall slot, totalVotes (ideaAt (history st txs) slot) = 0) /\
  (forall i v, 0 <= votesOf (history st txs) i v) /\
  getCurrentTopInvestmentIdea (history st txs) = Ok ((maxIdeasPerEpoch st + 1) mod 256).
Proof.
  revert st. induction txs as [|[[fund msg] call] txs IH]; intros st Hnone Hzero Hvotes.
  - cbn [history foldl]. repeat split; try assumption.
    unfold getCurrentTopInvestmentIdea. cbv zeta. apply scan_no_votes, Hzero.
  - unfold history. cbn [foldl fst snd].
    destruct (step_keeps_no_votes fund msg st call Hnone Hzero Hvotes)
      as (Hnone' & Hzero' & Hvotes' & Hmax).
    rewrite <- Hmax. apply IH; assumption.
Qed.

End EpochFacts.

(** Slot 0 scores 500 and slot 1 scores 1: slot 1 is returned. *)
Lemma getCurrentTopInvestmentIdea_picks_the_last_eligible_witness :
  exists r, IdeasEpoch.getCurrentTopInvestmentIdea rivals = Ok r /\ r = 1.
Proof.
  destruct (getCurrentTopInvestmentIdea_picks_the_last_eligible rivals)
    as (r & Hr & Hlast & _).
  - intros j Hj.
    assert (Hslot : j = 0 \/ j = 1 \/ j = 2 \/ j = 3 \/ j = 4 \/ j = 5 \/ j = 6 \/ j = 7
                    \/ j = 8 \/ j = 9) by (unfold IdeasEpoch.MAX_IDEAS in Hj; lia).
    repeat (destruct Hslot as [-> | Hslot]); try subst j; vm_compute; split; discriminate.
  - exists r. split; [exact Hr|]. apply Hlast.
    + unfold IdeasEpoch.MAX_IDEAS. lia.
    + split; [vm_compute; reflexivity | split; [vm_compute; discriminate | vm_compute; reflexivity]].
    + intros j Hj [Hvotes _].
      assert (Hslot : j = 2 \/ j = 3 \/ j = 4 \/ j = 5 \/ j = 6 \/ j = 7 \/ j = 8 \/ j = 9)
        by (unfold IdeasEpoch.MAX_IDEAS in Hj; lia).
      repeat (destruct Hslot as [-> | Hslot]); try subst j; vm_compute in Hvotes; discriminate.
Defined.

(** Contributor 12 cannot vote the first idea down. *)
Lemma curateInvestmentIdea_rejects_negative_amounts_witness :
  exists r, IdeasEpoch.curateInvestmentIdea fund0 (sentBy 12%N 20) firstIdea 0 (-1) = Revert r.
Proof.
  apply (curateInvestmentIdea_rejects_negative_amounts fund0 (sentBy 12%N 20) firstIdea 0 (-1)).
  reflexivity.
Defined.

(** Contributor 12 endorses the first idea with 5 votes. *)
Lemma curateInvestmentIdea_keeps_totalVotes_witness :
  IdeasEpoch.votesOf curated (IdeasEpoch.index (IdeasEpoch.ideaAt firstIdea 0))
                     (IdeasEpoch.sender (sentBy 12%N 20))
  = IdeasEpoch.votesOf firstIdea (IdeasEpoch.index (IdeasEpoch.ideaAt firstIdea 0))
                       (IdeasEpoch.sender (sentBy 12%N 20)) + 5 /\
  forall slot, IdeasEpoch.totalVotes (IdeasEpoch.ideaAt curated slot)
               = IdeasEpoch.totalVotes (IdeasEpoch.ideaAt firstIdea slot).
Proof.
  destruct (curateInvestmentIdea_keeps_totalVotes fund0 (sentBy 12%N 20) firstIdea curated 0 5)
    as (_ & _ & _ & Hvote & Htotal & _).
  - vm_compute. reflexivity.
  - split; [exact Hvote | exact Htotal].
Defined.

(** The idea of contributor 12 replaces the curated idea of contributor
    11 and keeps its voters. *)
Lemma addInvestmentIdea_replaces_one_slot_witness :
  IdeasEpoch.index (IdeasEpoch.ideaAt replaced (IdeasEpoch.currentMinStakeIndex curated))
  = IdeasEpoch.currentInvestmentsIndex curated /\
  IdeasEpoch.voters (IdeasEpoch.ideaAt replaced (IdeasEpoch.currentMinStakeIndex curated))
  = IdeasEpoch.voters (IdeasEpoch.ideaAt curated (IdeasEpoch.currentMinStakeIndex curated)).
Proof.
  destruct (addInvestmentIdea_replaces_one_slot
              fund0 (sentBy 12%N 30) curated replaced 1 2 7200 EmptyString EmptyString
              30%N 0 [] [])
    as (_ & _ & _ & Hindex & _ & Hvoters & _).
  - vm_compute. reflexivity.
  - split; [exact Hindex | exact Hvoters].
Defined.

(** An idea submitted and curated, and a keeper's attempt to execute. *)
Lemma no_idea_ever_becomes_eligible_witness :
  IdeasEpoch.getCurrentTopInvestmentIdea (IdeasEpoch.history deployed someCalls)
  = Ok ((IdeasEpoch.maxIdeasPerEpoch deployed + 1) mod 256).
Proof.
  destruct (no_idea_ever_becomes_eligible deployed someCalls) as (_ & _ & _ & Htop).
  - reflexivity.
  - intros slot. unfold IdeasEpoch.ideaAt, deployed.
    cbn [IdeasEpoch.investmentIdeasCurrentEpoch]. rewrite lookup_empty. reflexivity.
  - intros i v. unfold IdeasEpoch.votesOf, deployed.
    cbn [IdeasEpoch.votes]. rewrite lookup_empty. cbn. lia.
  - exact Htop.
Defined.

(** ** LendOperation: entering *)

Section EnterFacts.
Import LendOperation.
Context {W : Type} `{Chain W}.
Variable SLIPPAGE_ALLOWED : Z.

(** X19. An [executeOperation] that returns reports the lent token, the
    amount supplied and the status 1, and the amount supplied is the
    strategy's whole balance of the lent token, read after the trade if
    there is one, not the capital received: when the asset is the lent
    token the capital argument changes nothing. The integration is asked
    for at least the expected shares less the slippage. *)
Theorem executeOperation_supplies_the_whole_balance
        (w w' : W) (msgSender asset : address) (capital : Z) (data integration : address)
        (token : address) (supplied status : Z) :
  executeOperation SLIPPAGE_ALLOWED w msgSender asset capital data integration
    = Ok (w', (token, supplied, status)) ->
  token = data /\ status = 1 /\
  (exists w1 exactAmount,
      (data = asset -> w1 = w) /\
      (data <> asset -> trade w msgSender asset capital data = Ok w1) /\
      supplied = balanceOf w1 data msgSender /\
      getExpectedShares w1 integration data supplied = Ok exactAmount /\
      exactAmount * SLIPPAGE_ALLOWED / 10 ^ 18 <= exactAmount /\
      supplyTokens w1 integration msgSender data supplied
                   (exactAmount - exactAmount * SLIPPAGE_ALLOWED / 10 ^ 18) = Ok w') /\
  (data = asset ->
   forall capital',
     executeOperation SLIPPAGE_ALLOWED w msgSender asset capital' data integration
     = Ok (w', (token, supplied, status))).
Proof.
  intros Hrun. pose proof Hrun as Hagain. unfold executeOperation in Hrun.
  apply bind_Ok in Hrun as ([] & Hsender & Hrun). cbv zeta in Hrun.
  apply bind_Ok in Hrun as (w1 & Htrade & Hrun).
  apply bind_Ok in Hrun as (exactAmount & Hshares & Hrun).
  apply bind_Ok in Hrun as (slip & Hslip & Hrun).
  apply bind_Ok in Hrun as (minAmountExpected & Hmin & Hrun).
  apply bind_Ok in Hrun as (w2 & Hsupply & Hrun).
  injection Hrun as <- <- <- <-.
  apply preciseMul_Ok in Hslip as [-> _].
  apply sub_Ok in Hmin as [-> Hle].
  split; [reflexivity|]. split; [reflexivity|]. split.
  - exists w1, exactAmount.
    destruct (decide (data = asset)) as [Hsame | Hother].
    + injection Htrade as <-.
      split; [reflexivity|]. split; [contradiction|].
      split; [reflexivity|]. split; [assumption|]. split; assumption.
    + split; [contradiction|]. split; [intros _; assumption|].
      split; [reflexivity|]. split; [assumption|]. split; assumption.
  - intros Hsame capital'. rewrite <- Hagain. unfold executeOperation.
    destruct (onlyStrategy w msgSender) as [[]|]; [|reflexivity]. cbn [bind]. cbv zeta.
    destruct (decide (data = asset)); [reflexivity | contradiction].
Qed.

End EnterFacts.

(** A strategy holding 300 DAI is given 100 of capital in DAI to lend:
    all 300 are supplied. *)
Lemma executeOperation_supplies_the_whole_balance_witness :
  LendOperation.executeOperation (10 ^ 16) daiMarket 50%N 2%N 0 2%N 60%N
  = Ok (suppliedMarket, (2%N, 300, 1)) /\
  forall capital',
    LendOperation.executeOperation (10 ^ 16) daiMarket 50%N 2%N capital' 2%N 60%N
    = Ok (suppliedMarket, (2%N, 300, 1)).
Proof.
  destruct (executeOperation_supplies_the_whole_balance
              (10 ^ 16) daiMarket suppliedMarket 50%N 2%N 100 2%N 60%N 2%N 300 1)
    as (_ & _ & _ & Hany).
  - vm_compute. reflexivity.
  - split; [apply Hany; reflexivity | apply Hany; reflexivity].
Defined.

(** ** Garden: claims, burnt stakes and switches *)

Section ClaimFacts.
Import GardenBook.

Lemma andThen_Done {A B} (m : attempt A) (k : A -> attempt B) (b : B) :
  andThen m k = Done b <-> exists a, m = Done a /\ k a = Done b.
Proof.
  destruct m as [a|f]; cbn [andThen]; split.
  - intros Hk. exists a. split; [reflexivity | assumption].
  - intros (a' & [= ->] & Hk). assumption.
  - discriminate.
  - intros (a' & [=] & _).
Qed.

Lemma lift_Done {A} (m : result A) (a : A) : lift m = Done a <-> m = Ok a.
Proof.
  destruct m as [a'|r]; cbn [lift]; split; intros [= ->]; reflexivity.
Qed.

Lemma ensure_Done (cond : bool) (c : Code) (u : unit) :
  ensure cond c = Done u -> cond = true.
Proof. destruct cond; [reflexivity | discriminate]. Qed.

Lemma etherOf_insert (s : State) (e : gmap address Z) (log : list (address * Z))
      (account holder : address) (v : Z) :
  etherOf (set_outside {| ether := <[holder := v]> e; bablSent := log |} s) account
  = if decide (account = holder) then v else default 0 (e !! account).
Proof.
  unfold etherOf. cbn [outside set_outside ether].
  case_decide as Hsame.
  - subst. rewrite lookup_insert_eq. reflexivity.
  - rewrite lookup_insert_ne by congruence. reflexivity.
Qed.

(** What [_safeSendReserveAsset] moves: reserve tokens, or ether after
    unwrapping what the Garden's ether does not cover. *)
Lemma safeSendReserveAsset_Ok (peers : Peers) (s s1 : State) (_to : address) (amount : Z) :
  _safeSendReserveAsset peers s _to amount = Ok s1 ->
  _to <> Garden.this (base s) ->
  settings s1 = settings s /\ members s1 = members s /\ token s1 = token s /\
  registry s1 = registry s /\
  Garden.this (base s1) = Garden.this (base s) /\
  Garden.reserveAssetRewardsSetAside (base s1) = Garden.reserveAssetRewardsSetAside (base s) /\
  Garden.reserveAssetPrincipalWindow (base s1) = Garden.reserveAssetPrincipalWindow (base s) /\
  (reserveAsset (settings s) <> WETH ->
   ERC20.balanceOf (Garden.ledger (base s1)) (Garden.this (base s))
   = ERC20.balanceOf (Garden.ledger (base s)) (Garden.this (base s)) - amount /\
   ERC20.balanceOf (Garden.ledger (base s1)) _to
   = ERC20.balanceOf (Garden.ledger (base s)) _to + amount) /\
  (reserveAsset (settings s) = WETH ->
   ERC20.balanceOf (Garden.ledger (base s1)) (Garden.this (base s))
   = ERC20.balanceOf (Garden.ledger (base s)) (Garden.this (base s))
     - Z.max 0 (amount - etherOf s (Garden.this (base s))) /\
   etherOf s1 _to = etherOf s _to + amount).
Proof.
  intros Hsend Hto. unfold _safeSendReserveAsset in Hsend.
  destruct (decide (reserveAsset (settings s) = WETH)) as [Hweth | Hother].
  - apply bind_Ok in Hsend as (s0 & Hunwrap & Hsend).
    assert (Hs0 : settings s0 = settings s /\ members s0 = members s /\ token s0 = token s /\
                  registry s0 = registry s /\
                  Garden.this (base s0) = Garden.this (base s) /\
                  Garden.reserveAssetRewardsSetAside (base s0)
                  = Garden.reserveAssetRewardsSetAside (base s) /\
                  Garden.reserveAssetPrincipalWindow (base s0)
                  = Garden.reserveAssetPrincipalWindow (base s) /\
                  ERC20.balanceOf (Garden.ledger (base s0)) (Garden.this (base s))
                  = ERC20.balanceOf (Garden.ledger (base s)) (Garden.this (base s))
                    - Z.max 0 (amount - etherOf s (Garden.this (base s))) /\
                  etherOf s0 _to = etherOf s _to /\
                  amount <= etherOf s0 (Garden.this (base s))).
    { destruct (Z.ltb_spec (etherOf s (Garden.this (base s))) amount) as [Hshort | Hcovered].
      - apply bind_Ok in Hunwrap as (shortfall & Hshortfall & Hunwrap).
        apply sub_Ok in Hshortfall as [-> _].
        unfold withdrawWETH in Hunwrap. cbv zeta in Hunwrap.
        destruct (_ <=? _) in Hunwrap; [|discriminate].
        injection Hunwrap as <-.
        rewrite !etherOf_insert.
        destruct (decide (_to = Garden.this (base s))) as [|_]; [contradiction|].
        destruct (decide (Garden.this (base s) = Garden.this (base s))) as [_|]; [|contradiction].
        cbn. unfold ERC20.balanceOf. rewrite lookup_insert_eq. cbn.
        repeat split; try reflexivity; try lia.
      - injection Hunwrap as <-.
        repeat split; try reflexivity; try lia. }
    destruct Hs0 as (Hst & Hmb & Htk & Hrg & Hthis & Hset & Hwin & Hbal & Hether & Hcov).
    unfold sendValue in Hsend. cbv zeta in Hsend. rewrite Hthis in Hsend.
    destruct (Z.ltb_spec (etherOf s0 (Garden.this (base s))) amount); [lia|].
    destruct (takesEther peers _to); [|discriminate].
    injection Hsend as <-.
    rewrite etherOf_insert.
    destruct (decide (_to = _to)) as [_|]; [|contradiction].
    rewrite lookup_insert_ne by congruence.
    cbn [settings members token registry base set_outside].
    repeat split; try assumption; try congruence.
    fold (etherOf s0 _to). lia.
  - apply bind_Ok in Hsend as (g & Hmove & Hsend). injection Hsend as <-.
    unfold Garden.safeTransfer in Hmove.
    apply bind_Ok in Hmove as (l & Hmove & Hg). injection Hg as <-.
    apply transfer_balances in Hmove as (Hfrom & Hinto & _); [|congruence].
    cbn. repeat split; try assumption; try contradiction.
Qed.

Lemma claimReturns_Done (ctl : Garden.Controller) (peers : Peers) (msg : Garden.Msg)
      (s s' : State) (_finalizedStrategies : list address) :
  claimReturns ctl peers msg s _finalizedStrategies = Done s' ->
  Garden.sender msg <> Garden.this (base s) ->
  0 <= etherOf s (Garden.this (base s)) ->
  claimedAt (contributorOf s (Garden.sender msg)) < Garden.timestamp msg /\
  claimedAt (contributorOf s' (Garden.sender msg)) = Garden.timestamp msg /\
  token s' = token s /\
  Garden.reserveAssetPrincipalWindow (base s') = Garden.reserveAssetPrincipalWindow (base s) /\
  exists rewards profits,
    getRewards peers (Garden.this (base s)) (Garden.sender msg) _finalizedStrategies
    = Ok rewards /\
    rewards !! 6%nat = Some profits /\
    Garden.reserveAssetRewardsSetAside (base s')
    = Garden.reserveAssetRewardsSetAside (base s) - Z.max 0 profits /\
    claimedRewards (contributorOf s' (Garden.sender msg))
    = claimedRewards (contributorOf s (Garden.sender msg)) + Z.max 0 profits /\
    (reserveAsset (settings s) <> WETH ->
     ERC20.balanceOf (Garden.ledger (base s')) (Garden.this (base s))
     = ERC20.balanceOf (Garden.ledger (base s)) (Garden.this (base s)) - Z.max 0 profits /\
     ERC20.balanceOf (Garden.ledger (base s')) (Garden.sender msg)
     = ERC20.balanceOf (Garden.ledger (base s)) (Garden.sender msg) + Z.max 0 profits) /\
    (reserveAsset (settings s) = WETH ->
     ERC20.balanceOf (Garden.ledger (base s')) (Garden.this (base s))
     = ERC20.balanceOf (Garden.ledger (base s)) (Garden.this (base s))
       - Z.max 0 (Z.max 0 profits - etherOf s (Garden.this (base s))) /\
     etherOf s' (Garden.sender msg) = etherOf s (Garden.sender msg) + Z.max 0 profits).
Proof.
  intros Hrun Hsender Hether. unfold claimReturns in Hrun. cbv zeta in Hrun.
  apply andThen_Done in Hrun as ([] & _ & Hrun).
  apply andThen_Done in Hrun as ([] & Hfresh & Hrun).
  apply ensure_Done in Hfresh. apply Z.ltb_lt in Hfresh.
  apply andThen_Done in Hrun as (rewards & Hrewards & Hrun).
  apply lift_Done in Hrewards.
  apply andThen_Done in Hrun as (babl & _ & Hrun).
  apply andThen_Done in Hrun as (any & Hany & Hrun).
  apply andThen_Done in Hrun as ([] & Hsome & Hrun).
  apply ensure_Done in Hsome. subst any.
  apply andThen_Done in Hrun as (profits & Hprofits & Hrun).
  apply andThen_Done in Hrun as (s1 & Hfirst & Hrun).
  split; [assumption|].
  assert (Hs1 :
            (0 < profits -> claimedAt (contributorOf s1 (Garden.sender msg))
                            = Garden.timestamp msg) /\
            claimedRewards (contributorOf s1 (Garden.sender msg))
            = claimedRewards (contributorOf s (Garden.sender msg)) + Z.max 0 profits /\
            token s1 = token s /\
            Garden.reserveAssetPrincipalWindow (base s1)
            = Garden.reserveAssetPrincipalWindow (base s) /\
            Garden.reserveAssetRewardsSetAside (base s1)
            = Garden.reserveAssetRewardsSetAside (base s) - Z.max 0 profits /\
            (reserveAsset (settings s) <> WETH ->
             ERC20.balanceOf (Garden.ledger (base s1)) (Garden.this (base s))
             = ERC20.balanceOf (Garden.ledger (base s)) (Garden.this (base s))
               - Z.max 0 profits /\
             ERC20.balanceOf (Garden.ledger (base s1)) (Garden.sender msg)
             = ERC20.balanceOf (Garden.ledger (base s)) (Garden.sender msg)
               + Z.max 0 profits) /\
            (reserveAsset (settings s) = WETH ->
             ERC20.balanceOf (Garden.ledger (base s1)) (Garden.this (base s))
             = ERC20.balanceOf (Garden.ledger (base s)) (Garden.this (base s))
               - Z.max 0 (Z.max 0 profits - etherOf s (Garden.this (base s))) /\
             etherOf s1 (Garden.sender msg)
             = etherOf s (Garden.sender msg) + Z.max 0 profits)).
  { destruct (Z.ltb_spec 0 profits) as [Hpos | Hnone].
    - apply andThen_Done in Hfirst as (total & Htotal & Hfirst).
      apply lift_Done in Htotal. apply add_Ok in Htotal as [-> _].
      apply andThen_Done in Hfirst as (setAside & HsetAside & Hfirst).
      apply lift_Done in HsetAside. apply sub_Ok in HsetAside as [-> _].
      apply lift_Done in Hfirst.
      apply safeSendReserveAsset_Ok in Hfirst
        as (Hst & Hmb & Htk & _ & _ & Hset & Hwin & Htokens & Hweth); [|exact Hsender].
      cbn [settings set_rewardsSetAside set_contributor set_base set_members] in Htokens, Hweth.
      rewrite Z.max_r by lia.
      split.
      { intros _. unfold contributorOf. rewrite Hmb.
        cbn [members set_rewardsSetAside set_base set_contributor set_members contributors].
        rewrite lookup_insert_eq. reflexivity. }
      split.
      { unfold contributorOf at 1. rewrite Hmb.
        cbn [members set_rewardsSetAside set_base set_contributor set_members contributors].
        rewrite lookup_insert_eq. reflexivity. }
      split; [exact Htk|]. split; [exact Hwin|]. split; [exact Hset|].
      split; [exact Htokens | exact Hweth].
    - injection Hfirst as <-. rewrite Z.max_l by lia.
      split; [lia|]. split; [lia|]. split; [reflexivity|]. split; [reflexivity|].
      split; [lia|]. split; intros _; split; lia. }
  destruct Hs1 as (Hclaimed & Htotal & Htk & Hwin & Hset & Htokens & Hweth).
  assert (Hs' : (0 < babl -> claimedAt (contributorOf s' (Garden.sender msg))
                             = Garden.timestamp msg) /\
                (babl <= 0 -> s' = s1) /\
                claimedRewards (contributorOf s' (Garden.sender msg))
                = claimedRewards (contributorOf s1 (Garden.sender msg)) /\
                token s' = token s1 /\ base s' = base s1 /\
                etherOf s' (Garden.sender msg) = etherOf s1 (Garden.sender msg)).
  { destruct (Z.ltb_spec 0 babl) as [Hpos | Hnone].
    - apply andThen_Done in Hrun as (total & _ & Hrun).
      apply andThen_Done in Hrun as ([] & _ & Hrun).
      injection Hrun as <-.
      split.
      { intros _. unfold contributorOf.
        cbn [members set_outside set_contributor set_members contributors].
        rewrite lookup_insert_eq. reflexivity. }
      split; [lia|].
      split.
      { unfold contributorOf at 1.
        cbn [members set_outside set_contributor set_members contributors].
        rewrite lookup_insert_eq. reflexivity. }
      split; [reflexivity|]. split; reflexivity.
    - injection Hrun as <-.
      split; [lia|]. split; [reflexivity|]. split; [reflexivity|].
      split; [reflexivity|]. split; reflexivity. }
  destruct Hs' as (Hbabl & Hsame & Htotal' & Htk' & Hbase & Hether').
  assert (Heither : 0 < babl \/ 0 < profits).
  { destruct (Z.ltb_spec 0 babl) as [Hpos | Hnone]; [left; assumption|].
    apply andThen_Done in Hany as (again & Hagain & Hany).
    rewrite Hprofits in Hagain. injection Hagain as <-.
    injection Hany as Hany. apply Z.ltb_lt in Hany. right. assumption. }
  split.
  { destruct (Z.ltb_spec 0 babl) as [Hpos | Hnone]; [apply Hbabl; assumption|].
    rewrite Hsame by assumption. apply Hclaimed. lia. }
  split; [congruence|]. rewrite Hbase. split; [exact Hwin|].
  exists rewards, profits.
  split; [exact Hrewards|].
  split.
  { apply lift_Done in Hprofits. unfold reward in Hprofits.
    destruct (rewards !! 6%nat) as [r|]; [|discriminate].
    injection Hprofits as ->. reflexivity. }
  split; [exact Hset|].
  split; [congruence|].
  split; [exact Htokens|].
  intros Hreserve. destruct (Hweth Hreserve) as [Hbalance Hsent].
  split; [exact Hbalance | congruence].
Qed.

(** X20. A [claimReturns] that returns has paid the profits that the
    rewards distributor reports for the caller, [rewards[6]]: it has
    taken them off the rewards set aside, added them to the caller's
    [claimedRewards] and left the principal window alone. In a garden
    whose reserve asset is not WETH the same amount of reserve tokens
    goes from the garden to the caller, so the liquid reserve is what it
    was; in a WETH garden the caller is sent that amount of ether, and
    only the part that the garden's own ether does not cover is unwrapped
    from its WETH. *)
Theorem claimReturns_pays_from_the_set_aside
        (ctl : Garden.Controller) (peers : Peers) (msg : Garden.Msg)
        (s s' : State) (_finalizedStrategies : list address)
        (rewards : list Z) (profits : Z) :
  claimReturns ctl peers msg s _finalizedStrategies = Done s' ->
  Garden.sender msg <> Garden.this (base s) ->
  0 <= etherOf s (Garden.this (base s)) ->
  getRewards peers (Garden.this (base s)) (Garden.sender msg) _finalizedStrategies
  = Ok rewards ->
  rewards !! 6%nat = Some profits ->
  0 <= profits ->
  Garden.reserveAssetRewardsSetAside (base s')
  = Garden.reserveAssetRewardsSetAside (base s) - profits /\
  claimedRewards (contributorOf s' (Garden.sender msg))
  = claimedRewards (contributorOf s (Garden.sender msg)) + profits /\
  Garden.reserveAssetPrincipalWindow (base s') = Garden.reserveAssetPrincipalWindow (base s) /\
  (reserveAsset (settings s) <> WETH ->
   ERC20.balanceOf (Garden.ledger (base s')) (Garden.this (base s))
   = ERC20.balanceOf (Garden.ledger (base s)) (Garden.this (base s)) - profits /\
   ERC20.balanceOf (Garden.ledger (base s')) (Garden.sender msg)
   = ERC20.balanceOf (Garden.ledger (base s)) (Garden.sender msg) + profits /\
   Garden.liquidOf (base s') = Garden.liquidOf (base s)) /\
  (reserveAsset (settings s) = WETH ->
   ERC20.balanceOf (Garden.ledger (base s')) (Garden.this (base s))
   = ERC20.balanceOf (Garden.ledger (base s)) (Garden.this (base s))
     - Z.max 0 (profits - etherOf s (Garden.this (base s))) /\
   etherOf s' (Garden.sender msg) = etherOf s (Garden.sender msg) + profits).
Proof.
  intros Hrun Hsender Hether Hrewards Hprofits Hpos.
  pose proof Hrun as Hthis.
  destruct (claimReturns_Done _ _ _ _ _ _ Hrun Hsender Hether)
    as (_ & _ & _ & Hwin & rewards' & profits' & Hrewards' & Hprofits' & Hset & Htotal
        & Htokens & Hweth).
  rewrite Hrewards in Hrewards'. injection Hrewards' as <-.
  rewrite Hprofits in Hprofits'. injection Hprofits' as <-.
  rewrite (Z.max_r 0 profits) in Hset, Htotal, Htokens, Hweth by assumption.
  split; [exact Hset|]. split; [exact Htotal|]. split; [exact Hwin|].
  split; [|exact Hweth].
  intros Hreserve. destruct (Htokens Hreserve) as [Hgarden Hcaller].
  split; [exact Hgarden|]. split; [exact Hcaller|].
  unfold Garden.liquidOf. rewrite Hset, Hwin.
  assert (Hsame : Garden.this (base s') = Garden.this (base s)).
  { clear - Hthis Hsender. unfold claimReturns in Hthis. cbv zeta in Hthis.
    apply andThen_Done in Hthis as ([] & _ & Hthis).
    apply andThen_Done in Hthis as ([] & _ & Hthis).
    apply andThen_Done in Hthis as (rewards & _ & Hthis).
    apply andThen_Done in Hthis as (babl & _ & Hthis).
    apply andThen_Done in Hthis as (any & _ & Hthis).
    apply andThen_Done in Hthis as ([] & _ & Hthis).
    apply andThen_Done in Hthis as (profits & _ & Hthis).
    apply andThen_Done in Hthis as (s1 & Hfirst & Hthis).
    assert (H1 : Garden.this (base s1) = Garden.this (base s)).
    { destruct (0 <? profits).
      - apply andThen_Done in Hfirst as (total & _ & Hfirst).
        apply andThen_Done in Hfirst as (setAside & _ & Hfirst).
        apply lift_Done in Hfirst.
        apply safeSendReserveAsset_Ok in Hfirst as (_ & _ & _ & _ & Hsame & _);
          [exact Hsame | exact Hsender].
      - injection Hfirst as <-. reflexivity. }
    destruct (0 <? babl).
    - apply andThen_Done in Hthis as (total & _ & Hthis).
      apply andThen_Done in Hthis as ([] & _ & Hthis).
      injection Hthis as <-. exact H1.
    - injection Hthis as <-. exact H1. }
  rewrite Hsame, Hgarden. lia.
Qed.

(** X21. A [claimReturns] that returns stamps the caller's [claimedAt]
    with the time of the call, which is later than the stamp it found:
    the same caller cannot claim again at that time or before, whatever
    strategies are named and whatever the rewards distributor answers. *)
Theorem claimReturns_once_per_timestamp
        (ctl : Garden.Controller) (peers : Peers) (msg : Garden.Msg)
        (s s' : State) (_finalizedStrategies : list address) :
  claimReturns ctl peers msg s _finalizedStrategies = Done s' ->
  Garden.sender msg <> Garden.this (base s) ->
  0 <= etherOf s (Garden.this (base s)) ->
  claimedAt (contributorOf s (Garden.sender msg)) < Garden.timestamp msg /\
  claimedAt (contributorOf s' (Garden.sender msg)) = Garden.timestamp msg /\
  forall ctl' peers' msg' strategies',
    Garden.sender msg' = Garden.sender msg ->
    Garden.timestamp msg' <= Garden.timestamp msg ->
    exists f, claimReturns ctl' peers' msg' s' strategies' = Failed f.
Proof.
  intros Hrun Hsender Hether.
  destruct (claimReturns_Done _ _ _ _ _ _ Hrun Hsender Hether) as (Hbefore & Hafter & _).
  split; [exact Hbefore|]. split; [exact Hafter|].
  intros ctl' peers' msg' strategies' Hsame Hnow.
  unfold claimReturns. cbv zeta.
  destruct (_onlyContributor ctl' msg' s') as [[]|f]; [|exists f; reflexivity].
  cbn [andThen]. rewrite Hsame, Hafter.
  destruct (Z.ltb_spec (Garden.timestamp msg) (Garden.timestamp msg')); [lia|].
  exists (Coded ALREADY_CLAIMED). reflexivity.
Qed.

(** X22. For a registered strategy of an unpaused garden,
    [burnStrategistStake] always returns, whether or not transfers of
    garden tokens are enabled: it burns the amount asked or, when the
    strategist holds less, the strategist's whole balance, and lowers the
    total supply by what it burns. No other balance changes and no
    reserve asset moves. *)
Theorem burnStrategistStake_burns_at_most_the_balance
        (ctl : Garden.Controller) (peers : Peers) (msg : Garden.Msg) (s : State)
        (_strategist : address) (_amount : Z) :
  Garden._onlyStrategy ctl msg (base s) = Ok tt ->
  _strategist <> 0%N ->
  0 <= _amount ->
  balanceOf s _strategist <= totalSupply (token s) ->
  exists s',
    burnStrategistStake ctl peers msg s _strategist _amount = Done s' /\
    balanceOf s' _strategist
    = balanceOf s _strategist - Z.min _amount (balanceOf s _strategist) /\
    totalSupply (token s')
    = totalSupply (token s) - Z.min _amount (balanceOf s _strategist) /\
    (forall other, other <> _strategist -> balanceOf s' other = balanceOf s other) /\
    base s' = base s.
Proof.
  intros Hguard Hzero Hpos Hsupply.
  unfold burnStrategistStake. rewrite Hguard. cbn [lift andThen]. cbv zeta.
  unfold _burn. destruct (decide (_strategist = 0%N)) as [|_]; [contradiction|].
  unfold _beforeTokenTransfer.
  replace (bool_decide (0%N = 0%N)) with true by (symmetry; apply bool_decide_eq_true_2; reflexivity).
  rewrite orb_true_r. cbn [orb ensure andThen].
  set (burnt := if _amount >=? balanceOf s _strategist then balanceOf s _strategist
                else _amount).
  assert (Hburnt : burnt = Z.min _amount (balanceOf s _strategist)).
  { unfold burnt. destruct (Z.geb_spec _amount (balanceOf s _strategist)); lia. }
  destruct (Z.leb_spec burnt (balanceOf s _strategist)) as [_ | Hover]; [|lia].
  assert (Hsub : SafeMath.sub (totalSupply (token s)) burnt = Ok (totalSupply (token s) - burnt))
    by (apply sub_Ok; split; [reflexivity | lia]).
  rewrite Hsub. cbn [lift andThen].
  eexists. split; [reflexivity|].
  unfold balanceOf at 1. cbn [token set_token shares totalSupply base].
  rewrite lookup_insert_eq. cbn [default]. unfold id.
  split; [lia|]. split; [lia|]. split; [|reflexivity].
  intros other Hother. unfold balanceOf. cbn [token set_token shares].
  rewrite lookup_insert_ne by congruence. reflexivity.
Qed.

(** X23. Once the controller has switched the garden off with
    [setActive(false)], which it can do only while the garden is on, no
    [allocateCapitalToStrategy] returns, for any strategy, controller
    setting, time or capital, and switching it off again fails; the
    reserve asset and the debt to keepers are as they were. *)
Theorem deactivated_garden_allocates_nothing (msg : Garden.Msg) (s s' : State) :
  setActive msg s false = Done s' ->
  Garden.active (base s) = true /\
  Garden.sender msg = controller (settings s) /\
  Garden.ledger (base s') = Garden.ledger (base s) /\
  Garden.keeperDebt (base s') = Garden.keeperDebt (base s) /\
  (forall ctl msg' capital,
      exists r, Garden.allocateCapitalToStrategy ctl msg' (base s') capital = Revert r) /\
  (forall msg', exists f, setActive msg' s' false = Failed f).
Proof.
  unfold setActive. intros Hrun.
  apply andThen_Done in Hrun as ([] & Hsender & Hrun).
  apply ensure_Done in Hsender. apply bool_decide_eq_true_1 in Hsender.
  apply andThen_Done in Hrun as ([] & Hon & Hrun).
  apply ensure_Done in Hon. injection Hrun as <-.
  destruct (Garden.active (base s)) eqn:Hactive; [|discriminate].
  split; [reflexivity|]. split; [assumption|].
  split; [reflexivity|]. split; [reflexivity|]. split.
  - intros ctl msg' capital. unfold Garden.allocateCapitalToStrategy.
    destruct (Garden._onlyStrategy ctl msg' _) as [[]|r]; [|exists r; reflexivity].
    cbn [bind]. unfold Garden._onlyActive.
    destruct (Garden._onlyUnpaused ctl _) as [[]|r]; [|exists r; reflexivity].
    cbn. exists (BabylonError ONLY_ACTIVE). reflexivity.
  - intros msg'. unfold setActive.
    destruct (ensure (bool_decide _) ONLY_CONTROLLER) as [[]|f]; [|exists f; reflexivity].
    cbn. exists (Coded ONLY_INACTIVE). reflexivity.
Qed.

(** X24. [makeGardenPublic] works once: when it returns, the guest list
    is off, no later [makeGardenPublic] returns, and from then on a
    transfer of garden tokens between two accounts is allowed exactly
    when the controller enables transfers. Balances, supply and reserve
    are untouched. *)
Theorem makeGardenPublic_is_a_latch (peers : Peers) (msg : Garden.Msg) (s s' : State) :
  makeGardenPublic peers msg s = Done s' ->
  guestListEnabled (settings s) = true /\
  guestListEnabled (settings s') = false /\
  base s' = base s /\ token s' = token s /\
  (forall peers' msg', exists f, makeGardenPublic peers' msg' s' = Failed f) /\
  (forall peers' from to,
      from <> 0%N -> to <> 0%N ->
      _beforeTokenTransfer peers' s' from to
      = ensure (gardenTokensTransfersEnabled peers') GARDEN_TRANSFERS_DISABLED).
Proof.
  unfold makeGardenPublic. intros Hrun.
  apply andThen_Done in Hrun as ([] & _ & Hrun).
  apply andThen_Done in Hrun as ([] & Hlisted & Hrun).
  apply ensure_Done in Hlisted. apply andb_true_iff in Hlisted as [Hlisted _].
  injection Hrun as <-.
  split; [assumption|]. split; [reflexivity|]. split; [reflexivity|].
  split; [reflexivity|]. split.
  - intros peers' msg'. unfold makeGardenPublic.
    destruct (ensure (bool_decide _) ONLY_CREATOR) as [[]|f]; [|exists f; reflexivity].
    cbn. exists (Coded GARDEN_ALREADY_PUBLIC). reflexivity.
  - intros peers' from to Hfrom Hto. unfold _beforeTokenTransfer.
    rewrite !bool_decide_eq_false_2 by assumption.
    cbn. rewrite andb_true_r. reflexivity.
Qed.

End ClaimFacts.

(** Contributor 12 claims 4 of profits and 3 BABL from a garden holding
    100 with 5 of rewards set aside: 1 stays set aside and 4 reserve
    tokens go from the garden to the contributor. *)
Lemma claimReturns_pays_from_the_set_aside_witness :
  Garden.reserveAssetRewardsSetAside (GardenBook.base claimed)
  = Garden.reserveAssetRewardsSetAside (GardenBook.base (bookOf (gardenWith 100 10 5 0))) - 4 /\
  GardenBook.claimedRewards (GardenBook.contributorOf claimed (Garden.sender (fromContributor 500)))
  = GardenBook.claimedRewards
      (GardenBook.contributorOf (bookOf (gardenWith 100 10 5 0))
                                (Garden.sender (fromContributor 500))) + 4 /\
  ERC20.balanceOf (Garden.ledger (GardenBook.base claimed))
                  (Garden.this (GardenBook.base (bookOf (gardenWith 100 10 5 0))))
  = ERC20.balanceOf (Garden.ledger (GardenBook.base (bookOf (gardenWith 100 10 5 0))))
                    (Garden.this (GardenBook.base (bookOf (gardenWith 100 10 5 0)))) - 4 /\
  ERC20.balanceOf (Garden.ledger (GardenBook.base claimed)) (Garden.sender (fromContributor 500))
  = ERC20.balanceOf (Garden.ledger (GardenBook.base (bookOf (gardenWith 100 10 5 0))))
                    (Garden.sender (fromContributor 500)) + 4.
Proof.
  destruct (claimReturns_pays_from_the_set_aside
              controller0 peers0 (fromContributor 500) (bookOf (gardenWith 100 10 5 0))
              claimed [] [0; 0; 0; 0; 0; 3; 4] 4)
    as (Hset & Htotal & _ & Htokens & _); [evaluate .. |].
  destruct Htokens as (Hgarden & Hcaller & _); [vm_compute; discriminate|].
  split; [exact Hset|]. split; [exact Htotal|]. split; [exact Hgarden | exact Hcaller].
Defined.

(** The same contributor claims again at the same time. *)
Lemma claimReturns_once_per_timestamp_witness :
  exists f,
    GardenBook.claimReturns controller0 peers0 (fromContributor 500) claimed [] = GardenBook.Failed f.
Proof.
  destruct (claimReturns_once_per_timestamp
              controller0 peers0 (fromContributor 500) (bookOf (gardenWith 100 10 5 0))
              claimed [])
    as (_ & _ & Hagain); [evaluate .. |].
  apply Hagain; [reflexivity | vm_compute; discriminate].
Defined.

(** Strategy 50 burns 7 garden tokens of strategist 11, who holds 5. *)
Lemma burnStrategistStake_burns_at_most_the_balance_witness :
  exists s',
    GardenBook.burnStrategistStake controller0 peers0 (fromStrategy 500)
                                   (bookOf (gardenWith 100 10 5 0)) 11%N 7 = GardenBook.Done s' /\
    GardenBook.balanceOf s' 11%N
    = GardenBook.balanceOf (bookOf (gardenWith 100 10 5 0)) 11%N
      - Z.min 7 (GardenBook.balanceOf (bookOf (gardenWith 100 10 5 0)) 11%N).
Proof.
  destruct (burnStrategistStake_burns_at_most_the_balance
              controller0 peers0 (fromStrategy 500) (bookOf (gardenWith 100 10 5 0)) 11%N 7)
    as (s' & Hburn & Hbalance & _); [evaluate .. |].
  exists s'. split; [exact Hburn | exact Hbalance].
Defined.

(** The controller, 7, switches the garden off. *)
Lemma deactivated_garden_allocates_nothing_witness :
  Garden.active (GardenBook.base (bookOf (gardenWith 100 10 5 0))) = true /\
  forall ctl msg' capital,
    exists r, Garden.allocateCapitalToStrategy ctl msg' (GardenBook.base switchedOff) capital
              = Revert r.
Proof.
  destruct (deactivated_garden_allocates_nothing
              (fromController 500) (bookOf (gardenWith 100 10 5 0)) switchedOff)
    as (Hon & _ & _ & _ & Hnone & _); [evaluate |].
  split; [exact Hon | exact Hnone].
Defined.

(** The creator, 11, makes the garden public. *)
Lemma makeGardenPublic_is_a_latch_witness :
  GardenBook.guestListEnabled (GardenBook.settings madePublic) = false /\
  forall peers' msg',
    exists f, GardenBook.makeGardenPublic peers' msg' madePublic = GardenBook.Failed f.
Proof.
  destruct (makeGardenPublic_is_a_latch peers0 (fromCreator 500)
                                        (bookOf (gardenWith 100 10 5 0)) madePublic)
    as (_ & Hoff & _ & _ & Hnone & _); [evaluate |].
  split; [exact Hoff | exact Hnone].
Defined.
